(** * terraform-provider-squadcast: schedules, schedule rotations, webforms

    A shallow embedding of

      - internal/api/schedules.go
      - internal/provider/resource_schedule_rotation.go
      - internal/provider/resource_webform.go

    together with the few functions of Go's standard library those files
    call (strings.SplitN, strconv.ParseInt, strconv.Itoa, strconv.FormatUint).

    Conventions.  A Go [string] is a [string] of bytes; a Go [int]/[int64] is
    a [Z] in the 64-bit range, wrap-around written out where the code
    converts; [interface{}] is the inductive [iface]; a Go map used as a
    dictionary is a [gmap]; a pair [(v, err)] is kept as a pair, [option]
    standing for a nilable pointer or a nilable [error].  A run-time panic
    (failed type assertion, nil dereference) is the [Panic] outcome. *)

From Stdlib Require Import ZArith Lia String Ascii DecimalString DecimalN DecimalPos.
From stdpp Require Import base option list gmap strings.

Set Warnings "-register-all".
Local Open Scope Z_scope.

(** ** Go values *)

(** [interface{}] ([any]): the dynamic values the plugin SDK hands to a
    resource handler, and a struct as reflection sees it, each field with
    its [tf] struct tag, in declaration order. *)
Inductive iface :=
| INil
| IStr (s : string)
| IInt (z : Z)
| IBool (b : bool)
| IList (l : list iface)
| IMap (m : gmap string iface)
| IStruct (fields : list (string * iface)).

(** A Go [error]: what the handlers observe of it is its message. *)
Record error := mkError { Error : string }.

(** The result of running Go code that may panic. *)
Inductive Outcome (A : Type) :=
| Done (a : A)
| Panic (msg : string).
Arguments Done {A} a.
Arguments Panic {A} msg.

Definition obind {A B} (o : Outcome A) (k : A -> Outcome B) : Outcome B :=
  match o with
  | Done a => k a
  | Panic msg => Panic msg
  end.

(** [v.(string)], [v.([]interface{})], [v.(map[string]interface{})]
    without the comma-ok form: a failed assertion panics. *)
Definition assertString (v : iface) : Outcome string :=
  match v with
  | IStr s => Done s
  | _ => Panic "interface conversion: interface {} is not string"
  end.

Definition assertList (v : iface) : Outcome (list iface) :=
  match v with
  | IList l => Done l
  | _ => Panic "interface conversion: interface {} is not []interface {}"
  end.

(** [m, ok := v.(map[string]interface{})] *)
Definition assertMapOk (v : iface) : gmap string iface * bool :=
  match v with
  | IMap m => (m, true)
  | _ => (∅, false)
  end.

(** [m[k]] on a [map[string]interface{}]: the nil interface when absent. *)
Definition mapIndex (m : gmap string iface) (k : string) : iface :=
  default INil (m !! k).

(** ** Package strings *)

Module Strings.

(** [s[:n]] and [s[n:]] *)
Fixpoint take (n : nat) (s : string) : string :=
  match n, s with
  | O, _ => EmptyString
  | S _, EmptyString => EmptyString
  | S n', String c s' => String c (take n' s')
  end.

Fixpoint drop (n : nat) (s : string) : string :=
  match n, s with
  | O, _ => s
  | S _, EmptyString => EmptyString
  | S n', String _ s' => drop n' s'
  end.

(** The byte [c] occurs in [s] ([strings.IndexByte(s, c) >= 0]). *)
Fixpoint hasByte (c : ascii) (s : string) : bool :=
  match s with
  | EmptyString => false
  | String x s' => Ascii.eqb x c || hasByte c s'
  end.

(** [strings.Index(s, sep)]; [None] stands for Go's [-1]. *)
Fixpoint Index (s sep : string) : option nat :=
  if String.prefix sep s then Some O
  else match s with
       | EmptyString => None
       | String _ s' => S <$> Index s' sep
       end.

(** The loop of [genSplit]: at most [n] cuts, the remainder last. *)
Fixpoint splitLoop (n : nat) (s sep : string) : list string :=
  match n with
  | O => [s]
  | S n' =>
      match Index s sep with
      | None => [s]
      | Some m => take m s :: splitLoop n' (drop (m + String.length sep) s) sep
      end
  end.

(** [strings.SplitN(s, sep, n)] for a non-empty [sep] and [n >= 0]:
    [n = 0] gives nil; [n] is capped at [len(s) + 1]; then [n - 1] cuts. *)
Definition SplitN (s sep : string) (n : nat) : list string :=
  match n with
  | O => []
  | S _ => splitLoop (Nat.min n (String.length s + 1) - 1) s sep
  end.

End Strings.

(** ** Package strconv *)

Module Strconv.

Inductive NumError := ErrSyntax | ErrRange.

Definition byteZ (c : ascii) : Z := Z.of_N (N_of_ascii c).

(** [lower(c) = c | ('x' - 'X')] *)
Definition lower (c : Z) : Z := Z.lor c 32.

Definition maxUint64 : Z := 2 ^ 64 - 1.
Definition uint64 (z : Z) : Z := z mod 2 ^ 64.
Definition int64 (z : Z) : Z := (z + 2 ^ 63) mod 2 ^ 64 - 2 ^ 63.

(** The [switch] of ParseUint's loop: the digit value of a byte, [None]
    for the [default] branch. *)
Definition digitOf (c : Z) : option Z :=
  if (48 <=? c) && (c <=? 57) then Some (c - 48)
  else if (97 <=? lower c) && (lower c <=? 122) then Some (lower c - 97 + 10)
  else None.

(** [cutoff = maxUint64/10 + 1]: the smallest number whose tenfold
    overflows. *)
Definition cutoff10 : Z := maxUint64 / 10 + 1.

(** The loop of [ParseUint(s, 10, 64)], [n] the value read so far. *)
Fixpoint parseUintLoop (s : string) (n : Z) : Z * option NumError :=
  match s with
  | EmptyString => (n, None)
  | String c s' =>
      match digitOf (byteZ c) with
      | None => (0, Some ErrSyntax)
      | Some d =>
          if 10 <=? d then (0, Some ErrSyntax)
          else if cutoff10 <=? n then (maxUint64, Some ErrRange)
          else
            let n10 := uint64 (n * 10) in
            let n1 := uint64 (n10 + d) in
            if (n1 <? n10) || (maxUint64 <? n1) then (maxUint64, Some ErrRange)
            else parseUintLoop s' n1
      end
  end.

(** [strconv.ParseUint(s, 10, 64)] *)
Definition ParseUint10 (s : string) : Z * option NumError :=
  match s with
  | EmptyString => (0, Some ErrSyntax)
  | _ => parseUintLoop s 0
  end.

(** [strconv.ParseInt(s, 10, 64)] *)
Definition ParseInt10 (s : string) : Z * option NumError :=
  match s with
  | EmptyString => (0, Some ErrSyntax)
  | String c rest =>
      let '(neg, s1) :=
        if Ascii.eqb c "+" then (false, rest)
        else if Ascii.eqb c "-" then (true, rest)
        else (false, s) in
      let '(un, err) := ParseUint10 s1 in
      match err with
      | Some ErrSyntax => (0, Some ErrSyntax)
      | _ =>
          let cutoff := 2 ^ 63 in
          if negb neg && (cutoff <=? un) then (cutoff - 1, Some ErrRange)
          else if neg && (cutoff <? un) then (- cutoff, Some ErrRange)
          else
            let n := int64 un in
            (if neg then int64 (- n) else n, None)
      end
  end.

(** [strconv.Itoa(i)] *)
Definition Itoa (i : Z) : string := NilZero.string_of_int (Z.to_int i).

(** [strconv.FormatUint(u, 10)] *)
Definition FormatUint10 (u : Z) : string := NilZero.string_of_uint (N.to_uint (Z.to_N u)).

End Strconv.

(** ** Package tf (internal/tf) *)

Module tf.

(** A struct type with [tf] struct tags: its fields as reflection
    enumerates them. *)
Class Tagged (T : Type) := tfFields : T -> list (string * iface).

(** The coercion of one field value ("list/map coercion, nested block
    flattening"), which may fail. *)
Class Coercion := coerce : iface -> error + iface.

(** Modelled from the spec: the loop of tf.Encode over the fields of a
    struct; tf.Encode is not under src/.  The spec calls it struct-tag-driven
    marshalling: one entry per field, keyed by the field's [tf] tag and
    holding the coerced field value; a field tagged [-] is left out.  The
    first coercion that fails is the error of the whole. *)
Fixpoint encodeFields `{Coercion} (fs : list (string * iface))
    (m : gmap string iface) : error + gmap string iface :=
  match fs with
  | [] => inr m
  | (tag, v) :: fs' =>
      if String.eqb tag "-" then encodeFields fs' m
      else match coerce v with
           | inl e => inl e
           | inr v' => encodeFields fs' (<[tag := v']> m)
           end
  end.

(** Modelled from the spec: [tf.Encode(input)], not under src/, on a
    struct with [tf] tags, starting from the empty map. *)
Definition Encode `{Coercion} {T} `{Tagged T} (input : T)
    : error + gmap string iface :=
  encodeFields (tfFields input) ∅.

(** Modelled from the spec: tf.EncodeSlice is not under src/.  It encodes
    a slice element by element, in order, [enc] being the encoder of one
    element; the first failure is the error of the whole. *)
Fixpoint EncodeSlice {T} (enc : T -> error + gmap string iface)
    (input : list T) : error + list iface :=
  match input with
  | [] => inr []
  | x :: xs =>
      match enc x with
      | inl e => inl e
      | inr m =>
          match EncodeSlice enc xs with
          | inl e => inl e
          | inr ms => inr (IMap m :: ms)
          end
      end
  end.

End tf.

(** ** Package api (internal/api/schedules.go) *)

Module api.

(** [OwnerRef] is declared elsewhere in the package; schedules.go reads
    its [ID]. *)
Module OwnerRef.
Record t := mk { ID : string }.
End OwnerRef.

(** The legacy schedule. *)
Module Schedule.
Record t := mk {
  ID : string;
  Name : string;
  Slug : string;
  Colour : string;
  Description : string;
  Owner : OwnerRef.t
}.
End Schedule.

Module Owner.
Record t := mk { ID : string; Type_ : string }.
End Owner.

Module Tag.
Record t := mk { Key : string; Value : string; Color : string }.
End Tag.

(** [Tags []*Tag] is kept as the list of the tags pointed to;
    [Owner *Owner] is nil or points to an owner. *)
Module NewSchedule.
Record t := mk {
  ID : Z;
  Name : string;
  Description : string;
  TimeZone : string;
  TeamID : string;
  Tags : list Tag.t;
  Owner : option Owner.t
}.
Definition zero : t := mk 0 "" "" "" "" [] None.
End NewSchedule.

#[global] Instance OwnerRef_Tagged : tf.Tagged OwnerRef.t :=
  fun o => [("id", IStr (OwnerRef.ID o))].

#[global] Instance Schedule_Tagged : tf.Tagged Schedule.t :=
  fun s => [("id", IStr (Schedule.ID s));
            ("name", IStr (Schedule.Name s));
            ("-", IStr (Schedule.Slug s));
            ("color", IStr (Schedule.Colour s));
            ("description", IStr (Schedule.Description s));
            ("-", IStruct (tf.tfFields (Schedule.Owner s)))].

#[global] Instance Owner_Tagged : tf.Tagged Owner.t :=
  fun o => [("id", IStr (Owner.ID o)); ("type", IStr (Owner.Type_ o))].

#[global] Instance Tag_Tagged : tf.Tagged Tag.t :=
  fun t => [("key", IStr (Tag.Key t));
            ("value", IStr (Tag.Value t));
            ("color", IStr (Tag.Color t))].

#[global] Instance NewSchedule_Tagged : tf.Tagged NewSchedule.t :=
  fun s => [("id", IInt (NewSchedule.ID s));
            ("name", IStr (NewSchedule.Name s));
            ("description", IStr (NewSchedule.Description s));
            ("timezone", IStr (NewSchedule.TimeZone s));
            ("team_id", IStr (NewSchedule.TeamID s));
            ("tags", IList ((fun t => IStruct (tf.tfFields t)) <$> NewSchedule.Tags s));
            ("-", match NewSchedule.Owner s with
                  | None => INil
                  | Some o => IStruct (tf.tfFields o)
                  end)].

(** A Go result pair [(v, err)], [v] a map or pointer that may be nil. *)
Definition result (A : Type) : Type := option A * option error.

Section Encode.
Context `{tf.Coercion}.

(** [func (s *Schedule) Encode() (tf.M, error)] *)
Definition Schedule_Encode (s : Schedule.t) : result (gmap string iface) :=
  match tf.Encode s with
  | inl err => (None, Some err)
  | inr m =>
      let m := <["team_id" := IStr (OwnerRef.ID (Schedule.Owner s))]> m in
      (Some m, None)
  end.

(** [func (tag Tag) Encode() (tf.M, error)] *)
Definition Tag_Encode (tag : Tag.t) : error + gmap string iface :=
  tf.Encode tag.

(** [func (s *NewSchedule) Encode() (tf.M, error)]: [s.Owner.ID]
    dereferences [s.Owner]. *)
Definition NewSchedule_Encode (s : NewSchedule.t)
    : Outcome (result (gmap string iface)) :=
  match tf.Encode s with
  | inl err => Done (None, Some err)
  | inr m =>
      match NewSchedule.Owner s with
      | None => Panic "invalid memory address or nil pointer dereference"
      | Some owner =>
          let m := <["team_id" := IStr (Owner.ID owner)]> m in
          match tf.EncodeSlice Tag_Encode (NewSchedule.Tags s) with
          | inl terr => Done (None, Some terr)
          | inr tagsEncoded =>
              let m := <["tags" := IList tagsEncoded]> m in
              Done (Some m, None)
          end
      end
  end.
End Encode.

(** GraphQL query structs *)
Module ScheduleQueryStruct.
Record t := mk { NewSchedule : NewSchedule.t }.
End ScheduleQueryStruct.

Module ScheduleMutateStruct.
Record t := mk { NewSchedule : NewSchedule.t }.
End ScheduleMutateStruct.

Module ScheduleMutateDeleteStruct.
Record t := mk { Schedule : NewSchedule.t }.
End ScheduleMutateDeleteStruct.

Module CreateUpdateScheduleReq.
Record t := mk {
  Name : string;
  Color : string;
  Description : string;
  TeamID : string
}.
End CreateUpdateScheduleReq.

(** [Client] is declared elsewhere in the package; schedules.go reads
    its [BaseURLV3]. *)
Module Client.
Record t := mk { BaseURLV3 : string }.
End Client.

(** A value of the [variables] map of a GraphQL request. *)
Inductive GqlVar :=
| VInt64 (i : Z)
| VNewSchedule (payload : NewSchedule.t).

(** What goes out on the wire, one entry per request. *)
Inductive WireCall :=
| HTTP (method url : string) (body : option string)
| GraphQL (kind : string) (variables : gmap string GqlVar).

(** A Go type the transport marshals into a request body or unmarshals a
    response into (encoding/json does it by reflection). *)
Class JSON (T : Type) := {
  marshal : T -> string;
  unmarshal : string -> option T
}.

(** The generic transport functions [Request], [RequestSlice] and
    [GraphQLRequest] are declared elsewhere in the package.  Each takes the
    remote platform from one state to the next and hands back the decoded
    response with the error; a slice of pointers is kept as the list of
    the values pointed to. *)
Class Transport (Remote : Type) := {
  Request : forall (TReq TRes : Type) `{JSON TReq} `{JSON TRes},
    string -> string -> Client.t -> option TReq -> Remote -> result TRes * Remote;
  RequestSlice : forall (TReq TRes : Type) `{JSON TReq} `{JSON TRes},
    string -> string -> Client.t -> option TReq -> Remote ->
    (list TRes * option error) * Remote;
  GraphQLRequest : forall (T : Type) `{JSON T},
    string -> Client.t -> T -> gmap string GqlVar -> Remote -> result T * Remote
}.

Definition MethodGet : string := "GET".
Definition MethodPost : string := "POST".
Definition MethodPut : string := "PUT".
Definition MethodDelete : string := "DELETE".

(** The remote platform and the requests sent to it so far. *)
Record World (Remote : Type) := mkWorld { remote : Remote; sent : list WireCall }.
Arguments mkWorld {Remote} remote sent.
Arguments remote {Remote} _.
Arguments sent {Remote} _.

(** A client method: it steps the world and returns. *)
Definition Api (Remote A : Type) : Type := World Remote -> A * World Remote.

Definition ret {Remote A} (a : A) : Api Remote A := fun w => (a, w).
Definition bind {Remote A B} (c : Api Remote A) (k : A -> Api Remote B)
    : Api Remote B :=
  fun w => let '(a, w') := c w in k a w'.

Section Wrappers.
Context {Remote : Type} `{Transport Remote}.
Context `{JSON iface, JSON Schedule.t, JSON CreateUpdateScheduleReq.t}.
Context `{JSON ScheduleQueryStruct.t, JSON ScheduleMutateStruct.t,
          JSON ScheduleMutateDeleteStruct.t}.

(** One call of [Request]: one request on the wire. *)
Definition doRequest (TReq TRes : Type) `{JSON TReq} `{JSON TRes}
    (method url : string) (client : Client.t) (payload : option TReq)
    : Api Remote (result TRes) :=
  fun w =>
    let '(r, rem) := Request TReq TRes method url client payload (remote w) in
    (r, mkWorld rem (sent w ++ [HTTP method url (marshal <$> payload)])).

Definition doRequestSlice (TReq TRes : Type) `{JSON TReq} `{JSON TRes}
    (method url : string) (client : Client.t) (payload : option TReq)
    : Api Remote (list TRes * option error) :=
  fun w =>
    let '(r, rem) := RequestSlice TReq TRes method url client payload (remote w) in
    (r, mkWorld rem (sent w ++ [HTTP method url (marshal <$> payload)])).

Definition doGraphQLRequest (T : Type) `{JSON T}
    (kind : string) (client : Client.t) (m : T) (variables : gmap string GqlVar)
    : Api Remote (result T) :=
  fun w =>
    let '(r, rem) := GraphQLRequest T kind client m variables (remote w) in
    (r, mkWorld rem (sent w ++ [GraphQL kind variables])).

Definition GetScheduleById (client : Client.t) (teamID id : string)
    : Api Remote (result Schedule.t) :=
  let url := Client.BaseURLV3 client +:+ "/schedules/" +:+ id
             +:+ "?owner_id=" +:+ teamID in
  doRequest iface Schedule.t MethodGet url client None.

Definition ListSchedules (client : Client.t) (teamID : string)
    : Api Remote (list Schedule.t * option error) :=
  let url := Client.BaseURLV3 client +:+ "/schedules?owner_id=" +:+ teamID in
  doRequestSlice iface Schedule.t MethodGet url client None.

(** The [for ... range schedules] loop of GetScheduleByName. *)
Fixpoint findByName (schedules : list Schedule.t) (name : string)
    : option Schedule.t :=
  match schedules with
  | [] => None
  | s :: rest =>
      if String.eqb (Schedule.Name s) name then Some s
      else findByName rest name
  end.

Definition GetScheduleByName (client : Client.t) (teamID name : string)
    : Api Remote (result Schedule.t) :=
  bind (ListSchedules client teamID) (fun '(schedules, err) =>
  match err with
  | Some e => ret (None, Some e)
  | None =>
      match findByName schedules name with
      | Some s => ret (Some s, None)
      | None =>
          ret (None, Some (mkError
            ("could not find a schedule with name `" +:+ name +:+ "`")))
      end
  end).

Definition CreateSchedule (client : Client.t)
    (req : option CreateUpdateScheduleReq.t) : Api Remote (result Schedule.t) :=
  let url := Client.BaseURLV3 client +:+ "/schedules" in
  doRequest CreateUpdateScheduleReq.t Schedule.t MethodPost url client req.

Definition UpdateSchedule (client : Client.t) (id : string)
    (req : option CreateUpdateScheduleReq.t) : Api Remote (result Schedule.t) :=
  let url := Client.BaseURLV3 client +:+ "/schedules/" +:+ id in
  doRequest CreateUpdateScheduleReq.t Schedule.t MethodPut url client req.

Definition DeleteSchedule (client : Client.t) (id : string)
    : Api Remote (result iface) :=
  let url := Client.BaseURLV3 client +:+ "/schedules/" +:+ id in
  doRequest iface iface MethodDelete url client None.

(** ScheduleV2 APIs.  [diag.Errorf(...)] builds a diagnostics value
    and the statement drops it: nothing is returned there. *)
Definition DeleteScheduleV2ByID (client : Client.t) (ID : string)
    : Api Remote (result ScheduleMutateDeleteStruct.t) :=
  let m := ScheduleMutateDeleteStruct.mk NewSchedule.zero in
  let '(id, err) := Strconv.ParseInt10 ID in
  let _ := match err with
           | Some _ => Some "unable to convert schedule ID to string"
           | None => None
           end in
  let variables : gmap string GqlVar := {[ "ID" := VInt64 id ]} in
  doGraphQLRequest ScheduleMutateDeleteStruct.t "mutate" client m variables.

Definition GetScheduleV2ById (client : Client.t) (ID : string)
    : Api Remote (result ScheduleQueryStruct.t) :=
  let m := ScheduleQueryStruct.mk NewSchedule.zero in
  let '(id, err) := Strconv.ParseInt10 ID in
  let _ := match err with
           | Some _ => Some "unable to convert schedule ID to string"
           | None => None
           end in
  let variables : gmap string GqlVar := {[ "ID" := VInt64 id ]} in
  doGraphQLRequest ScheduleQueryStruct.t "query" client m variables.

Definition CreateScheduleV2 (client : Client.t) (payload : NewSchedule.t)
    : Api Remote (result ScheduleMutateStruct.t) :=
  let m := ScheduleMutateStruct.mk NewSchedule.zero in
  let variables : gmap string GqlVar := {[ "input" := VNewSchedule payload ]} in
  doGraphQLRequest ScheduleMutateStruct.t "mutate" client m variables.
End Wrappers.

(** The rotation structs of schedules.go that the rotation resource
    fills; a slice of pointers is kept as the list of the values pointed
    to. *)
Module Participant.
Record t := mk { ID : Z; Type_ : string }.
End Participant.

Module ParticipantGroup.
Record t := mk { Participants : list Participant.t; Everyone : bool }.
Definition zero : t := mk [] false.
End ParticipantGroup.

Module Timeslot.
Record t := mk { StartHour : Z; StartMinute : Z; Duration : Z; DayOfWeek : Z }.
End Timeslot.

(** *** The rest of package api, as the provider files use it

    The rotation and webform request/response types and the client methods
    on them are declared in files of package api that are not under src/;
    what follows is their signature as resource_schedule_rotation.go and
    resource_webform.go use it. *)

Module NewRotation.
Record t := mk {
  ID : Z;
  Name : string;
  ParticipantGroups : list ParticipantGroup.t;
  StartDate : string;
  Period : string;
  ShiftTimeSlots : list Timeslot.t;
  CustomPeriodFrequency : Z;
  CustomPeriodUnit : string;
  ChangeParticipantsFrequency : Z;
  ChangeParticipantsUnit : string;
  EndDate : string;
  EndsAfterIterations : Z
}.
End NewRotation.

(** The struct the rotation methods answer with: [rotation.NewRotation]. *)
Module RotationStruct.
Record t := mk { NewRotation : NewRotation.t }.
End RotationStruct.

Module WFService.
Record t := mk { ServiceID : string; WebformID : Z; Name : string; Alias : string }.
End WFService.

Module WFSeverity.
Record t := mk { Type_ : string; Description : string }.
End WFSeverity.

Module WebformReq.
Record t := mk {
  Name : string;
  TeamID : string;
  FormOwnerType : string;
  FormOwnerID : string;
  FormOwnerName : string;
  HostName : string;
  IsCname : bool;
  Header : string;
  Description : string;
  Title : string;
  FooterText : string;
  FooterLink : string;
  EmailOn : list string;
  Services : list WFService.t;
  Severity : list WFSeverity.t;
  Tags : gmap string string
}.
End WebformReq.

(** A webform as the platform returns it; [ID] is an unsigned machine
    integer, which resource_webform.go converts with [uint64(...)]. *)
Module Webform.
Record t := mk { ID : Z; Name : string; TeamID : string }.
End Webform.

(** The struct CreateWebform answers with: [webformRes.WebFormRes]. *)
Module WebformRes.
Record t := mk { WebFormRes : Webform.t }.
End WebformRes.

(** The client methods of the two resources, each a step of the remote
    platform, and [IsResourceNotFoundError]. *)
Class Methods (Remote : Type) := {
  GetWebformById : string -> string -> Remote -> result Webform.t * Remote;
  CreateWebform : string -> WebformReq.t -> Remote -> result WebformRes.t * Remote;
  UpdateWebform : string -> string -> WebformReq.t -> Remote -> result WebformRes.t * Remote;
  DeleteWebform : string -> string -> Remote -> result iface * Remote;
  GetScheduleRotationById : string -> Remote -> result RotationStruct.t * Remote;
  GetRotationByName : string -> string -> string -> Remote -> result RotationStruct.t * Remote;
  CreateScheduleRotation : Z -> NewRotation.t -> Remote -> result RotationStruct.t * Remote;
  DeleteScheduleRotationByID : string -> Remote -> result RotationStruct.t * Remote;
  IsResourceNotFoundError : error -> bool
}.

End api.

(** ** Package diag of the plugin SDK *)

Module diag.
Inductive Severity := Error_ | Warning.
Record Diagnostic := mk { severity : Severity; Summary : string }.

(** [diag.Diagnostics]; nil is "no error". *)
Definition Diagnostics : Type := list Diagnostic.

(** [diag.Errorf(format)] without arguments: the summary is the format,
    the formats of these files holding no verb (the one error text passed
    as a format is taken as it is). *)
Definition Errorf (format : string) : Diagnostics := [mk Error_ format].

(** [diag.FromErr(err)] for a non-nil [err]. *)
Definition FromErr (err : error) : Diagnostics := [mk Error_ (Error err)].

Definition HasError (ds : Diagnostics) : bool :=
  existsb (fun x => match severity x with Error_ => true | Warning => false end) ds.
End diag.

(** ** Package validation of the plugin SDK *)

Module validation.
(** [StringInSlice(valid, false)] accepts [v] when it is one of [valid]. *)
Definition StringInSlice (valid : list string) (v : string) : bool :=
  existsb (String.eqb v) valid.

(** [IntBetween(min, max)] *)
Definition IntBetween (min max v : Z) : bool := (min <=? v) && (v <=? max).

(** [StringLenBetween(min, max)] *)
Definition StringLenBetween (min max : nat) (v : string) : bool :=
  (min <=? String.length v)%nat && (String.length v <=? max)%nat.
End validation.

(** ** Package provider *)

Module provider.

(** [*schema.ResourceData]: the resource ID and the attributes, typed by
    the resource's schema ([TypeString] as [string], [TypeInt] as [Z],
    [TypeBool] as [bool], [TypeList] as [[]interface{}], [TypeMap] as
    [map[string]interface{}]); an attribute that is not set reads as the
    zero value of its type. *)
Record ResourceData (A : Type) := mkData { Id : string; attrs : A }.
Arguments mkData {A} Id attrs.
Arguments Id {A} _.
Arguments attrs {A} _.

Definition SetId {A} (v : string) (d : ResourceData A) : ResourceData A :=
  mkData v (attrs d).

(** [v, ok := d.GetOk(key)] on a string attribute: [ok] when the value
    is not the zero value. *)
Definition GetOkString (v : string) : string * bool :=
  (v, negb (String.eqb v "")).

(** The attributes of [squadcast_webform] ([id] is the resource ID). *)
Module WebformAttrs.
Record t := mk {
  name : string;
  team_id : string;
  owner_type : string;
  host_name : string;
  is_cname : bool;
  public_url : string;
  is_all_services : bool;
  form_owner_type : string;
  form_owner_id : string;
  form_owner_name : string;
  header : string;
  title : string;
  description : string;
  footer_text : string;
  footer_link : string;
  email_on : list iface;
  incident_count : Z;
  mttr : Z;
  tags : gmap string iface;
  services : list iface;
  severity : list iface
}.
End WebformAttrs.

(** [d.Set("team_id", v)] *)
Definition set_team_id (v : string) (a : WebformAttrs.t) : WebformAttrs.t :=
  WebformAttrs.mk
    (WebformAttrs.name a) v (WebformAttrs.owner_type a)
    (WebformAttrs.host_name a) (WebformAttrs.is_cname a)
    (WebformAttrs.public_url a) (WebformAttrs.is_all_services a)
    (WebformAttrs.form_owner_type a) (WebformAttrs.form_owner_id a)
    (WebformAttrs.form_owner_name a) (WebformAttrs.header a)
    (WebformAttrs.title a) (WebformAttrs.description a)
    (WebformAttrs.footer_text a) (WebformAttrs.footer_link a)
    (WebformAttrs.email_on a) (WebformAttrs.incident_count a)
    (WebformAttrs.mttr a) (WebformAttrs.tags a)
    (WebformAttrs.services a) (WebformAttrs.severity a).

(** The attributes of [squadcast_schedule_rotation]. *)
Module RotationAttrs.
Record t := mk {
  schedule_id : Z;
  name : string;
  participant_groups : list iface;
  start_date : string;
  period : string;
  shift_timeslots : list iface;
  custom_period_frequency : Z;
  custom_period_unit : string;
  change_participants_frequency : Z;
  change_participants_unit : string;
  end_date : string;
  ends_after_iterations : Z
}.
End RotationAttrs.

(** [Decode(input, &output)] with [output] a [[]T]: the decoder of the
    provider package, declared in a file that is not under src/. *)
Class Decoder (T : Type) := Decode : list iface -> error + list T.

(** [tf.EncodeAndSet(v, d)]: declared in package tf, not under src/.  It
    writes the encoded [v] into [d] and may fail half-way. *)
Class Setter (T A : Type) :=
  EncodeAndSet : option T -> ResourceData A -> ResourceData A * option error.

(** [tf.ValidateObjectID]: declared in package tf, not under src/. *)
Class ObjectID := ValidateObjectID : string -> bool.

(** The calls a handler makes on the client, in order. *)
Inductive ClientCall :=
| CallGetWebformById (teamID id : string)
| CallCreateWebform (teamID : string) (req : api.WebformReq.t)
| CallUpdateWebform (teamID id : string) (req : api.WebformReq.t)
| CallDeleteWebform (teamID id : string)
| CallGetScheduleRotationById (id : string)
| CallGetRotationByName (teamID scheduleName rotationName : string)
| CallCreateScheduleRotation (scheduleID : Z) (req : api.NewRotation.t)
| CallDeleteScheduleRotationByID (id : string).

(** What a handler runs in: the resource data it was handed, the remote
    platform, and the client calls made so far. *)
Record World (Remote A : Type) := mkWorld {
  data : ResourceData A;
  remote : Remote;
  calls : list ClientCall
}.
Arguments mkWorld {Remote A} data remote calls.
Arguments data {Remote A} _.
Arguments remote {Remote A} _.
Arguments calls {Remote A} _.

(** A computation on a world that may panic. *)
Definition M (W X : Type) : Type := W -> Outcome (X * W).

#[export] Instance M_ret {W} : MRet (M W) := fun X x w => Done (x, w).
#[export] Instance M_bind {W} : MBind (M W) := fun X Y k c w =>
  match c w with
  | Done (x, w') => k x w'
  | Panic msg => Panic msg
  end.

Definition panic {W X} (msg : string) : M W X := fun _ => Panic msg.

Definition getData {Remote A} : M (World Remote A) (ResourceData A) :=
  fun w => Done (data w, w).

Definition modifyData {Remote A} (f : ResourceData A -> ResourceData A)
    : M (World Remote A) unit :=
  fun w => Done (tt, mkWorld (f (data w)) (remote w) (calls w)).

(** A method call on the client: the remote platform steps, the call is
    recorded. *)
Definition call {Remote A X} (c : ClientCall) (step : Remote -> X * Remote)
    : M (World Remote A) X :=
  fun w =>
    let '(x, rem) := step (remote w) in
    Done (x, mkWorld (data w) rem (calls w ++ [c])).

(** A lifecycle handler: [func(ctx, d, meta) diag.Diagnostics]. *)
Abbreviation Handler Remote A := (M (World Remote A) diag.Diagnostics).

(** [schema.Resource]: the handlers a resource is registered with
    ([Importer] is its [StateContext]).  The [Schema] field, static
    metadata but for its validators, is given apart. *)
Record Resource (Remote A : Type) := mkResource {
  ReadContext : Handler Remote A;
  CreateContext : Handler Remote A;
  UpdateContext : Handler Remote A;
  DeleteContext : Handler Remote A;
  Importer : M (World Remote A) (list (ResourceData A) * option error)
}.
Arguments mkResource {Remote A} _ _ _ _ _.
Arguments ReadContext {Remote A} _.
Arguments CreateContext {Remote A} _.
Arguments UpdateContext {Remote A} _.
Arguments DeleteContext {Remote A} _.
Arguments Importer {Remote A} _.

(** [parse2PartImportID]: declared in a file of the provider package that
    is not under src/. *)
Class Parse2Part := parse2PartImportID : string -> string * string * option error.

#[export] Instance Outcome_ret : MRet Outcome := fun X x => Done x.
#[export] Instance Outcome_bind : MBind Outcome := fun X Y k o => obind o k.

(** Run a computation that touches no world. *)
Definition lift {W X} (o : Outcome X) : M W X :=
  fun w => match o with
           | Done x => Done (x, w)
           | Panic msg => Panic msg
           end.

(** *** resource_schedule_rotation.go *)

Definition parse3PartImportID (id : string)
    : string * string * string * option error :=
  let parts := Strings.SplitN id ":" 3 in
  if negb (length parts =? 3)%nat
     || String.eqb (nth 0 parts "") ""
     || String.eqb (nth 1 parts "") ""
     || String.eqb (nth 2 parts "") ""
  then ("", "", "", Some (mkError
         ("unexpected format of import resource id (" +:+ id
          +:+ "), expected teamID:ID")))
  else (nth 0 parts "", nth 1 parts "", nth 2 parts "", None).

(** The [for _, participant := range participants] loop of
    resourceScheduleRotationCreate; [inl] is an early [return] of
    diagnostics. *)
Fixpoint participantGroupsLoop `{Decoder api.Participant.t}
    (participants : list iface) (participantGroupsList : list api.ParticipantGroup.t)
    : Outcome (diag.Diagnostics + list api.ParticipantGroup.t) :=
  match participants with
  | [] => Done (inr participantGroupsList)
  | participant :: rest =>
      let '(participantMap, ok) := assertMapOk participant in
      if negb ok then Done (inl (diag.Errorf "participant_groups is invalid"))
      else
        participants' ← assertList (mapIndex participantMap "participants");
        match Decode participants' with
        | inl err => Done (inl (diag.Errorf (Error err)))
        | inr participantsList =>
            let participantGroup :=
              api.ParticipantGroup.mk participantsList
                (api.ParticipantGroup.Everyone api.ParticipantGroup.zero) in
            participantGroupsLoop rest (participantGroupsList ++ [participantGroup])
        end
  end.

(** The three blocks of resourceScheduleRotationCreate that fill the
    request before the client is called, in the order of the source; [inl]
    is an early [return] of diagnostics.

    [if len(participants) > 0 { for ... }] *)
Definition participantGroupsOf `{Decoder api.Participant.t} (a : RotationAttrs.t)
    : Outcome (diag.Diagnostics + list api.ParticipantGroup.t) :=
  let participants := RotationAttrs.participant_groups a in
  if (0 <? length participants)%nat
  then participantGroupsLoop participants []
  else Done (inr []).

(** [if len(shiftTimeSlots) > 0 { ... }] *)
Definition shiftTimeSlotsOf `{Decoder api.Timeslot.t} (a : RotationAttrs.t)
    : diag.Diagnostics + list api.Timeslot.t :=
  let shiftTimeSlots := RotationAttrs.shift_timeslots a in
  if (0 <? length shiftTimeSlots)%nat then
    if negb (String.eqb (RotationAttrs.period a) "custom")
       && (1 <? length shiftTimeSlots)%nat
    then inl (diag.Errorf
           "multiple shift_timeslots can only be set when period is custom")
    else match Decode shiftTimeSlots with
         | inl _ => inl (diag.Errorf "shift_timeslots is invalid")
         | inr shiftTimeSlotsList => inr shiftTimeSlotsList
         end
  else inr [].

(** [if createScheduleRotationReq.Period == "custom" { ... } else { ... }]:
    default values are 0 and "" for custom_period_frequency and
    custom_period_unit, so the code checks whether they are set to
    something else.  [inr] is the pair written into the request. *)
Definition customPeriodOf (a : RotationAttrs.t) : diag.Diagnostics + (Z * string) :=
  let customPeriodFreq := RotationAttrs.custom_period_frequency a in
  let customPeriodUnit := RotationAttrs.custom_period_unit a in
  if String.eqb (RotationAttrs.period a) "custom" then
    if customPeriodFreq =? 0 then
      inl (diag.Errorf "custom_period_frequency must be set when period is custom")
    else if String.eqb customPeriodUnit "" then
      inl (diag.Errorf "custom_period_unit must be set when period is custom")
    else inr (customPeriodFreq, customPeriodUnit)
  else
    if negb (customPeriodFreq =? 0) then
      inl (diag.Errorf
        "custom_period_frequency can only be set when period is custom")
    else if negb (String.eqb customPeriodUnit "") then
      inl (diag.Errorf "custom_period_unit can only be set when period is custom")
    else inr (0, ""%string).

(** *** resource_webform.go *)

(** [for i, v := range memailon { emailon[i] = v.(string) }] *)
Fixpoint emailOnLoop (i : nat) (memailon : list iface) (emailon : list string)
    : Outcome (list string) :=
  match memailon with
  | [] => Done emailon
  | v :: rest =>
      s ← assertString v;
      emailOnLoop (S i) rest (<[i := s]> emailon)
  end.

(** [for k, v := range mtags { tags[k] = v.(string) }] *)
Definition tagsLoop (mtags : gmap string iface) : Outcome (gmap string string) :=
  map_fold (fun k v (acc : Outcome (gmap string string)) =>
              tags ← acc;
              s ← assertString v;
              Done (<[k := s]> tags))
           (Done ∅) mtags.

(** The statements that fill the request, the same in
    resourceWebformCreate and resourceWebformUpdate; [inl] is an early
    [return] of diagnostics. *)
Definition webformReqOf `{Decoder api.WFService.t} `{Decoder api.WFSeverity.t}
    (a : WebformAttrs.t) : Outcome (diag.Diagnostics + api.WebformReq.t) :=
  let memailon := WebformAttrs.email_on a in
  emailon ← emailOnLoop 0 memailon (replicate (length memailon) ""%string);
  let mservices := WebformAttrs.services a in
  match Decode mservices with
  | inl err => Done (inl (diag.FromErr err))
  | inr services =>
      let mseverity := WebformAttrs.severity a in
      match Decode mseverity with
      | inl err => Done (inl (diag.FromErr err))
      | inr severity =>
          let mtags := WebformAttrs.tags a in
          tags ← tagsLoop mtags;
          Done (inr (api.WebformReq.mk
            (WebformAttrs.name a)
            (WebformAttrs.team_id a)
            (WebformAttrs.form_owner_type a)
            (WebformAttrs.form_owner_id a)
            (WebformAttrs.form_owner_name a)
            (WebformAttrs.host_name a)
            (WebformAttrs.is_cname a)
            (WebformAttrs.header a)
            (WebformAttrs.description a)
            (WebformAttrs.title a)
            (WebformAttrs.footer_text a)
            (WebformAttrs.footer_link a)
            emailon services severity tags))
      end
  end.

Section Handlers.
Context {Remote : Type} `{api.Methods Remote}.
Context `{Decoder api.Participant.t, Decoder api.Timeslot.t}.
Context `{Decoder api.WFService.t, Decoder api.WFSeverity.t}.
Context `{Setter api.RotationStruct.t RotationAttrs.t}.
Context `{Setter api.Webform.t WebformAttrs.t}.
Context `{Parse2Part}.

Definition encodeAndSet {T A} `{Setter T A} (v : option T)
    : M (World Remote A) (option error) :=
  fun w =>
    let '(d, err) := EncodeAndSet v (data w) in
    Done (err, mkWorld d (remote w) (calls w)).

(** [v.f] on a pointer [v]: nil panics. *)
Definition deref {W X} (v : option X) : M W X :=
  match v with
  | Some x => mret x
  | None => panic "invalid memory address or nil pointer dereference"
  end.

Definition resourceScheduleRotationImport
    : M (World Remote RotationAttrs.t)
        (list (ResourceData RotationAttrs.t) * option error) :=
  d ← getData;
  let '(teamID, scheduleName, rotationName, err) := parse3PartImportID (Id d) in
  match err with
  | Some err => mret ([], Some err)
  | None =>
      '(rotation, err) ←
        call (CallGetRotationByName teamID scheduleName rotationName)
             (api.GetRotationByName teamID scheduleName rotationName);
      match err with
      | Some err => mret ([], Some err)
      | None =>
          rotation ← deref rotation;
          modifyData (SetId (Strconv.Itoa
            (api.NewRotation.ID (api.RotationStruct.NewRotation rotation))));;
          d ← getData;
          mret ([d], None)
      end
  end.

Definition resourceScheduleRotationRead : Handler Remote RotationAttrs.t :=
  d ← getData;
  let id := Id d in
  '(rotation, err) ←
    call (CallGetScheduleRotationById id) (api.GetScheduleRotationById id);
  match err with
  | Some err =>
      if api.IsResourceNotFoundError err then
        modifyData (SetId "");; mret []
      else mret (diag.FromErr err)
  | None =>
      err ← encodeAndSet rotation;
      match err with
      | Some err => mret (diag.FromErr err)
      | None => mret []
      end
  end.

Definition resourceScheduleRotationCreate : Handler Remote RotationAttrs.t :=
  d ← getData;
  let a := attrs d in
  groups ← lift (participantGroupsOf a);
  match groups with
  | inl ds => mret ds
  | inr ParticipantGroups =>
  match shiftTimeSlotsOf a with
  | inl ds => mret ds
  | inr ShiftTimeSlots =>
  match customPeriodOf a with
  | inl ds => mret ds
  | inr (CustomPeriodFrequency, CustomPeriodUnit) =>
  let createScheduleRotationReq :=
    api.NewRotation.mk 0
      (RotationAttrs.name a)
      ParticipantGroups
      (RotationAttrs.start_date a)
      (RotationAttrs.period a)
      ShiftTimeSlots
      CustomPeriodFrequency
      CustomPeriodUnit
      (RotationAttrs.change_participants_frequency a)
      (RotationAttrs.change_participants_unit a)
      (RotationAttrs.end_date a)
      (RotationAttrs.ends_after_iterations a) in
  let schedule_id := RotationAttrs.schedule_id a in
  '(rotation, err) ←
    call (CallCreateScheduleRotation schedule_id createScheduleRotationReq)
         (api.CreateScheduleRotation schedule_id createScheduleRotationReq);
  match err with
  | Some err => mret (diag.FromErr err)
  | None =>
      rotation ← deref rotation;
      modifyData (SetId (Strconv.Itoa
        (api.NewRotation.ID (api.RotationStruct.NewRotation rotation))));;
      resourceScheduleRotationRead
  end
  end end end.

Definition resourceScheduleRotationDelete : Handler Remote RotationAttrs.t :=
  d ← getData;
  '(_, err) ← call (CallDeleteScheduleRotationByID (Id d))
                   (api.DeleteScheduleRotationByID (Id d));
  match err with
  | Some err =>
      if api.IsResourceNotFoundError err then
        modifyData (SetId "");; mret []
      else mret (diag.FromErr err)
  | None => mret []
  end.

Definition resourceWebformRead : Handler Remote WebformAttrs.t :=
  d ← getData;
  let id := Id d in
  let '(teamID, ok) := GetOkString (WebformAttrs.team_id (attrs d)) in
  if negb ok then mret (diag.Errorf "invalid team id provided !")
  else
    '(webform, err) ←
      call (CallGetWebformById teamID id) (api.GetWebformById teamID id);
    match err with
    | Some err =>
        if api.IsResourceNotFoundError err then
          modifyData (SetId "");; mret []
        else mret (diag.FromErr err)
    | None =>
        err ← encodeAndSet webform;
        match err with
        | Some err => mret (diag.FromErr err)
        | None => mret []
        end
    end.

Definition resourceWebformImport
    : M (World Remote WebformAttrs.t)
        (list (ResourceData WebformAttrs.t) * option error) :=
  d ← getData;
  let '(teamID, id, err) := parse2PartImportID (Id d) in
  match err with
  | Some err => mret ([], Some err)
  | None =>
      modifyData (fun d => mkData (Id d) (set_team_id teamID (attrs d)));;
      modifyData (SetId id);;
      d ← getData;
      mret ([d], None)
  end.

Definition resourceWebformCreate : Handler Remote WebformAttrs.t :=
  d ← getData;
  r ← lift (webformReqOf (attrs d));
  match r with
  | inl ds => mret ds
  | inr webformCreateReq =>
      let team_id := WebformAttrs.team_id (attrs d) in
      '(webformRes, err) ←
        call (CallCreateWebform team_id webformCreateReq)
             (api.CreateWebform team_id webformCreateReq);
      match err with
      | Some err => mret (diag.FromErr err)
      | None =>
          webformRes ← deref webformRes;
          let webform := api.WebformRes.WebFormRes webformRes in
          let webformId :=
            Strconv.FormatUint10 (Strconv.uint64 (api.Webform.ID webform)) in
          modifyData (SetId webformId);;
          resourceWebformRead
      end
  end.

Definition resourceWebformUpdate : Handler Remote WebformAttrs.t :=
  d ← getData;
  r ← lift (webformReqOf (attrs d));
  match r with
  | inl ds => mret ds
  | inr webformUpdateReq =>
      let team_id := WebformAttrs.team_id (attrs d) in
      '(_, err) ←
        call (CallUpdateWebform team_id (Id d) webformUpdateReq)
             (api.UpdateWebform team_id (Id d) webformUpdateReq);
      match err with
      | Some err => mret (diag.FromErr err)
      | None => resourceWebformRead
      end
  end.

Definition resourceWebformDelete : Handler Remote WebformAttrs.t :=
  d ← getData;
  let '(teamID, ok) := GetOkString (WebformAttrs.team_id (attrs d)) in
  if negb ok then mret (diag.Errorf "invalid team id provided")
  else
    '(_, err) ← call (CallDeleteWebform teamID (Id d))
                     (api.DeleteWebform teamID (Id d));
    match err with
    | Some err =>
        if api.IsResourceNotFoundError err then
          modifyData (SetId "");; mret []
        else mret (diag.FromErr err)
    | None => mret []
    end.

(** [func resourceScheduleRotation() *schema.Resource]; the update
    handler it registers is the create handler. *)
Definition resourceScheduleRotation : Resource Remote RotationAttrs.t := {|
  ReadContext := resourceScheduleRotationRead;
  CreateContext := resourceScheduleRotationCreate;
  UpdateContext := resourceScheduleRotationCreate;
  DeleteContext := resourceScheduleRotationDelete;
  Importer := resourceScheduleRotationImport
|}.

(** [func resourceWebform() *schema.Resource] *)
Definition resourceWebform : Resource Remote WebformAttrs.t := {|
  CreateContext := resourceWebformCreate;
  ReadContext := resourceWebformRead;
  UpdateContext := resourceWebformUpdate;
  DeleteContext := resourceWebformDelete;
  Importer := resourceWebformImport
|}.
End Handlers.

(** *** The declared schema validators of [squadcast_schedule_rotation]

    What [resourceScheduleRotation()] declares, attribute by attribute:
    [ValidateFunc], [MinItems], and the type of each block attribute.  An
    optional attribute that is not set is not validated; it reads as the
    zero value. *)

Section Schema.
Context `{ObjectID}.

(** A [participants] block: [type] and [id], both required. *)
Definition participantValid (v : iface) : bool :=
  match v with
  | IMap m =>
      match m !! "type", m !! "id" with
      | Some (IStr ty), Some (IStr id) =>
          validation.StringInSlice ["user"; "squad"; "team"] ty
          && ValidateObjectID id
      | _, _ => false
      end
  | _ => false
  end.

(** A [participant_groups] block; every attribute of it is optional,
    and the SDK hands over a block with nothing set as nil. *)
Definition participantGroupValid (v : iface) : bool :=
  match v with
  | INil => true
  | IMap m =>
      match m !! "participants" with
      | Some (IList ps) => forallb participantValid ps
      | _ => false
      end
  | _ => false
  end.

(** A [shift_timeslots] block. *)
Definition timeslotValid (v : iface) : bool :=
  match v with
  | IMap m =>
      match m !! "start_hour", m !! "start_minute", m !! "duration" with
      | Some (IInt h), Some (IInt mi), Some (IInt du) =>
          validation.IntBetween 0 23 h
          && validation.IntBetween 0 59 mi
          && validation.IntBetween 1 1440 du
          && match m !! "day_of_week" with
             | None => true
             | Some (IStr dw) =>
                 String.eqb dw ""
                 || validation.StringInSlice
                      ["monday"; "tuesday"; "wednesday"; "thursday";
                       "friday"; "saturday"; "sunday"] dw
             | Some _ => false
             end
      | _, _, _ => false
      end
  | _ => false
  end.

Definition rotationSchemaValid (a : RotationAttrs.t) : bool :=
  validation.StringLenBetween 1 150 (RotationAttrs.name a)
  && forallb participantGroupValid (RotationAttrs.participant_groups a)
  && validation.StringInSlice ["none"; "daily"; "weekly"; "monthly"; "custom"]
       (RotationAttrs.period a)
  && (1 <=? length (RotationAttrs.shift_timeslots a))%nat
  && forallb timeslotValid (RotationAttrs.shift_timeslots a)
  && (String.eqb (RotationAttrs.custom_period_unit a) ""
      || validation.StringInSlice ["day"; "week"; "month"]
           (RotationAttrs.custom_period_unit a))
  && validation.StringInSlice ["rotation"; "day"; "week"; "month"]
       (RotationAttrs.change_participants_unit a).
End Schema.

(** The five cross-attribute conditions on the custom period. *)
Definition customPeriodRejected (a : RotationAttrs.t) : Prop :=
  let period := RotationAttrs.period a in
  let freq := RotationAttrs.custom_period_frequency a in
  let unit_ := RotationAttrs.custom_period_unit a in
  (period = "custom"%string /\ freq = 0)
  \/ (period = "custom"%string /\ unit_ = ""%string)
  \/ (period <> "custom"%string /\ freq <> 0)
  \/ (period <> "custom"%string /\ unit_ <> ""%string)
  \/ (period <> "custom"%string /\ (1 < length (RotationAttrs.shift_timeslots a))%nat).

(** The client calls that delete a remote resource. *)
Definition isDelete (c : ClientCall) : bool :=
  match c with
  | CallDeleteWebform _ _ | CallDeleteScheduleRotationByID _ => true
  | _ => false
  end.

(** A handler run that ends in diagnostics with an error and no client
    call made: a rejection by the handler itself. *)
Definition rejects {Remote A} (h : M (World Remote A) diag.Diagnostics)
    (w : World Remote A) : Prop :=
  exists ds w', h w = Done (ds, w') /\ diag.HasError ds = true /\ calls w' = calls w.

End provider.

(** ** An in-memory platform

    A small stand-in for the remote platform and for the helpers that are
    not under src/, on which the handlers can be run. *)

Module Fake.

Record Platform := mk {
  webforms : list api.Webform.t;
  rotations : list api.NewRotation.t;
  nextID : Z;
  down : bool
}.

Definition notFound : error := mkError "resource not found".
Definition unavailable : error := mkError "service unavailable".

Definition webformHasID (id : string) (w : api.Webform.t) : bool :=
  String.eqb (Strconv.FormatUint10 (Strconv.uint64 (api.Webform.ID w))) id.

Definition rotationHasID (id : string) (r : api.NewRotation.t) : bool :=
  String.eqb (Strconv.Itoa (api.NewRotation.ID r)) id.

Definition withID (id : Z) (r : api.NewRotation.t) : api.NewRotation.t :=
  api.NewRotation.mk id
    (api.NewRotation.Name r) (api.NewRotation.ParticipantGroups r)
    (api.NewRotation.StartDate r) (api.NewRotation.Period r)
    (api.NewRotation.ShiftTimeSlots r) (api.NewRotation.CustomPeriodFrequency r)
    (api.NewRotation.CustomPeriodUnit r)
    (api.NewRotation.ChangeParticipantsFrequency r)
    (api.NewRotation.ChangeParticipantsUnit r)
    (api.NewRotation.EndDate r) (api.NewRotation.EndsAfterIterations r).

#[export] Instance methods : api.Methods Platform := {|
  api.GetWebformById := fun teamID id p =>
    if down p then ((None, Some unavailable), p)
    else match List.find (webformHasID id) (webforms p) with
         | Some w => ((Some w, None), p)
         | None => ((None, Some notFound), p)
         end;
  api.CreateWebform := fun teamID req p =>
    if down p then ((None, Some unavailable), p)
    else
      let w := api.Webform.mk (nextID p) (api.WebformReq.Name req) teamID in
      ((Some (api.WebformRes.mk w), None),
       mk (w :: webforms p) (rotations p) (nextID p + 1) (down p));
  api.UpdateWebform := fun teamID id req p =>
    if down p then ((None, Some unavailable), p)
    else match List.find (webformHasID id) (webforms p) with
         | Some w =>
             let w' := api.Webform.mk (api.Webform.ID w) (api.WebformReq.Name req) teamID in
             ((Some (api.WebformRes.mk w'), None),
              mk (w' :: List.filter (fun x => negb (webformHasID id x)) (webforms p))
                 (rotations p) (nextID p) (down p))
         | None => ((None, Some notFound), p)
         end;
  api.DeleteWebform := fun teamID id p =>
    if down p then ((None, Some unavailable), p)
    else match List.find (webformHasID id) (webforms p) with
         | Some _ =>
             ((Some INil, None),
              mk (List.filter (fun x => negb (webformHasID id x)) (webforms p))
                 (rotations p) (nextID p) (down p))
         | None => ((None, Some notFound), p)
         end;
  api.GetScheduleRotationById := fun id p =>
    if down p then ((None, Some unavailable), p)
    else match List.find (rotationHasID id) (rotations p) with
         | Some r => ((Some (api.RotationStruct.mk r), None), p)
         | None => ((None, Some notFound), p)
         end;
  api.GetRotationByName := fun teamID scheduleName rotationName p =>
    if down p then ((None, Some unavailable), p)
    else match List.find (fun r => String.eqb (api.NewRotation.Name r) rotationName)
                 (rotations p) with
         | Some r => ((Some (api.RotationStruct.mk r), None), p)
         | None => ((None, Some notFound), p)
         end;
  api.CreateScheduleRotation := fun scheduleID req p =>
    if down p then ((None, Some unavailable), p)
    else
      let r := withID (nextID p) req in
      ((Some (api.RotationStruct.mk r), None),
       mk (webforms p) (r :: rotations p) (nextID p + 1) (down p));
  api.DeleteScheduleRotationByID := fun id p =>
    if down p then ((None, Some unavailable), p)
    else match List.find (rotationHasID id) (rotations p) with
         | Some r =>
             ((Some (api.RotationStruct.mk r), None),
              mk (webforms p)
                 (List.filter (fun x => negb (rotationHasID id x)) (rotations p))
                 (nextID p) (down p))
         | None => ((None, Some notFound), p)
         end;
  api.IsResourceNotFoundError := fun e => String.eqb (Error e) (Error notFound)
|}.

Definition intField (m : gmap string iface) (k : string) : option Z :=
  match m !! k with
  | Some (IInt z) => Some z
  | _ => None
  end.

Definition strField (m : gmap string iface) (k : string) : option string :=
  match m !! k with
  | Some (IStr s) => Some s
  | _ => None
  end.

(** Decode a list of blocks with [one], failing on the first block
    that does not fit. *)
Fixpoint decodeAll {T} (one : gmap string iface -> option T) (input : list iface)
    : error + list T :=
  match input with
  | [] => inr []
  | IMap m :: rest =>
      match one m, decodeAll one rest with
      | Some x, inr xs => inr (x :: xs)
      | None, _ => inl (mkError "cannot decode block")
      | _, inl e => inl e
      end
  | _ :: _ => inl (mkError "cannot decode block")
  end.

#[export] Instance decodeTimeslot : provider.Decoder api.Timeslot.t :=
  decodeAll (fun m =>
    h ← intField m "start_hour";
    mi ← intField m "start_minute";
    du ← intField m "duration";
    Some (api.Timeslot.mk h mi du 0)).

#[export] Instance decodeParticipant : provider.Decoder api.Participant.t :=
  decodeAll (fun m =>
    ty ← strField m "type";
    id ← strField m "id";
    Some (api.Participant.mk (Strconv.ParseInt10 id).1 ty)).

#[export] Instance decodeService : provider.Decoder api.WFService.t :=
  decodeAll (fun m =>
    sid ← strField m "service_id";
    name ← strField m "name";
    Some (api.WFService.mk sid 0 name (default ""%string (strField m "alias")))).

#[export] Instance decodeSeverity : provider.Decoder api.WFSeverity.t :=
  decodeAll (fun m =>
    ty ← strField m "type";
    de ← strField m "description";
    Some (api.WFSeverity.mk ty de)).

Definition setWebformName (name : string) (a : provider.WebformAttrs.t)
    : provider.WebformAttrs.t :=
  provider.WebformAttrs.mk name
    (provider.WebformAttrs.team_id a) (provider.WebformAttrs.owner_type a)
    (provider.WebformAttrs.host_name a) (provider.WebformAttrs.is_cname a)
    (provider.WebformAttrs.public_url a) (provider.WebformAttrs.is_all_services a)
    (provider.WebformAttrs.form_owner_type a) (provider.WebformAttrs.form_owner_id a)
    (provider.WebformAttrs.form_owner_name a) (provider.WebformAttrs.header a)
    (provider.WebformAttrs.title a) (provider.WebformAttrs.description a)
    (provider.WebformAttrs.footer_text a) (provider.WebformAttrs.footer_link a)
    (provider.WebformAttrs.email_on a) (provider.WebformAttrs.incident_count a)
    (provider.WebformAttrs.mttr a) (provider.WebformAttrs.tags a)
    (provider.WebformAttrs.services a) (provider.WebformAttrs.severity a).

#[export] Instance setWebform
    : provider.Setter api.Webform.t provider.WebformAttrs.t :=
  fun v d =>
    match v with
    | Some w =>
        (provider.mkData (provider.Id d)
           (setWebformName (api.Webform.Name w) (provider.attrs d)), None)
    | None => (d, Some (mkError "cannot encode nil"))
    end.

#[export] Instance setRotation
    : provider.Setter api.RotationStruct.t provider.RotationAttrs.t :=
  fun v d =>
    match v with
    | Some _ => (d, None)
    | None => (d, Some (mkError "cannot encode nil"))
    end.

#[export] Instance parse2Part : provider.Parse2Part :=
  fun id =>
    match Strings.SplitN id ":" 2 with
    | [teamID; id'] => (teamID, id', None)
    | _ => (""%string, ""%string, Some (mkError "unexpected format of import resource id"))
    end.

#[export] Instance objectID : provider.ObjectID :=
  fun s => (String.length s =? 24)%nat.

#[export] Instance coercion : tf.Coercion := fun v => inr v.

#[export] Instance json (T : Type) : api.JSON T := {|
  api.marshal := fun _ => ""%string;
  api.unmarshal := fun _ => None
|}.

(** A transport that never gets an answer. *)
#[export] Instance transport : api.Transport unit := {|
  api.Request := fun _ _ _ _ _ _ _ _ r => ((None, Some unavailable), r);
  api.RequestSlice := fun _ _ _ _ _ _ _ _ r => (([], Some unavailable), r);
  api.GraphQLRequest := fun _ _ _ _ _ _ r => ((None, Some unavailable), r)
|}.

Definition client : api.Client.t := api.Client.mk "https://api.example.test/v3".

Definition timeslot (h mi du : Z) : iface :=
  IMap {[ "start_hour" := IInt h; "start_minute" := IInt mi; "duration" := IInt du ]}.

(** Rotation configurations. *)
Definition rotationWith (groups : list iface) (period : string)
    (slots : list iface) (freq : Z) (unit_ : string) : provider.RotationAttrs.t :=
  provider.RotationAttrs.mk 7 "primary" groups "2024-01-01T00:00:00Z" period
    slots freq unit_ 1 "rotation" "" 0.

Definition rotation : string -> list iface -> Z -> string -> provider.RotationAttrs.t :=
  rotationWith [].

(** A configuration with one group of one participant. *)
Definition oneGroup : provider.RotationAttrs.t :=
  rotationWith
    [IMap {[ "participants" :=
               IList [IMap {[ "id" := IStr "3"; "type" := IStr "user" ]}] ]}]
    "daily" [timeslot 9 0 60] 0 "".

Definition schedule : api.Schedule.t :=
  api.Schedule.mk "s1" "primary" "primary-slug" "#0f61dd" "on call"
    (api.OwnerRef.mk "team-1").

Definition newSchedule (owner : option api.Owner.t) : api.NewSchedule.t :=
  api.NewSchedule.mk 12 "primary" "on call" "UTC" "team-0"
    [api.Tag.mk "env" "prod" "#ff0000"] owner.

Definition webform (emails : list iface) (tags : gmap string iface)
    : provider.WebformAttrs.t :=
  provider.WebformAttrs.mk "form" "team-1" "" "" false "" false
    "user" "user-1" "Ada" "header" "title" "" "footer" "https://example.test"
    emails 0 0 tags
    [IMap {[ "service_id" := IStr "svc-1"; "name" := IStr "checkout" ]}]
    [IMap {[ "type" := IStr "high"; "description" := IStr "urgent" ]}].

Definition empty : Platform := mk [] [] 1 false.

(** A platform that holds the rotation 1 and the webform 1. *)
Definition stocked : Platform :=
  mk [api.Webform.mk 1 "form" "team-1"]
     [withID 1 (api.NewRotation.mk 0 "primary" [] "2024-01-01T00:00:00Z" "daily"
                  [] 0 "" 1 "rotation" "" 0)]
     2 false.

Definition world {A} (id : string) (a : A) (p : Platform)
    : provider.World Platform A :=
  provider.mkWorld (provider.mkData id a) p [].

End Fake.
(** * Properties *)

(** ** Sanity checks of the library models *)

Example ParseInt10_ex1 : Strconv.ParseInt10 "-42" = (-42, None).
Proof. reflexivity. Qed.
Example ParseInt10_ex2 : Strconv.ParseInt10 "12a" = (0, Some Strconv.ErrSyntax).
Proof. reflexivity. Qed.
Example ParseInt10_ex3 : Strconv.ParseInt10 "9223372036854775807" = (9223372036854775807, None).
Proof. vm_compute. reflexivity. Qed.
Example ParseInt10_ex4 : Strconv.ParseInt10 "-9223372036854775808" = (-9223372036854775808, None).
Proof. vm_compute. reflexivity. Qed.
Example ParseInt10_ex5 : Strconv.ParseInt10 "-9223372036854775809" = (-9223372036854775808, Some Strconv.ErrRange).
Proof. vm_compute. reflexivity. Qed.
Example ParseInt10_ex6 : Strconv.ParseInt10 "99999999999999999999999x" = (9223372036854775807, Some Strconv.ErrRange).
Proof. vm_compute. reflexivity. Qed.
Example ParseInt10_ex7 : Strconv.ParseInt10 "+" = (0, Some Strconv.ErrSyntax).
Proof. reflexivity. Qed.
Example SplitN_ex1 : Strings.SplitN "a:b:c:d" ":" 3 = ["a"; "b"; "c:d"]%string.
Proof. reflexivity. Qed.
Example SplitN_ex2 : Strings.SplitN "" ":" 3 = [""]%string.
Proof. reflexivity. Qed.
Example SplitN_ex3 : Strings.SplitN "::" ":" 3 = [""; ""; ""]%string.
Proof. reflexivity. Qed.
Example Itoa_ex : Strconv.Itoa (-50) = "-50"%string /\ Strconv.Itoa 0 = "0"%string /\ Strconv.FormatUint10 17 = "17"%string.
Proof. repeat split; reflexivity. Qed.

(** [FormatUint] writes the decimal numeral of its argument. *)
Lemma FormatUint10_decimal (u : Z) :
  0 <= u ->
  exists d,
    NilZero.uint_of_string (Strconv.FormatUint10 u) = Some d
    /\ Z.of_N (N.of_uint d) = u.
Proof.
  intros Hu. exists (N.to_uint (Z.to_N u)). split.
  - unfold Strconv.FormatUint10. apply NilZero.usu.
    intros Hnil. pose proof (DecimalN.Unsigned.of_to (Z.to_N u)) as Hof.
    rewrite Hnil in Hof. cbn in Hof. rewrite <- Hof in Hnil. discriminate.
  - rewrite DecimalN.Unsigned.of_to. lia.
Qed.

(** ** strings.Index and strings.SplitN on the separator ":" *)

Section SplitColon.
Local Open Scope nat_scope.
Local Open Scope string_scope.

Lemma str_app_cons (x : ascii) (a r : string) : String x a +:+ r = String x (a +:+ r).
Proof. reflexivity. Qed.

Lemma str_app_nil (r : string) : "" +:+ r = r.
Proof. reflexivity. Qed.

Lemma Index_colon_cons (x : ascii) (s : string) :
  Strings.Index (String x s) ":" =
    if Ascii.eqb x ":" then Some 0 else S <$> Strings.Index s ":".
Proof.
  cbn [Strings.Index String.prefix].
  destruct (ascii_dec ":" x) as [<- | Hne].
  - by destruct s.
  - destruct (Ascii.eqb_spec x ":") as [-> | _]; [congruence | reflexivity].
Qed.

Lemma Index_colon_None (s : string) :
  Strings.Index s ":" = None <-> Strings.hasByte ":" s = false.
Proof.
  induction s as [| x s IH].
  - split; reflexivity.
  - rewrite Index_colon_cons. cbn [Strings.hasByte].
    destruct (Ascii.eqb x ":"); cbn [orb].
    + split; discriminate.
    + rewrite <- IH. destruct (Strings.Index s ":"); cbn; split; congruence.
Qed.

Lemma Index_colon_Some (s : string) (m : nat) :
  Strings.Index s ":" = Some m ->
  s = Strings.take m s +:+ ":" +:+ Strings.drop (m + 1) s
  /\ Strings.hasByte ":" (Strings.take m s) = false.
Proof.
  revert m. induction s as [| x s IH]; intros m.
  - discriminate.
  - rewrite Index_colon_cons.
    destruct (Ascii.eqb_spec x ":") as [-> | Hne].
    + intros [= <-]. cbn. split; reflexivity.
    + destruct (Strings.Index s ":") as [k |] eqn:Hk; [| discriminate].
      cbn. intros [= <-]. destruct (IH k eq_refl) as [Hs Hno].
      cbn. split.
      * rewrite str_app_cons, <- Hs. reflexivity.
      * rewrite Hno. destruct (Ascii.eqb_spec x ":"); [contradiction | reflexivity].
Qed.

Lemma Index_colon_app (a r : string) :
  Strings.hasByte ":" a = false ->
  Strings.Index (a +:+ ":" +:+ r) ":" = Some (String.length a).
Proof.
  induction a as [| x a IH]; intros Hno.
  - by rewrite str_app_nil, str_app_cons, Index_colon_cons.
  - cbn [Strings.hasByte] in Hno. apply orb_false_elim in Hno as [Hx Ha].
    rewrite str_app_cons, Index_colon_cons, Hx, (IH Ha). reflexivity.
Qed.

Lemma str_take_app_length (a r : string) : Strings.take (String.length a) (a +:+ r) = a.
Proof.
  induction a as [| x a IH]; [by destruct r |].
  rewrite str_app_cons. cbn. by rewrite IH.
Qed.

Lemma str_drop_app_length_colon (a r : string) :
  Strings.drop (String.length a + 1) (a +:+ ":" +:+ r) = r.
Proof.
  induction a as [| x a IH]; [by rewrite str_app_nil, str_app_cons |].
  rewrite str_app_cons. exact IH.
Qed.

Lemma str_length_app_colon (a r : string) :
  String.length (a +:+ ":" +:+ r) = String.length a + 1 + String.length r.
Proof.
  induction a as [| x a IH]; [by rewrite str_app_nil, str_app_cons |].
  rewrite str_app_cons. cbn [String.length]. rewrite IH. lia.
Qed.

(** Cutting into at most three pieces gives three pieces exactly for
    the strings with two colons, the first two pieces colon-free. *)
Lemma SplitN3_colon (s a b c : string) :
  Strings.SplitN s ":" 3 = [a; b; c] <->
  s = a +:+ ":" +:+ b +:+ ":" +:+ c
  /\ Strings.hasByte ":" a = false /\ Strings.hasByte ":" b = false.
Proof.
  unfold Strings.SplitN. split.
  - destruct (Nat.min 3 (String.length s + 1) - 1) as [| [| n]] eqn:Hfuel.
    + discriminate.
    + cbn. destruct (Strings.Index s ":"); discriminate.
    + assert (n = 0) as -> by lia. cbn [Strings.splitLoop String.length].
      destruct (Strings.Index s ":") as [m |] eqn:Hm; [| discriminate].
      destruct (Strings.Index (Strings.drop (m + 1) s) ":") as [k |] eqn:Hk;
        [| discriminate].
      intros [= <- <- <-].
      destruct (Index_colon_Some _ _ Hm) as [Hs Ha].
      destruct (Index_colon_Some _ _ Hk) as [Hr Hb].
      repeat split; [| exact Ha | exact Hb].
      rewrite <- Hr. exact Hs.
  - intros (-> & Ha & Hb).
    rewrite str_length_app_colon, str_length_app_colon.
    replace (Nat.min 3 _ - 1) with 2 by lia.
    cbn [Strings.splitLoop String.length].
    rewrite (Index_colon_app a _ Ha), str_take_app_length, str_drop_app_length_colon.
    rewrite (Index_colon_app b _ Hb), str_take_app_length, str_drop_app_length_colon.
    reflexivity.
Qed.
End SplitColon.

(** ** Import ID parsing *)

Local Open Scope string_scope.
Local Open Scope list_scope.

Lemma parse3PartImportID_cases (id : string) :
  (exists a b c,
     Strings.SplitN id ":" 3 = [a; b; c] /\ a <> "" /\ b <> "" /\ c <> ""
     /\ provider.parse3PartImportID id = (a, b, c, None))
  \/ ((~ exists a b c,
        Strings.SplitN id ":" 3 = [a; b; c] /\ a <> "" /\ b <> "" /\ c <> "")
      /\ exists e, provider.parse3PartImportID id = ("", "", "", Some e)).
Proof.
  unfold provider.parse3PartImportID.
  destruct (Strings.SplitN id ":" 3) as [| a [| b [| c [| x parts]]]] eqn:Hparts;
    cbn [length Nat.eqb negb orb nth];
    try (right; split; [intros (a' & b' & c' & [=] & _) | eexists; reflexivity]).
  destruct (String.eqb_spec a "") as [-> | Ha]; cbn [orb].
  { right. split; [intros (a' & b' & c' & [= <- <- <-] & Hne & _); by apply Hne
                  | eexists; reflexivity]. }
  destruct (String.eqb_spec b "") as [-> | Hb]; cbn [orb].
  { right. split; [intros (a' & b' & c' & [= <- <- <-] & _ & Hne & _); by apply Hne
                  | eexists; reflexivity]. }
  destruct (String.eqb_spec c "") as [-> | Hc]; cbn [orb].
  { right. split; [intros (a' & b' & c' & [= <- <- <-] & _ & _ & Hne); by apply Hne
                  | eexists; reflexivity]. }
  left. by exists a, b, c.
Qed.

(** C4.  [parse3PartImportID] succeeds exactly when cutting the import
    string at ":" into at most three pieces gives three pieces, none of
    them empty, and then returns the three pieces in order; otherwise it
    returns three empty strings and an error.  Three pieces come out
    exactly of the strings [a:b:c] with no ":" in [a] and [b]. *)
Theorem parse3PartImportID_correct (id : string) :
  (forall a b c,
     provider.parse3PartImportID id = (a, b, c, None) <->
     Strings.SplitN id ":" 3 = [a; b; c] /\ a <> "" /\ b <> "" /\ c <> "")
  /\ ((~ exists a b c,
         Strings.SplitN id ":" 3 = [a; b; c] /\ a <> "" /\ b <> "" /\ c <> "") <->
      exists e, provider.parse3PartImportID id = ("", "", "", Some e))
  /\ (forall a b c e,
        provider.parse3PartImportID id = (a, b, c, Some e) ->
        a = "" /\ b = "" /\ c = "")
  /\ (forall a b c,
        Strings.SplitN id ":" 3 = [a; b; c] <->
        id = a +:+ ":" +:+ b +:+ ":" +:+ c
        /\ Strings.hasByte ":" a = false /\ Strings.hasByte ":" b = false).
Proof.
  assert (Hpieces : forall a b c,
            Strings.SplitN id ":" 3 = [a; b; c] <->
            id = a +:+ ":" +:+ b +:+ ":" +:+ c
            /\ Strings.hasByte ":" a = false /\ Strings.hasByte ":" b = false)
    by (intros; apply SplitN3_colon).
  destruct (parse3PartImportID_cases id)
    as [(a0 & b0 & c0 & Hs & Ha & Hb & Hc & Hp) | (Hno & e0 & Hp)];
    rewrite Hp; (split; [| split; [| split; [| exact Hpieces]]]).
  - intros a b c. split.
    + by intros [= <- <- <-].
    + intros (Hs' & _). rewrite Hs in Hs'. by injection Hs' as <- <- <-.
  - split.
    + intros Hno. exfalso. apply Hno. by exists a0, b0, c0.
    + intros (e & [=]).
  - intros a b c e [=].
  - intros a b c. split.
    + intros [=].
    + intros (Hs & Ha & Hb & Hc). exfalso. apply Hno. by exists a, b, c.
  - split.
    + intros _. by exists e0.
    + done.
  - by intros a b c e [= <- <- <- _].
Qed.

(** ** The resource handlers *)

(** Unfold one step of a handler. *)
Ltac run :=
  cbv [mbind mret provider.M_bind provider.M_ret provider.getData provider.call
       provider.modifyData provider.lift provider.encodeAndSet provider.deref
       provider.panic].

Section Drift.
Context {Remote : Type} `{api.Methods Remote}.
Context `{provider.Setter api.RotationStruct.t provider.RotationAttrs.t}.
Context `{provider.Setter api.Webform.t provider.WebformAttrs.t}.

Lemma GetOkString_nonempty (v : string) :
  v <> "" -> provider.GetOkString v = (v, true).
Proof.
  intros Hv. unfold provider.GetOkString.
  by destruct (String.eqb_spec v "").
Qed.

(** C1.  Drift detection.  When the call that a webform read, a
    schedule-rotation read or a webform delete makes on the client fails,
    the handler, on a resource-not-found error, sets the resource ID to
    the empty string and returns no diagnostics; on any other error it
    returns that error and leaves the resource data, the ID with it, as
    it was.  Either way it has made that one call.  (The two webform
    handlers make their call once [team_id] is set.) *)
Theorem drift_detection
    (ww : provider.World Remote provider.WebformAttrs.t)
    (wr : provider.World Remote provider.RotationAttrs.t)
    (err : error) :
  let teamID := provider.WebformAttrs.team_id (provider.attrs (provider.data ww)) in
  let webformID := provider.Id (provider.data ww) in
  let rotationID := provider.Id (provider.data wr) in
  let gone := api.IsResourceNotFoundError err in
  teamID <> "" ->
  (forall v rem,
     api.GetWebformById teamID webformID (provider.remote ww) = ((v, Some err), rem) ->
     provider.resourceWebformRead ww =
       Done (if gone then [] else diag.FromErr err,
             provider.mkWorld
               (if gone then provider.SetId "" (provider.data ww) else provider.data ww)
               rem
               (provider.calls ww ++ [provider.CallGetWebformById teamID webformID])))
  /\ (forall v rem,
        api.GetScheduleRotationById rotationID (provider.remote wr)
          = ((v, Some err), rem) ->
        provider.resourceScheduleRotationRead wr =
          Done (if gone then [] else diag.FromErr err,
                provider.mkWorld
                  (if gone then provider.SetId "" (provider.data wr) else provider.data wr)
                  rem
                  (provider.calls wr ++ [provider.CallGetScheduleRotationById rotationID])))
  /\ (forall v rem,
        api.DeleteWebform teamID webformID (provider.remote ww) = ((v, Some err), rem) ->
        provider.resourceWebformDelete ww =
          Done (if gone then [] else diag.FromErr err,
                provider.mkWorld
                  (if gone then provider.SetId "" (provider.data ww) else provider.data ww)
                  rem
                  (provider.calls ww ++ [provider.CallDeleteWebform teamID webformID])))
  /\ (forall A (d : provider.ResourceData A),
        provider.Id (provider.SetId "" d) = ""
        /\ provider.attrs (provider.SetId "" d) = provider.attrs d).
Proof.
  intros teamID webformID rotationID gone Hteam.
  split; [| split; [| split]].
  - intros v rem Hcall. unfold provider.resourceWebformRead. run.
    fold teamID webformID. rewrite (GetOkString_nonempty _ Hteam). cbn [negb].
    rewrite Hcall. fold gone. by destruct gone.
  - intros v rem Hcall. unfold provider.resourceScheduleRotationRead. run.
    fold rotationID. rewrite Hcall. fold gone. by destruct gone.
  - intros v rem Hcall. unfold provider.resourceWebformDelete. run.
    fold teamID webformID. rewrite (GetOkString_nonempty _ Hteam). cbn [negb].
    rewrite Hcall. fold gone. by destruct gone.
  - intros A d. split; reflexivity.
Qed.
End Drift.

(** ** Request assembly in resource_webform.go *)

Section WebformRequest.
Context `{provider.Decoder api.WFService.t} `{provider.Decoder api.WFSeverity.t}.

Lemma assertString_Done (v : iface) (s : string) :
  assertString v = Done s <-> v = IStr s.
Proof. destruct v; cbn; split; congruence. Qed.

(** The loop writes the strings at the indices [i], [i+1], ... *)
Lemma emailOnLoop_strings (strs : list string) (i : nat) (emailon : list string) :
  length emailon = (i + length strs)%nat ->
  provider.emailOnLoop i (IStr <$> strs) emailon = Done (take i emailon ++ strs).
Proof.
  revert i emailon. induction strs as [| s strs IH]; intros i emailon Hlen.
  - cbn. rewrite app_nil_r, take_ge; [done | cbn in Hlen; lia].
  - cbn in Hlen. cbn [fmap list_fmap provider.emailOnLoop assertString mbind
                      provider.Outcome_bind obind].
    change (list_fmap string iface IStr strs) with (IStr <$> strs).
    rewrite IH by (rewrite length_insert; lia).
    f_equal. rewrite (take_S_r _ _ s).
    + rewrite take_insert_ge by lia. by rewrite <- app_assoc.
    + apply list_lookup_insert_eq. lia.
Qed.

Lemma emailOnLoop_Done_inv (l : list iface) (i : nat) (emailon r : list string) :
  provider.emailOnLoop i l emailon = Done r -> exists strs, l = IStr <$> strs.
Proof.
  revert i emailon. induction l as [| v l IH]; intros i emailon Hr.
  - by exists [].
  - cbn in Hr. destruct v; try discriminate. cbn in Hr.
    destruct (IH _ _ Hr) as (strs & ->). by exists (s :: strs).
Qed.

Lemma emailOnLoop_Done (l : list iface) (r : list string) :
  provider.emailOnLoop 0 l (replicate (length l) "") = Done r <-> IStr <$> r = l.
Proof.
  split.
  - intros Hr. destruct (emailOnLoop_Done_inv _ _ _ _ Hr) as (strs & ->).
    rewrite emailOnLoop_strings in Hr by (rewrite length_replicate, length_fmap; lia).
    by injection Hr as <-.
  - intros <-. rewrite emailOnLoop_strings
      by (rewrite length_replicate, length_fmap; lia).
    done.
Qed.

(** The loop over the tags ends in a map of strings exactly on a map
    whose values are strings, and then that is the map. *)
Lemma tagsLoop_Done (mtags : gmap string iface) (tags : gmap string string) :
  provider.tagsLoop mtags = Done tags <-> IStr <$> tags = mtags.
Proof.
  unfold provider.tagsLoop. revert tags.
  apply (map_fold_weak_ind
    (fun (r : Outcome (gmap string string)) (m : gmap string iface) =>
       forall tags, r = Done tags <-> IStr <$> tags = m)).
  - intros tags. split.
    + intros [= <-]. apply fmap_empty.
    + intros Hm. apply fmap_empty_inv in Hm. by subst.
  - intros k v m r Hk IH tags. split.
    + destruct r as [t |]; [| discriminate]. cbn.
      destruct v; try discriminate. cbn. intros [= <-].
      rewrite fmap_insert. f_equal. by apply IH.
    + intros Hm.
      assert (Hv : IStr <$> tags !! k = Some v).
      { rewrite <- lookup_fmap, Hm. apply lookup_insert_eq. }
      destruct (tags !! k) as [s |] eqn:Hs; [| discriminate].
      injection Hv as <-.
      assert (Hr : r = Done (delete k tags)).
      { apply IH. rewrite fmap_delete, Hm. by apply delete_insert_id. }
      rewrite Hr. cbn. f_equal. by apply insert_delete_id.
Qed.

Lemma webformReqOf_Done (a : provider.WebformAttrs.t) (req : api.WebformReq.t) :
  provider.webformReqOf a = Done (inr req) <->
  exists emailon services severity tags,
    IStr <$> emailon = provider.WebformAttrs.email_on a
    /\ provider.Decode (provider.WebformAttrs.services a) = inr services
    /\ provider.Decode (provider.WebformAttrs.severity a) = inr severity
    /\ IStr <$> tags = provider.WebformAttrs.tags a
    /\ req = api.WebformReq.mk
         (provider.WebformAttrs.name a) (provider.WebformAttrs.team_id a)
         (provider.WebformAttrs.form_owner_type a)
         (provider.WebformAttrs.form_owner_id a)
         (provider.WebformAttrs.form_owner_name a)
         (provider.WebformAttrs.host_name a) (provider.WebformAttrs.is_cname a)
         (provider.WebformAttrs.header a) (provider.WebformAttrs.description a)
         (provider.WebformAttrs.title a) (provider.WebformAttrs.footer_text a)
         (provider.WebformAttrs.footer_link a)
         emailon services severity tags.
Proof.
  unfold provider.webformReqOf. split.
  - destruct (provider.emailOnLoop _ _ _) as [emailon |] eqn:He; [| discriminate].
    cbn. destruct (provider.Decode (provider.WebformAttrs.services a))
      as [e | services]; [discriminate |].
    destruct (provider.Decode (provider.WebformAttrs.severity a))
      as [e | severity]; [discriminate |].
    destruct (provider.tagsLoop _) as [tags |] eqn:Ht; [| discriminate].
    cbn. intros [= <-]. exists emailon, services, severity, tags.
    apply emailOnLoop_Done in He. apply tagsLoop_Done in Ht. done.
  - intros (emailon & services & severity & tags & He & -> & -> & Ht & ->).
    apply emailOnLoop_Done in He. apply tagsLoop_Done in Ht.
    rewrite He. cbn. rewrite Ht. reflexivity.
Qed.

Lemma webformReqOf_Done_inl (a : provider.WebformAttrs.t) (ds : diag.Diagnostics) :
  provider.webformReqOf a = Done (inl ds) -> diag.HasError ds = true.
Proof.
  unfold provider.webformReqOf.
  destruct (provider.emailOnLoop _ _ _); [| discriminate]. cbn.
  repeat (case_match; try discriminate); try by intros [= <-].
  destruct (provider.tagsLoop _); discriminate.
Qed.
End WebformRequest.

Lemma uint64_id (z : Z) : 0 <= z < 2 ^ 64 -> Strconv.uint64 z = z.
Proof. intros Hz. unfold Strconv.uint64. by apply Z.mod_small. Qed.

Section WebformCreate.
Context {Remote : Type} `{api.Methods Remote}.
Context `{provider.Decoder api.WFService.t} `{provider.Decoder api.WFSeverity.t}.
Context `{provider.Setter api.Webform.t provider.WebformAttrs.t}.

Lemma resourceWebformRead_unfold
    (w : provider.World Remote provider.WebformAttrs.t) :
  provider.resourceWebformRead w =
    let id := provider.Id (provider.data w) in
    let teamID := provider.WebformAttrs.team_id (provider.attrs (provider.data w)) in
    let calls' := provider.calls w ++ [provider.CallGetWebformById teamID id] in
    if String.eqb teamID "" then Done (diag.Errorf "invalid team id provided !", w)
    else
      match api.GetWebformById teamID id (provider.remote w) with
      | ((_, Some err), rem) =>
          Done (if api.IsResourceNotFoundError err then [] else diag.FromErr err,
                provider.mkWorld
                  (if api.IsResourceNotFoundError err
                   then provider.SetId "" (provider.data w) else provider.data w)
                  rem calls')
      | ((webform, None), rem) =>
          let '(d, err) := provider.EncodeAndSet webform (provider.data w) in
          Done (match err with Some err => diag.FromErr err | None => [] end,
                provider.mkWorld d rem calls')
      end.
Proof.
  unfold provider.resourceWebformRead. run. unfold provider.GetOkString. cbn zeta.
  destruct (String.eqb _ ""); cbn [negb]; [by destruct w |].
  destruct (api.GetWebformById _ _ _) as [[webform [err |]] rem]; cbn.
  - by destruct (api.IsResourceNotFoundError err).
  - by destruct (provider.EncodeAndSet webform (provider.data w)) as [d [err |]].
Qed.

(** C5.  The request that [resourceWebformCreate] builds copies the
    twelve scalar attributes, has as [EmailOn] the [email_on] list
    element by element in order, and as [Tags] the [tags] map entry by
    entry; it is built for every configuration whose [email_on] and
    [tags] hold strings and whose blocks decode; it is the request
    passed to [CreateWebform], and after a successful create the
    resource ID is set to the decimal string of the returned webform ID
    before the webform is read back; when the handler returns, the
    resource ID is that decimal string, unless the read has found the
    webform gone and cleared it ([tf.EncodeAndSet] taken to leave the
    resource ID alone). *)
Theorem webform_create_request
    (w : provider.World Remote provider.WebformAttrs.t) :
  let a := provider.attrs (provider.data w) in
  (forall req,
     provider.webformReqOf a = Done (inr req) ->
     api.WebformReq.Name req = provider.WebformAttrs.name a
     /\ api.WebformReq.TeamID req = provider.WebformAttrs.team_id a
     /\ api.WebformReq.FormOwnerType req = provider.WebformAttrs.form_owner_type a
     /\ api.WebformReq.FormOwnerID req = provider.WebformAttrs.form_owner_id a
     /\ api.WebformReq.FormOwnerName req = provider.WebformAttrs.form_owner_name a
     /\ api.WebformReq.HostName req = provider.WebformAttrs.host_name a
     /\ api.WebformReq.IsCname req = provider.WebformAttrs.is_cname a
     /\ api.WebformReq.Header req = provider.WebformAttrs.header a
     /\ api.WebformReq.Description req = provider.WebformAttrs.description a
     /\ api.WebformReq.Title req = provider.WebformAttrs.title a
     /\ api.WebformReq.FooterText req = provider.WebformAttrs.footer_text a
     /\ api.WebformReq.FooterLink req = provider.WebformAttrs.footer_link a
     /\ IStr <$> api.WebformReq.EmailOn req = provider.WebformAttrs.email_on a
     /\ IStr <$> api.WebformReq.Tags req = provider.WebformAttrs.tags a)
  /\ (forall emailon tags services severity,
        provider.WebformAttrs.email_on a = IStr <$> emailon ->
        provider.WebformAttrs.tags a = IStr <$> tags ->
        provider.Decode (provider.WebformAttrs.services a) = inr services ->
        provider.Decode (provider.WebformAttrs.severity a) = inr severity ->
        exists req,
          provider.webformReqOf a = Done (inr req)
          /\ api.WebformReq.EmailOn req = emailon
          /\ api.WebformReq.Tags req = tags
          /\ api.WebformReq.Services req = services
          /\ api.WebformReq.Severity req = severity)
  /\ (forall req res rem,
        provider.webformReqOf a = Done (inr req) ->
        api.CreateWebform (provider.WebformAttrs.team_id a) req (provider.remote w)
          = ((Some res, None), rem) ->
        let id := api.Webform.ID (api.WebformRes.WebFormRes res) in
        0 <= id < 2 ^ 64 ->
        let w1 :=
          provider.mkWorld
            (provider.SetId (Strconv.FormatUint10 id) (provider.data w))
            rem
            (provider.calls w ++
             [provider.CallCreateWebform (provider.WebformAttrs.team_id a) req]) in
        provider.resourceWebformCreate w = provider.resourceWebformRead w1
        /\ provider.Id (provider.data w1) = Strconv.FormatUint10 id
        /\ provider.attrs (provider.data w1) = a)
  /\ (forall req res rem ds w',
        provider.webformReqOf a = Done (inr req) ->
        api.CreateWebform (provider.WebformAttrs.team_id a) req (provider.remote w)
          = ((Some res, None), rem) ->
        let id := api.Webform.ID (api.WebformRes.WebFormRes res) in
        0 <= id < 2 ^ 64 ->
        (forall (v : option api.Webform.t) d,
           provider.Id (provider.EncodeAndSet v d).1 = provider.Id d) ->
        provider.resourceWebformCreate w = Done (ds, w') ->
        provider.Id (provider.data w') =
          if String.eqb (provider.WebformAttrs.team_id a) ""
          then Strconv.FormatUint10 id
          else
            match (api.GetWebformById (provider.WebformAttrs.team_id a)
                     (Strconv.FormatUint10 id) rem).1 with
            | (_, Some err) =>
                if api.IsResourceNotFoundError err then ""
                else Strconv.FormatUint10 id
            | (_, None) => Strconv.FormatUint10 id
            end).
Proof.
  intros a.
  assert (Hcreate : forall req res rem,
    provider.webformReqOf a = Done (inr req) ->
    api.CreateWebform (provider.WebformAttrs.team_id a) req (provider.remote w)
      = ((Some res, None), rem) ->
    0 <= api.Webform.ID (api.WebformRes.WebFormRes res) < 2 ^ 64 ->
    provider.resourceWebformCreate w =
      provider.resourceWebformRead
        (provider.mkWorld
           (provider.SetId
              (Strconv.FormatUint10 (api.Webform.ID (api.WebformRes.WebFormRes res)))
              (provider.data w))
           rem
           (provider.calls w ++
            [provider.CallCreateWebform (provider.WebformAttrs.team_id a) req]))).
  { intros req res rem Hreq Hcall Hid.
    unfold provider.resourceWebformCreate. run. fold a. rewrite Hreq, Hcall.
    cbn [api.WebformRes.WebFormRes]. by rewrite (uint64_id _ Hid). }
  split; [| split; [| split]].
  - intros req Hreq. apply webformReqOf_Done in Hreq
      as (emailon & services & severity & tags & He & _ & _ & Ht & ->).
    cbn. by repeat split.
  - intros emailon tags services severity He Ht Hsvc Hsev.
    eexists. split; [apply webformReqOf_Done |].
    + exists emailon, services, severity, tags. by repeat split.
    + by cbn.
  - intros req res rem Hreq Hcall id Hid w1.
    split; [by apply Hcreate | done].
  - intros req res rem ds w' Hreq Hcall id Hid Hset.
    rewrite (Hcreate req res rem Hreq Hcall Hid). fold id.
    rewrite resourceWebformRead_unfold. subst a. cbn.
    destruct (String.eqb _ ""); [by intros [= _ <-] |].
    destruct (api.GetWebformById _ _ _) as [[webform [err |]] rem'];
      cbn [fst].
    + intros [= _ <-]. cbn. by destruct (api.IsResourceNotFoundError err).
    + pose proof (Hset webform
                    (provider.SetId (Strconv.FormatUint10 id) (provider.data w)))
        as Hid'.
      destruct (provider.EncodeAndSet _ _) as [d err]. by intros [= _ <-].
Qed.
End WebformCreate.

(** ** resourceScheduleRotationCreate *)

Section RotationCreate.
Context {Remote : Type} `{api.Methods Remote}.
Context `{provider.Decoder api.Participant.t, provider.Decoder api.Timeslot.t}.
Context `{provider.Setter api.RotationStruct.t provider.RotationAttrs.t}.

Implicit Types (w : provider.World Remote provider.RotationAttrs.t).
Implicit Types (a : provider.RotationAttrs.t).

(** The read handler never panics; this is all it does. *)
Lemma resourceScheduleRotationRead_unfold w :
  provider.resourceScheduleRotationRead w =
    let id := provider.Id (provider.data w) in
    let calls' := provider.calls w ++ [provider.CallGetScheduleRotationById id] in
    match api.GetScheduleRotationById id (provider.remote w) with
    | ((_, Some err), rem) =>
        Done (if api.IsResourceNotFoundError err then [] else diag.FromErr err,
              provider.mkWorld
                (if api.IsResourceNotFoundError err
                 then provider.SetId "" (provider.data w) else provider.data w)
                rem calls')
    | ((rotation, None), rem) =>
        let '(d, err) := provider.EncodeAndSet rotation (provider.data w) in
        Done (match err with Some err => diag.FromErr err | None => [] end,
              provider.mkWorld d rem calls')
    end.
Proof.
  unfold provider.resourceScheduleRotationRead. run.
  destruct (api.GetScheduleRotationById _ _) as [[rotation [err |]] rem]; cbn.
  - by destruct (api.IsResourceNotFoundError err).
  - by destruct (provider.EncodeAndSet rotation (provider.data w)) as [d [err |]].
Qed.

Lemma resourceScheduleRotationRead_calls w ds w' :
  provider.resourceScheduleRotationRead w = Done (ds, w') ->
  provider.calls w' =
    provider.calls w ++
    [provider.CallGetScheduleRotationById (provider.Id (provider.data w))].
Proof.
  rewrite resourceScheduleRotationRead_unfold. cbn zeta.
  destruct (api.GetScheduleRotationById _ _) as [[rotation [err |]] rem].
  - by intros [= _ <-].
  - destruct (provider.EncodeAndSet _ _) as [d err]. by intros [= _ <-].
Qed.

(** The request sent for the attributes [a], the three blocks having
    given [gs], [ts] and [cp]. *)
Let requestOf a gs ts (cp : Z * string) : api.NewRotation.t :=
  api.NewRotation.mk 0
    (provider.RotationAttrs.name a) gs
    (provider.RotationAttrs.start_date a) (provider.RotationAttrs.period a)
    ts cp.1 cp.2
    (provider.RotationAttrs.change_participants_frequency a)
    (provider.RotationAttrs.change_participants_unit a)
    (provider.RotationAttrs.end_date a)
    (provider.RotationAttrs.ends_after_iterations a).

(** Once the three blocks pass, the handler calls the client, once. *)
Lemma resourceScheduleRotationCreate_proceeds w gs ts cp :
  let a := provider.attrs (provider.data w) in
  let sid := provider.RotationAttrs.schedule_id a in
  let req := requestOf a gs ts cp in
  let calls' := provider.calls w ++ [provider.CallCreateScheduleRotation sid req] in
  provider.participantGroupsOf a = Done (inr gs) ->
  provider.shiftTimeSlotsOf a = inr ts ->
  provider.customPeriodOf a = inr cp ->
  provider.resourceScheduleRotationCreate w =
    match api.CreateScheduleRotation sid req (provider.remote w) with
    | ((_, Some err), rem) =>
        Done (diag.FromErr err, provider.mkWorld (provider.data w) rem calls')
    | ((Some rotation, None), rem) =>
        provider.resourceScheduleRotationRead
          (provider.mkWorld
             (provider.SetId
                (Strconv.Itoa (api.NewRotation.ID
                                 (api.RotationStruct.NewRotation rotation)))
                (provider.data w))
             rem calls')
    | ((None, None), rem) =>
        Panic "invalid memory address or nil pointer dereference"
    end.
Proof.
  intros a sid req calls' Hg Hs Hc.
  unfold provider.resourceScheduleRotationCreate. run.
  fold a. rewrite Hg, Hs, Hc. destruct cp as [f u]. fold sid.
  change (api.NewRotation.mk 0 _ _ _ _ _ _ _ _ _ _ _) with req.
  by destruct (api.CreateScheduleRotation sid req (provider.remote w))
    as [[[rotation |] [err |]] rem].
Qed.

Lemma resourceScheduleRotationCreate_proceeds_calls w gs ts cp ds w' :
  let a := provider.attrs (provider.data w) in
  provider.participantGroupsOf a = Done (inr gs) ->
  provider.shiftTimeSlotsOf a = inr ts ->
  provider.customPeriodOf a = inr cp ->
  provider.resourceScheduleRotationCreate w = Done (ds, w') ->
  exists cs,
    provider.calls w' =
      provider.calls w ++
      provider.CallCreateScheduleRotation
        (provider.RotationAttrs.schedule_id a) (requestOf a gs ts cp) :: cs.
Proof.
  intros a Hg Hs Hc. rewrite (resourceScheduleRotationCreate_proceeds w gs ts cp Hg Hs Hc).
  destruct (api.CreateScheduleRotation _ _ _) as [[[rotation |] [err |]] rem].
  - intros [= _ <-]. by exists [].
  - intros Hread. apply resourceScheduleRotationRead_calls in Hread.
    rewrite Hread. cbn. rewrite <- app_assoc. by eexists.
  - intros [= _ <-]. by exists [].
  - discriminate.
Qed.

Lemma participantGroupsLoop_HasError (l : list iface) acc ds :
  provider.participantGroupsLoop l acc = Done (inl ds) -> diag.HasError ds = true.
Proof.
  revert acc. induction l as [| v l IH]; intros acc; cbn; [discriminate |].
  destruct v; cbn; try by intros [= <-].
  destruct (mapIndex m "participants"); cbn; try discriminate.
  destruct (provider.Decode l0) as [e | ps]; [by intros [= <-] | apply IH].
Qed.

Lemma shiftTimeSlotsOf_inl a :
  (exists ds, provider.shiftTimeSlotsOf a = inl ds) <->
  (provider.RotationAttrs.period a <> "custom"
   /\ (1 < length (provider.RotationAttrs.shift_timeslots a))%nat)
  \/ (provider.RotationAttrs.shift_timeslots a <> []
      /\ exists e, provider.Decode (T := api.Timeslot.t)
                    (provider.RotationAttrs.shift_timeslots a) = inl e).
Proof.
  unfold provider.shiftTimeSlotsOf.
  destruct (provider.RotationAttrs.shift_timeslots a) as [| t ts] eqn:Hts.
  { cbn. split; [intros (? & [=]) | intros [[_ ?] | [? _]]; [lia | done]]. }
  cbn [length Nat.ltb Nat.leb].
  destruct (String.eqb_spec (provider.RotationAttrs.period a) "custom") as [Hp | Hp];
    cbn [negb andb].
  - destruct (provider.Decode (t :: ts)) as [e | l] eqn:Hd.
    + split; [intros _; right; split; [done | by exists e] | by eexists].
    + split; [intros (? & [=]) | intros [[? _] | (_ & ? & [=])]; done].
  - destruct ts as [| t' ts]; cbn [length Nat.leb].
    + destruct (provider.Decode [t]) as [e | l] eqn:Hd.
      * split; [intros _; right; split; [done | by exists e] | by eexists].
      * split; [intros (? & [=]) | intros [[_ ?] | (_ & ? & [=])]; lia].
    + split; [intros _; left; split; [done | cbn; lia] | by eexists].
Qed.

Lemma shiftTimeSlotsOf_HasError a ds :
  provider.shiftTimeSlotsOf a = inl ds -> diag.HasError ds = true.
Proof.
  unfold provider.shiftTimeSlotsOf.
  repeat (case_match; try discriminate); by intros [= <-].
Qed.

Lemma customPeriodOf_inl a :
  (exists ds, provider.customPeriodOf a = inl ds) <->
  let period := provider.RotationAttrs.period a in
  let freq := provider.RotationAttrs.custom_period_frequency a in
  let unit_ := provider.RotationAttrs.custom_period_unit a in
  (period = "custom" /\ freq = 0)
  \/ (period = "custom" /\ unit_ = "")
  \/ (period <> "custom" /\ freq <> 0)
  \/ (period <> "custom" /\ unit_ <> "").
Proof.
  unfold provider.customPeriodOf. cbn zeta.
  destruct (String.eqb_spec (provider.RotationAttrs.period a) "custom") as [Hp | Hp];
    destruct (Z.eqb_spec (provider.RotationAttrs.custom_period_frequency a) 0) as [Hf | Hf];
    destruct (String.eqb_spec (provider.RotationAttrs.custom_period_unit a) "") as [Hu | Hu];
    cbn [negb]; split; try (intros _; tauto); try (by eexists);
    try (intros (? & [=])); intuition congruence.
Qed.

Lemma customPeriodOf_HasError a ds :
  provider.customPeriodOf a = inl ds -> diag.HasError ds = true.
Proof.
  unfold provider.customPeriodOf.
  repeat (case_match; try discriminate); by intros [= <-].
Qed.

Lemma not_rejects_after_call w (c : provider.ClientCall)
    (h : provider.M (provider.World Remote provider.RotationAttrs.t) diag.Diagnostics) :
  (forall ds w', h w = Done (ds, w') ->
                 exists cs, provider.calls w' = provider.calls w ++ c :: cs) ->
  ~ provider.rejects h w.
Proof.
  intros Hcalls (ds & w' & Hrun & _ & Hsame).
  destruct (Hcalls ds w' Hrun) as (cs & Hcs). rewrite Hsame in Hcs.
  apply (f_equal length) in Hcs. rewrite length_app in Hcs. cbn in Hcs. lia.
Qed.

(** A group is turned down when it is not an object or when its
    participants do not decode. *)
Lemma participantGroupsLoop_inl (l : list iface) acc ds :
  provider.participantGroupsLoop l acc = Done (inl ds) ->
  exists v, v ∈ l
    /\ ((forall m, v <> IMap m)
        \/ exists m ps e, v = IMap m
             /\ mapIndex m "participants" = IList ps
             /\ provider.Decode (T := api.Participant.t) ps = inl e).
Proof.
  revert acc. induction l as [| v l IH]; intros acc; cbn; [discriminate |].
  destruct v as [| | | | | m |]; cbn;
    try (intros _;
         match goal with |- exists v, v ∈ ?x :: _ /\ _ => exists x end;
         split; [apply list_elem_of_here | left; congruence]).
  destruct (mapIndex m "participants") as [| | | | ps | |] eqn:Hps; cbn;
    try discriminate.
  destruct (provider.Decode ps) as [e | l'] eqn:Hd.
  - intros _. exists (IMap m). split; [apply list_elem_of_here |].
    right. by exists m, ps, e.
  - intros Hrest. destruct (IH _ Hrest) as (v & Hin & Hv).
    exists v. split; [by apply list_elem_of_further | done].
Qed.

(** Every group an object whose participants decode: the loop accepts. *)
Lemma participantGroupsLoop_inr (l : list iface) acc :
  Forall (fun v => exists m ps ok, v = IMap m
                     /\ m !! "participants" = Some (IList ps)
                     /\ provider.Decode (T := api.Participant.t) ps = inr ok) l ->
  exists gs, provider.participantGroupsLoop l acc = Done (inr gs).
Proof.
  intros Hall. revert acc.
  induction Hall as [| v l (m & ps & ok & -> & Hps & Hd) _ IH]; intros acc.
  - by eexists.
  - cbn. unfold mapIndex. rewrite Hps. cbn. rewrite Hd. apply IH.
Qed.

(** When the handler turns a configuration down before calling the
    client. *)
Lemma resourceScheduleRotationCreate_rejects w :
  let a := provider.attrs (provider.data w) in
  provider.rejects provider.resourceScheduleRotationCreate w <->
    (exists ds, provider.participantGroupsOf a = Done (inl ds))
    \/ ((exists gs, provider.participantGroupsOf a = Done (inr gs))
        /\ (provider.customPeriodRejected a
            \/ (provider.RotationAttrs.shift_timeslots a <> []
                /\ exists e,
                     provider.Decode (T := api.Timeslot.t)
                       (provider.RotationAttrs.shift_timeslots a) = inl e))).
Proof.
  intros a.
  assert (Hearly : forall ds,
    provider.participantGroupsOf a = Done (inl ds)
    \/ (exists gs, provider.participantGroupsOf a = Done (inr gs)
          /\ (provider.shiftTimeSlotsOf a = inl ds
              \/ exists ts, provider.shiftTimeSlotsOf a = inr ts
                   /\ provider.customPeriodOf a = inl ds)) ->
    provider.resourceScheduleRotationCreate w = Done (ds, w)).
  { intros ds Hds. unfold provider.resourceScheduleRotationCreate. run. fold a.
    destruct Hds as [-> | (gs & -> & [-> | (ts & -> & ->)])]; by destruct w. }
  destruct (provider.participantGroupsOf a) as [[ds | gs] | msg] eqn:Hg.
    - split; [intros _; left; by exists ds |]. intros _.
      exists ds, w. split; [apply Hearly; by left |]. split; [| done].
      unfold provider.participantGroupsOf in Hg. case_match; [| discriminate].
      by apply participantGroupsLoop_HasError in Hg.
    - destruct (provider.shiftTimeSlotsOf a) as [ds | ts] eqn:Hs.
      + assert (Hs' : exists ds, provider.shiftTimeSlotsOf a = inl ds) by by exists ds.
        apply shiftTimeSlotsOf_inl in Hs'. split.
        * intros _. right. split; [by exists gs |].
          destruct Hs' as [Hmulti | Hdec]; [left | by right].
          unfold provider.customPeriodRejected. tauto.
        * intros _. exists ds, w. split.
          { apply Hearly. right. exists gs. split; [done | by left]. }
          split; [by apply shiftTimeSlotsOf_HasError in Hs | done].
      + assert (Hs' : ~ exists ds, provider.shiftTimeSlotsOf a = inl ds)
          by (rewrite Hs; intros (? & [=])).
        rewrite shiftTimeSlotsOf_inl in Hs'.
        destruct (provider.customPeriodOf a) as [ds | cp] eqn:Hc.
        * assert (Hc' : exists ds, provider.customPeriodOf a = inl ds) by by exists ds.
          apply customPeriodOf_inl in Hc'. cbn zeta in Hc'. split.
          { intros _. right. split; [by exists gs |]. left.
            unfold provider.customPeriodRejected. tauto. }
          { intros _. exists ds, w. split.
            - apply Hearly. right. exists gs. split; [done |]. right. by exists ts.
            - split; [by apply customPeriodOf_HasError in Hc | done]. }
        * assert (Hc' : ~ exists ds, provider.customPeriodOf a = inl ds)
            by (rewrite Hc; intros (? & [=])).
          rewrite customPeriodOf_inl in Hc'. cbn zeta in Hc'. split.
          { intros Hrej. exfalso. revert Hrej.
            eapply not_rejects_after_call. intros ds w'.
            by apply (resourceScheduleRotationCreate_proceeds_calls w gs ts cp). }
          { intros [(? & [=]) | (_ & [Hrej | Hdec])]; [| tauto].
            unfold provider.customPeriodRejected in Hrej. tauto. }
    - split.
      + intros (ds & w' & Hrun & _). exfalso. revert Hrun.
        unfold provider.resourceScheduleRotationCreate. run. fold a.
        by rewrite Hg.
      + intros [(? & [=]) | ((? & [=]) & _)].
Qed.

End RotationCreate.

(** ** Schema validation and the handlers' own checks *)

Section RotationSchema.
Context {Remote : Type} `{api.Methods Remote}.
Context `{provider.Decoder api.Participant.t, provider.Decoder api.Timeslot.t}.
Context `{provider.Setter api.RotationStruct.t provider.RotationAttrs.t}.
Context `{provider.ObjectID}.

Implicit Types (w : provider.World Remote provider.RotationAttrs.t).

(** What the schema makes of a participant_groups entry. *)
Lemma participantGroupValid_inv (v : iface) :
  provider.participantGroupValid v = true ->
  v = INil \/ exists m ps, v = IMap m /\ m !! "participants" = Some (IList ps).
Proof.
  destruct v as [| | | | | m |]; cbn; try discriminate; [by left |].
  destruct (m !! "participants") as [[| | | | ps | |] |] eqn:Hps; try discriminate.
  intros _. right. by exists m, ps.
Qed.

Lemma rotationSchemaValid_inv (a : provider.RotationAttrs.t) :
  provider.rotationSchemaValid a = true ->
  Forall (fun v => provider.participantGroupValid v = true)
         (provider.RotationAttrs.participant_groups a)
  /\ provider.RotationAttrs.shift_timeslots a <> [].
Proof.
  unfold provider.rotationSchemaValid. rewrite !andb_true_iff.
  intros ((((((_ & Hg) & _) & Hlen) & _) & _) & _). split.
  - apply Forall_forall. intros v Hv. rewrite forallb_forall in Hg.
    apply Hg. by apply list_elem_of_In.
  - intros Hnil. rewrite Hnil in Hlen. discriminate.
Qed.

Lemma read_delete_make_a_call w :
  ~ provider.rejects provider.resourceScheduleRotationRead w
  /\ ~ provider.rejects provider.resourceScheduleRotationDelete w.
Proof.
  split.
  - eapply not_rejects_after_call. intros ds w' Hrun.
    apply resourceScheduleRotationRead_calls in Hrun. by exists [].
  - eapply not_rejects_after_call. intros ds w'.
    unfold provider.resourceScheduleRotationDelete. run.
    destruct (api.DeleteScheduleRotationByID _ _) as [[r [err |]] rem];
      [destruct (api.IsResourceNotFoundError err) |];
      intros [= _ <-]; by exists [].
Qed.

End RotationSchema.

(** ** The update operations *)

Section UpdateLifecycle.
Context {Remote : Type} `{api.Methods Remote}.
Context `{provider.Decoder api.Participant.t, provider.Decoder api.Timeslot.t}.
Context `{provider.Decoder api.WFService.t, provider.Decoder api.WFSeverity.t}.
Context `{provider.Setter api.RotationStruct.t provider.RotationAttrs.t}.
Context `{provider.Setter api.Webform.t provider.WebformAttrs.t}.
Context `{provider.Parse2Part}.

End UpdateLifecycle.

(** ** Encoding schedules (internal/api/schedules.go) *)

Section ScheduleEncode.
Context `{tf.Coercion}.

(** The fields of a [Schedule] that carry a [tf] tag other than [-],
    each coerced: what [tf.Encode] returns. *)
Lemma Encode_Schedule (s : api.Schedule.t) (m : gmap string iface) :
  tf.Encode s = inr m <->
  exists vid vname vcolor vdesc,
    tf.coerce (IStr (api.Schedule.ID s)) = inr vid
    /\ tf.coerce (IStr (api.Schedule.Name s)) = inr vname
    /\ tf.coerce (IStr (api.Schedule.Colour s)) = inr vcolor
    /\ tf.coerce (IStr (api.Schedule.Description s)) = inr vdesc
    /\ m = <["description" := vdesc]> (<["color" := vcolor]>
             (<["name" := vname]> (<["id" := vid]> ∅))).
Proof.
  unfold tf.Encode. cbn.
  destruct (tf.coerce (IStr (api.Schedule.ID s))) as [e | vid];
    [split; [discriminate | by intros (? & ? & ? & ? & [=] & _)] |].
  destruct (tf.coerce (IStr (api.Schedule.Name s))) as [e | vname];
    [split; [discriminate | by intros (? & ? & ? & ? & _ & [=] & _)] |].
  destruct (tf.coerce (IStr (api.Schedule.Colour s))) as [e | vcolor];
    [split; [discriminate | by intros (? & ? & ? & ? & _ & _ & [=] & _)] |].
  destruct (tf.coerce (IStr (api.Schedule.Description s))) as [e | vdesc];
    [split; [discriminate | by intros (? & ? & ? & ? & _ & _ & _ & [=] & _)] |].
  split.
  - intros [= <-]. by exists vid, vname, vcolor, vdesc.
  - by intros (? & ? & ? & ? & [= <-] & [= <-] & [= <-] & [= <-] & ->).
Qed.

(** Encoding a slice is element-wise. *)
Lemma EncodeSlice_inr {T} (enc : T -> error + gmap string iface)
    (input : list T) (out : list iface) :
  tf.EncodeSlice enc input = inr out <->
  Forall2 (fun x v => exists m, enc x = inr m /\ v = IMap m) input out.
Proof.
  revert out. induction input as [| x xs IH]; intros out; cbn.
  - split; [intros [= <-]; constructor | by inversion 1].
  - destruct (enc x) as [e | m] eqn:Hx.
    + split; [discriminate |]. inversion 1 as [| ? ? ? ? (m & Hm & _)]; subst.
      rewrite Hx in Hm. discriminate.
    + destruct (tf.EncodeSlice enc xs) as [e | ms] eqn:Hxs.
      * split; [discriminate |]. inversion 1 as [| ? ? ? ? _ Hrest]; subst.
        apply IH in Hrest. discriminate.
      * split.
        { intros [= <-]. constructor; [by exists m | by apply IH]. }
        { inversion 1 as [| ? ? ? ? (m' & Hm & ->) Hrest]; subst.
          apply IH in Hrest. rewrite Hx in Hm. by injection Hrest as <-;
            injection Hm as <-. }
Qed.

(** The keys of an encoding: the tags other than [-]. *)
Lemma encodeFields_dom (fs : list (string * iface)) (m0 m : gmap string iface) :
  tf.encodeFields fs m0 = inr m ->
  dom m = dom m0 ∪ list_to_set (filter (fun tag => tag <> "-") fs.*1).
Proof.
  revert m0. induction fs as [| [tag v] fs IH]; intros m0.
  - intros [= <-]. rewrite fmap_nil, filter_nil, list_to_set_nil.
    by rewrite (right_id_L ∅ (∪)).
  - rewrite fmap_cons. cbn [fst tf.encodeFields].
    destruct (String.eqb_spec tag "-") as [-> | Htag].
    + intros Hm. rewrite (IH _ Hm), filter_cons_False by (intros ?; done). done.
    + destruct (tf.coerce v) as [e | v']; [discriminate |].
      intros Hm. rewrite (IH _ Hm), filter_cons_True by done.
      rewrite dom_insert_L, list_to_set_cons.
      rewrite (assoc_L (∪)), (comm_L (∪) {[tag]}). done.
Qed.

Lemma Encode_NewSchedule_dom (n : api.NewSchedule.t) (m0 : gmap string iface) :
  tf.Encode n = inr m0 ->
  dom m0 = {[ "id"; "name"; "description"; "timezone"; "team_id"; "tags" ]}.
Proof.
  intros Hm0. apply encodeFields_dom in Hm0. rewrite Hm0. cbn.
  rewrite dom_empty_L. set_solver.
Qed.

(** The fields of a [NewSchedule] as [tf.Encode] returns them, each
    coerced. *)
Lemma Encode_NewSchedule (n : api.NewSchedule.t) (m : gmap string iface) :
  tf.Encode n = inr m ->
  exists vid vname vdesc vtz vteam vtags,
    tf.coerce (IInt (api.NewSchedule.ID n)) = inr vid
    /\ tf.coerce (IStr (api.NewSchedule.Name n)) = inr vname
    /\ tf.coerce (IStr (api.NewSchedule.Description n)) = inr vdesc
    /\ tf.coerce (IStr (api.NewSchedule.TimeZone n)) = inr vtz
    /\ m = <["tags" := vtags]> (<["team_id" := vteam]> (<["timezone" := vtz]>
             (<["description" := vdesc]> (<["name" := vname]> (<["id" := vid]> ∅))))).
Proof.
  unfold tf.Encode. cbn.
  destruct (tf.coerce (IInt (api.NewSchedule.ID n))) as [e | vid]; [discriminate |].
  destruct (tf.coerce (IStr (api.NewSchedule.Name n))) as [e | vname]; [discriminate |].
  destruct (tf.coerce (IStr (api.NewSchedule.Description n))) as [e | vdesc];
    [discriminate |].
  destruct (tf.coerce (IStr (api.NewSchedule.TimeZone n))) as [e | vtz]; [discriminate |].
  destruct (tf.coerce (IStr (api.NewSchedule.TeamID n))) as [e | vteam]; [discriminate |].
  destruct (tf.coerce (IList _)) as [e | vtags]; [discriminate |].
  intros [= <-]. by exists vid, vname, vdesc, vtz, vteam, vtags.
Qed.

(** The encoding of a tag: its three fields under [key], [value] and
    [color], each coerced. *)
Lemma Encode_Tag (tag : api.Tag.t) (mt : gmap string iface) :
  api.Tag_Encode tag = inr mt <->
  exists vkey vvalue vcolor,
    tf.coerce (IStr (api.Tag.Key tag)) = inr vkey
    /\ tf.coerce (IStr (api.Tag.Value tag)) = inr vvalue
    /\ tf.coerce (IStr (api.Tag.Color tag)) = inr vcolor
    /\ mt = <["color" := vcolor]> (<["value" := vvalue]> (<["key" := vkey]> ∅)).
Proof.
  unfold api.Tag_Encode, tf.Encode. cbn.
  destruct (tf.coerce (IStr (api.Tag.Key tag))) as [e | vkey];
    [split; [discriminate | by intros (? & ? & ? & [=] & _)] |].
  destruct (tf.coerce (IStr (api.Tag.Value tag))) as [e | vvalue];
    [split; [discriminate | by intros (? & ? & ? & _ & [=] & _)] |].
  destruct (tf.coerce (IStr (api.Tag.Color tag))) as [e | vcolor];
    [split; [discriminate | by intros (? & ? & ? & _ & _ & [=] & _)] |].
  split.
  - intros [= <-]. by exists vkey, vvalue, vcolor.
  - by intros (? & ? & ? & [= <-] & [= <-] & [= <-] & ->).
Qed.

Lemma Encode_Tag_entries (tag : api.Tag.t) (mt : gmap string iface) :
  api.Tag_Encode tag = inr mt ->
  dom mt = {[ "key"; "value"; "color" ]}
  /\ inr <$> mt !! "key" = Some (tf.coerce (IStr (api.Tag.Key tag)))
  /\ inr <$> mt !! "value" = Some (tf.coerce (IStr (api.Tag.Value tag)))
  /\ inr <$> mt !! "color" = Some (tf.coerce (IStr (api.Tag.Color tag))).
Proof.
  intros Hmt. apply Encode_Tag in Hmt as (vkey & vvalue & vcolor & -> & -> & -> & ->).
  split; [| by simplify_map_eq].
  rewrite !dom_insert_L, dom_empty_L. set_solver.
Qed.

(** C6.  [Schedule.Encode] returns the map of the [tf]-tagged fields
    ([id], [name], [color], [description]; [Slug] and [Owner], tagged
    [-], are left out) with the key [team_id] set to [Owner.ID], and
    fails exactly when the struct encoding fails.  [NewSchedule.Encode]
    (the owner being there) returns the struct encoding with [team_id]
    set to [Owner.ID] and then [tags] replaced by the element-wise
    encoding of [Tags] - one map per tag, in order, with the tag's
    fields under [key], [value] and [color] - next to the coerced [id],
    [name], [description] and [timezone], and fails exactly when the
    struct encoding or the encoding of the tags fails. *)
Theorem schedule_encode (s : api.Schedule.t) (n : api.NewSchedule.t) (o : api.Owner.t) :
  api.NewSchedule.Owner n = Some o ->
  (forall m,
     api.Schedule_Encode s = (Some m, None) ->
     dom m = {[ "id"; "name"; "color"; "description"; "team_id" ]}
     /\ m !! "team_id" = Some (IStr (api.OwnerRef.ID (api.Schedule.Owner s)))
     /\ inr <$> m !! "id" = Some (tf.coerce (IStr (api.Schedule.ID s)))
     /\ inr <$> m !! "name" = Some (tf.coerce (IStr (api.Schedule.Name s)))
     /\ inr <$> m !! "color" = Some (tf.coerce (IStr (api.Schedule.Colour s)))
     /\ inr <$> m !! "description"
          = Some (tf.coerce (IStr (api.Schedule.Description s))))
  /\ (forall r,
        api.Schedule_Encode s = r ->
        (exists m0, tf.Encode s = inr m0
           /\ r = (Some (<["team_id" := IStr (api.OwnerRef.ID (api.Schedule.Owner s))]> m0),
                   None))
        \/ (exists e, tf.Encode s = inl e /\ r = (None, Some e)))
  /\ (forall m,
        api.NewSchedule_Encode n = Done (Some m, None) <->
        exists m0 tagsEncoded,
          tf.Encode n = inr m0
          /\ Forall2 (fun tag v => exists mt, api.Tag_Encode tag = inr mt /\ v = IMap mt)
                     (api.NewSchedule.Tags n) tagsEncoded
          /\ m = <["tags" := IList tagsEncoded]>
                   (<["team_id" := IStr (api.Owner.ID o)]> m0))
  /\ (forall m,
        api.NewSchedule_Encode n = Done (Some m, None) ->
        dom m = {[ "id"; "name"; "description"; "timezone"; "team_id"; "tags" ]}
        /\ m !! "team_id" = Some (IStr (api.Owner.ID o))
        /\ inr <$> m !! "id" = Some (tf.coerce (IInt (api.NewSchedule.ID n)))
        /\ inr <$> m !! "name" = Some (tf.coerce (IStr (api.NewSchedule.Name n)))
        /\ inr <$> m !! "description"
             = Some (tf.coerce (IStr (api.NewSchedule.Description n)))
        /\ inr <$> m !! "timezone"
             = Some (tf.coerce (IStr (api.NewSchedule.TimeZone n)))
        /\ exists tagsEncoded,
             m !! "tags" = Some (IList tagsEncoded)
             /\ Forall2
                  (fun tag v => exists mt,
                     v = IMap mt
                     /\ dom mt = {[ "key"; "value"; "color" ]}
                     /\ inr <$> mt !! "key" = Some (tf.coerce (IStr (api.Tag.Key tag)))
                     /\ inr <$> mt !! "value"
                          = Some (tf.coerce (IStr (api.Tag.Value tag)))
                     /\ inr <$> mt !! "color"
                          = Some (tf.coerce (IStr (api.Tag.Color tag))))
                  (api.NewSchedule.Tags n) tagsEncoded)
  /\ (forall e,
        api.NewSchedule_Encode n = Done (None, Some e) <->
        tf.Encode n = inl e
        \/ ((exists m0, tf.Encode n = inr m0)
            /\ tf.EncodeSlice api.Tag_Encode (api.NewSchedule.Tags n) = inl e))
  /\ (exists r, api.NewSchedule_Encode n = Done r
                /\ (r.1 = None <-> r.2 <> None)).
Proof.
  intros Ho. split; [| split; [| split; [| split; [| split]]]].
  - intros m. unfold api.Schedule_Encode.
    destruct (tf.Encode s) as [e | m0] eqn:Hm0; [discriminate |].
    intros [= <-]. apply Encode_Schedule in Hm0
      as (vid & vname & vcolor & vdesc & -> & -> & -> & -> & ->).
    split; [| by simplify_map_eq].
    rewrite !dom_insert_L, dom_empty_L. set_solver.
  - intros r <-. unfold api.Schedule_Encode.
    destruct (tf.Encode s) as [e | m0]; [right; by exists e | left; by exists m0].
  - intros m. unfold api.NewSchedule_Encode. rewrite Ho.
    destruct (tf.Encode n) as [e | m0];
      [split; [discriminate | by intros (? & ? & [=] & _)] |].
    destruct (tf.EncodeSlice _ _) as [e | tagsEncoded] eqn:Ht.
    + split; [discriminate |]. intros (? & out & _ & Hout & _).
      apply EncodeSlice_inr in Hout. rewrite Ht in Hout. discriminate.
    + apply EncodeSlice_inr in Ht. split.
      * intros [= <-]. by exists m0, tagsEncoded.
      * intros (? & out & [= <-] & Hout & ->).
        apply EncodeSlice_inr in Hout. apply EncodeSlice_inr in Ht.
        rewrite Ht in Hout. by injection Hout as <-.
  - intros m. unfold api.NewSchedule_Encode. rewrite Ho.
    destruct (tf.Encode n) as [e | m0] eqn:Hm0; [discriminate |].
    destruct (tf.EncodeSlice _ _) as [e | tagsEncoded] eqn:Ht; [discriminate |].
    intros [= <-]. pose proof (Encode_NewSchedule_dom _ _ Hm0) as Hdom.
    split; [rewrite !dom_insert_L, Hdom; set_solver |].
    split; [by simplify_map_eq |].
    apply Encode_NewSchedule in Hm0
      as (vid & vname & vdesc & vtz & vteam & vtags & -> & -> & -> & -> & ->).
    do 4 (split; [by simplify_map_eq |]).
    exists tagsEncoded. split; [by simplify_map_eq |].
    apply EncodeSlice_inr in Ht.
    eapply Forall2_impl; [exact Ht |].
    intros tag v (mt & Hmt & ->). exists mt. split; [done |].
    by apply Encode_Tag_entries.
  - intros e. unfold api.NewSchedule_Encode. rewrite Ho.
    destruct (tf.Encode n) as [e0 | m0].
    + split; [intros [= <-]; by left | intros [[= <-] | [(? & [=]) _]]; done].
    + destruct (tf.EncodeSlice _ _) as [e1 | tagsEncoded].
      * split; [intros [= <-]; right; split; [by eexists | done]
               | intros [[=] | [_ [= <-]]]; done].
      * split; [discriminate | intros [[=] | [_ [=]]]].
  - unfold api.NewSchedule_Encode. rewrite Ho.
    destruct (tf.Encode n) as [e0 | m0]; [eexists; split; [done |]; by cbn |].
    destruct (tf.EncodeSlice _ _) as [e1 | tagsEncoded];
      eexists; (split; [done |]); cbn; split; congruence.
Qed.

(** C10.  [NewSchedule.Encode] reads [s.Owner.ID] through the pointer
    without a nil check: with an owner it always returns; without one
    it never returns a map, and panics as soon as the struct encoding
    has succeeded. *)
Theorem NewSchedule_Encode_owner (n : api.NewSchedule.t) :
  (is_Some (api.NewSchedule.Owner n) ->
   exists r, api.NewSchedule_Encode n = Done r)
  /\ (api.NewSchedule.Owner n = None ->
      (forall m0, tf.Encode n = inr m0 ->
                  exists msg, api.NewSchedule_Encode n = Panic msg)
      /\ (forall m, api.NewSchedule_Encode n <> Done (Some m, None)))
  /\ ((exists r, api.NewSchedule_Encode n = Done r) <->
      is_Some (api.NewSchedule.Owner n) \/ exists e, tf.Encode n = inl e).
Proof.
  unfold api.NewSchedule_Encode.
  destruct (api.NewSchedule.Owner n) as [o |] eqn:Ho.
  - assert (Hdone : exists r,
      match tf.Encode n with
      | inl err => Done (None, Some err)
      | inr m =>
          match tf.EncodeSlice api.Tag_Encode (api.NewSchedule.Tags n) with
          | inl terr => Done (None, Some terr)
          | inr tagsEncoded =>
              Done (Some (<["tags" := IList tagsEncoded]>
                            (<["team_id" := IStr (api.Owner.ID o)]> m)), None)
          end
      end = Done r).
    { destruct (tf.Encode n); [by eexists |].
      destruct (tf.EncodeSlice _ _); by eexists. }
    split; [done |]. split; [discriminate |]. split; [by left | done].
  - split; [by intros [? [=]] |]. split.
    + intros _. split.
      * intros m0 ->. by eexists.
      * intros m. by destruct (tf.Encode n).
    + split.
      * intros [r Hr]. right. destruct (tf.Encode n) as [e | m0]; [by exists e | done].
      * intros [[? [=]] | [e ->]]. by eexists.
Qed.
End ScheduleEncode.

(** ** The schedule client methods *)

(** The value [strconv.ParseInt] returns next to an error: 0 for a
    syntax error, the nearest bound for a number out of range. *)
Lemma ParseInt10_error (s : string) (v : Z) (e : Strconv.NumError) :
  Strconv.ParseInt10 s = (v, Some e) ->
  match e with
  | Strconv.ErrSyntax => v = 0
  | Strconv.ErrRange => v = 2 ^ 63 - 1 \/ v = - 2 ^ 63
  end.
Proof.
  unfold Strconv.ParseInt10. destruct s as [| c rest]; [by intros [= <- <-] |].
  destruct (if Ascii.eqb c "+" then _ else _) as [neg s1].
  destruct (Strconv.ParseUint10 s1) as [un err].
  destruct err as [[|] |]; [by intros [= <- <-] | |];
    (destruct (negb neg && _); [intros [= <- <-]; by left |]);
    (destruct (neg && _); [intros [= <- <-]; by right |]);
    discriminate.
Qed.

Section ScheduleClient.
Context {Remote : Type} `{api.Transport Remote}.
Context `{api.JSON iface, api.JSON api.Schedule.t, api.JSON api.CreateUpdateScheduleReq.t}.
Context `{api.JSON api.ScheduleQueryStruct.t, api.JSON api.ScheduleMutateStruct.t,
          api.JSON api.ScheduleMutateDeleteStruct.t}.

(** C7.  Each schedule method makes exactly one call of the transport
    and returns what that call returned: the world after it holds the
    remote state the transport left and one request more than before.
    [GetScheduleByName], which searches the list it is given, sends
    one request too. *)
Theorem single_shot_api_calls (client : api.Client.t) (w : api.World Remote)
    (teamID id name : string) (req : option api.CreateUpdateScheduleReq.t)
    (payload : api.NewSchedule.t) :
  let base := api.Client.BaseURLV3 client in
  let single {A} (run : api.Api Remote A) (answer : A * Remote) (c : api.WireCall) :=
    run w = (answer.1, api.mkWorld answer.2 (api.sent w ++ [c])) in
  single (api.GetScheduleById client teamID id)
    (api.Request iface api.Schedule.t "GET"
       (base +:+ "/schedules/" +:+ id +:+ "?owner_id=" +:+ teamID)
       client None (api.remote w))
    (api.HTTP "GET" (base +:+ "/schedules/" +:+ id +:+ "?owner_id=" +:+ teamID) None)
  /\ single (api.ListSchedules client teamID)
       (api.RequestSlice iface api.Schedule.t "GET"
          (base +:+ "/schedules?owner_id=" +:+ teamID) client None (api.remote w))
       (api.HTTP "GET" (base +:+ "/schedules?owner_id=" +:+ teamID) None)
  /\ single (api.CreateSchedule client req)
       (api.Request api.CreateUpdateScheduleReq.t api.Schedule.t "POST"
          (base +:+ "/schedules") client req (api.remote w))
       (api.HTTP "POST" (base +:+ "/schedules") (api.marshal <$> req))
  /\ single (api.UpdateSchedule client id req)
       (api.Request api.CreateUpdateScheduleReq.t api.Schedule.t "PUT"
          (base +:+ "/schedules/" +:+ id) client req (api.remote w))
       (api.HTTP "PUT" (base +:+ "/schedules/" +:+ id) (api.marshal <$> req))
  /\ single (api.DeleteSchedule client id)
       (api.Request iface iface "DELETE"
          (base +:+ "/schedules/" +:+ id) client None (api.remote w))
       (api.HTTP "DELETE" (base +:+ "/schedules/" +:+ id) None)
  /\ single (api.DeleteScheduleV2ByID client id)
       (api.GraphQLRequest api.ScheduleMutateDeleteStruct.t "mutate" client
          (api.ScheduleMutateDeleteStruct.mk api.NewSchedule.zero)
          {[ "ID" := api.VInt64 (Strconv.ParseInt10 id).1 ]} (api.remote w))
       (api.GraphQL "mutate" {[ "ID" := api.VInt64 (Strconv.ParseInt10 id).1 ]})
  /\ single (api.GetScheduleV2ById client id)
       (api.GraphQLRequest api.ScheduleQueryStruct.t "query" client
          (api.ScheduleQueryStruct.mk api.NewSchedule.zero)
          {[ "ID" := api.VInt64 (Strconv.ParseInt10 id).1 ]} (api.remote w))
       (api.GraphQL "query" {[ "ID" := api.VInt64 (Strconv.ParseInt10 id).1 ]})
  /\ single (api.CreateScheduleV2 client payload)
       (api.GraphQLRequest api.ScheduleMutateStruct.t "mutate" client
          (api.ScheduleMutateStruct.mk api.NewSchedule.zero)
          {[ "input" := api.VNewSchedule payload ]} (api.remote w))
       (api.GraphQL "mutate" {[ "input" := api.VNewSchedule payload ]})
  /\ api.sent (api.GetScheduleByName client teamID name w).2 =
       api.sent w ++ [api.HTTP "GET" (base +:+ "/schedules?owner_id=" +:+ teamID) None].
Proof.
  intros base single. unfold single.
  unfold api.GetScheduleById, api.ListSchedules, api.CreateSchedule,
    api.UpdateSchedule, api.DeleteSchedule, api.DeleteScheduleV2ByID,
    api.GetScheduleV2ById, api.CreateScheduleV2, api.GetScheduleByName,
    api.ListSchedules, api.bind, api.ret,
    api.doRequest, api.doRequestSlice, api.doGraphQLRequest,
    api.MethodGet, api.MethodPost, api.MethodPut, api.MethodDelete.
  fold base. destruct (Strconv.ParseInt10 id) as [i err]. cbn [fst].
  repeat split;
    try (match goal with |- context [api.Request ?a ?b ?c ?d ?e ?f ?g] =>
           by destruct (api.Request a b c d e f g) end);
    try (match goal with |- context [api.GraphQLRequest ?a ?b ?c ?d ?e ?f] =>
           by destruct (api.GraphQLRequest a b c d e f) end).
  - by destruct (api.RequestSlice _ _ _ _ _ _ _).
  - destruct (api.RequestSlice _ _ _ _ _ _ _) as [[schedules [e |]] rem]; [done |].
    by destruct (api.findByName schedules name).
Qed.

End ScheduleClient.

(** * Further properties *)

(** ** strconv: numerals read back *)

Section Numerals.
Local Open Scope Z_scope.

(** The value of a numeral, most significant digit first. *)
Lemma of_uint_digit (l : Decimal.uint) :
  let v d := Z.of_N (Pos.of_uint d) in
  let p := 10 ^ Z.of_N (DecimalPos.Unsigned.usize l) in
  v (Decimal.D0 l) = v l /\ v (Decimal.D1 l) = v l + 1 * p
  /\ v (Decimal.D2 l) = v l + 2 * p /\ v (Decimal.D3 l) = v l + 3 * p
  /\ v (Decimal.D4 l) = v l + 4 * p /\ v (Decimal.D5 l) = v l + 5 * p
  /\ v (Decimal.D6 l) = v l + 6 * p /\ v (Decimal.D7 l) = v l + 7 * p
  /\ v (Decimal.D8 l) = v l + 8 * p /\ v (Decimal.D9 l) = v l + 9 * p.
Proof.
  intros v p. unfold v, p.
  repeat split;
    rewrite !DecimalPos.Unsigned.of_uint_alt; unfold Decimal.rev;
    cbn [Decimal.revapp];
    rewrite DecimalPos.Unsigned.of_lu_revapp; cbn [DecimalPos.Unsigned.of_lu];
    change (10 * 0)%N with 0%N; rewrite ?N.add_0_r;
    rewrite N2Z.inj_add, N2Z.inj_mul, N2Z.inj_pow; cbn [Z.of_N];
    first [lia | reflexivity].
Qed.

Lemma usize_digit_pow (l : Decimal.uint) :
  10 ^ Z.of_N (N.succ (DecimalPos.Unsigned.usize l))
    = 10 * 10 ^ Z.of_N (DecimalPos.Unsigned.usize l).
Proof. rewrite N2Z.inj_succ, Z.pow_succ_r by lia. reflexivity. Qed.

(** One turn of the loop of ParseUint on a digit [k] that fits. *)
Lemma parseUintLoop_digit (c : ascii) (k : Z) (s : string) (n : Z) :
  Strconv.digitOf (Strconv.byteZ c) = Some k ->
  0 <= k <= 9 -> 0 <= n -> n * 10 + k <= Strconv.maxUint64 ->
  Strconv.parseUintLoop (String c s) n = Strconv.parseUintLoop s (n * 10 + k).
Proof.
  intros Hc Hk Hn Hfit. cbn [Strconv.parseUintLoop]. rewrite Hc.
  unfold Strconv.maxUint64 in Hfit.
  replace (10 <=? k) with false by (symmetry; apply Z.leb_gt; lia).
  replace (Strconv.cutoff10 <=? n) with false
    by (symmetry; apply Z.leb_gt; unfold Strconv.cutoff10, Strconv.maxUint64;
        change ((2 ^ 64 - 1) / 10 + 1) with 1844674407370955162; lia).
  cbn zeta. unfold Strconv.uint64.
  rewrite (Z.mod_small (n * 10)) by lia.
  rewrite (Z.mod_small (n * 10 + k)) by lia.
  replace (n * 10 + k <? n * 10) with false by (symmetry; apply Z.ltb_ge; lia).
  replace (Strconv.maxUint64 <? n * 10 + k) with false
    by (symmetry; apply Z.ltb_ge; unfold Strconv.maxUint64; lia).
  reflexivity.
Qed.

(** The loop of ParseUint reads a numeral as its value. *)
Lemma parseUintLoop_numeral (d : Decimal.uint) (n : Z) :
  let size := Z.of_N (DecimalPos.Unsigned.usize d) in
  let value := Z.of_N (Pos.of_uint d) in
  0 <= n ->
  n * 10 ^ size + value <= Strconv.maxUint64 ->
  Strconv.parseUintLoop (NilEmpty.string_of_uint d) n = (n * 10 ^ size + value, None).
Proof.
  cbv zeta. revert n.
  induction d as [| d IH | d IH | d IH | d IH | d IH | d IH | d IH | d IH | d IH | d IH];
    intros n Hn Hfit.
  { cbn. f_equal. lia. }
  all: destruct (of_uint_digit d)
         as (H0 & H1 & H2 & H3 & H4 & H5 & H6 & H7 & H8 & H9);
    cbv zeta in H0, H1, H2, H3, H4, H5, H6, H7, H8, H9;
    cbn [DecimalPos.Unsigned.usize NilEmpty.string_of_uint] in *;
    rewrite usize_digit_pow in *;
    pose proof (N2Z.is_nonneg (Pos.of_uint d)) as Hv;
    assert (Hp : 1 <= 10 ^ Z.of_N (DecimalPos.Unsigned.usize d))
      by (pose proof (Z.pow_pos_nonneg 10 (Z.of_N (DecimalPos.Unsigned.usize d))
                        ltac:(lia) ltac:(lia)); lia).
  - rewrite H0 in Hfit |- *. rewrite (parseUintLoop_digit _ 0) by (try reflexivity; nia).
    rewrite IH by nia. f_equal. lia.
  - rewrite H1 in Hfit |- *. rewrite (parseUintLoop_digit _ 1) by (try reflexivity; nia).
    rewrite IH by nia. f_equal. lia.
  - rewrite H2 in Hfit |- *. rewrite (parseUintLoop_digit _ 2) by (try reflexivity; nia).
    rewrite IH by nia. f_equal. lia.
  - rewrite H3 in Hfit |- *. rewrite (parseUintLoop_digit _ 3) by (try reflexivity; nia).
    rewrite IH by nia. f_equal. lia.
  - rewrite H4 in Hfit |- *. rewrite (parseUintLoop_digit _ 4) by (try reflexivity; nia).
    rewrite IH by nia. f_equal. lia.
  - rewrite H5 in Hfit |- *. rewrite (parseUintLoop_digit _ 5) by (try reflexivity; nia).
    rewrite IH by nia. f_equal. lia.
  - rewrite H6 in Hfit |- *. rewrite (parseUintLoop_digit _ 6) by (try reflexivity; nia).
    rewrite IH by nia. f_equal. lia.
  - rewrite H7 in Hfit |- *. rewrite (parseUintLoop_digit _ 7) by (try reflexivity; nia).
    rewrite IH by nia. f_equal. lia.
  - rewrite H8 in Hfit |- *. rewrite (parseUintLoop_digit _ 8) by (try reflexivity; nia).
    rewrite IH by nia. f_equal. lia.
  - rewrite H9 in Hfit |- *. rewrite (parseUintLoop_digit _ 9) by (try reflexivity; nia).
    rewrite IH by nia. f_equal. lia.
Qed.

Lemma ParseUint10_numeral (d : Decimal.uint) :
  d <> Decimal.Nil ->
  Z.of_N (Pos.of_uint d) <= Strconv.maxUint64 ->
  Strconv.ParseUint10 (NilZero.string_of_uint d) = (Z.of_N (Pos.of_uint d), None).
Proof.
  intros Hd Hfit.
  pose proof (parseUintLoop_numeral d 0 ltac:(lia)) as Hloop. cbv zeta in Hloop.
  rewrite Z.mul_0_l, Z.add_0_l in Hloop. specialize (Hloop Hfit).
  destruct d; [done | ..]; exact Hloop.
Qed.

Lemma numeral_first_byte (d : Decimal.uint) :
  d <> Decimal.Nil ->
  exists c rest,
    NilZero.string_of_uint d = String c rest
    /\ Ascii.eqb c "+" = false /\ Ascii.eqb c "-" = false.
Proof. intros Hd. destruct d; [done | ..]; by eexists _, _. Qed.

Lemma int64_small (z : Z) : - 2 ^ 63 <= z < 2 ^ 63 -> Strconv.int64 z = z.
Proof. intros Hz. unfold Strconv.int64. rewrite Z.mod_small; lia. Qed.

Lemma int64_range (z : Z) : - 2 ^ 63 <= Strconv.int64 z < 2 ^ 63.
Proof.
  unfold Strconv.int64.
  pose proof (Z.mod_pos_bound (z + 2 ^ 63) (2 ^ 64) ltac:(lia)). lia.
Qed.

(** [ParseInt] reads back what [Itoa] writes. *)
Lemma ParseInt10_Itoa (z : Z) :
  - 2 ^ 63 <= z < 2 ^ 63 -> Strconv.ParseInt10 (Strconv.Itoa z) = (z, None).
Proof.
  intros Hz. unfold Strconv.Itoa. destruct z as [| p | p].
  - reflexivity.
  - cbn [Z.to_int NilZero.string_of_int].
    pose proof (DecimalPos.Unsigned.to_uint_nonnil p) as Hd.
    pose proof (ParseUint10_numeral (Pos.to_uint p) Hd) as Hparse.
    rewrite DecimalPos.Unsigned.of_to in Hparse. cbn [Z.of_N] in Hparse.
    specialize (Hparse ltac:(unfold Strconv.maxUint64; lia)).
    destruct (numeral_first_byte _ Hd) as (c & rest & Hs & Hplus & Hminus).
    unfold Strconv.ParseInt10. rewrite Hs, Hplus, Hminus, <- Hs, Hparse.
    replace (2 ^ 63 <=? Z.pos p) with false by (symmetry; apply Z.leb_gt; lia).
    cbn [negb andb]. by rewrite int64_small.
  - cbn [Z.to_int NilZero.string_of_int].
    pose proof (DecimalPos.Unsigned.to_uint_nonnil p) as Hd.
    pose proof (ParseUint10_numeral (Pos.to_uint p) Hd) as Hparse.
    rewrite DecimalPos.Unsigned.of_to in Hparse. cbn [Z.of_N] in Hparse.
    specialize (Hparse ltac:(unfold Strconv.maxUint64; lia)).
    unfold Strconv.ParseInt10.
    change (Ascii.eqb "-" "+") with false. change (Ascii.eqb "-" "-") with true.
    cbv iota. rewrite Hparse. cbn [negb andb].
    replace (2 ^ 63 <? Z.pos p) with false by (symmetry; apply Z.ltb_ge; lia).
    f_equal. destruct (Z.eq_dec (Z.pos p) (2 ^ 63)) as [Heq | Hne].
    + rewrite Heq. change (Z.neg p) with (- Z.pos p). rewrite Heq. reflexivity.
    + rewrite (int64_small (Z.pos p)) by lia. rewrite int64_small by lia. reflexivity.
Qed.

Lemma parseUintLoop_range (s : string) (n : Z) :
  0 <= n <= Strconv.maxUint64 ->
  0 <= (Strconv.parseUintLoop s n).1 <= Strconv.maxUint64.
Proof.
  revert n. induction s as [| c s IH]; intros n Hn; cbn [Strconv.parseUintLoop].
  - exact Hn.
  - unfold Strconv.maxUint64 in *.
    destruct (Strconv.digitOf _) as [d |]; [| cbn; lia].
    destruct (10 <=? d); [cbn; lia |].
    destruct (Strconv.cutoff10 <=? n); [cbn; lia |].
    cbn zeta. destruct (_ || _); [cbn; lia |].
    apply IH. unfold Strconv.uint64.
    pose proof (Z.mod_pos_bound (Strconv.uint64 (n * 10) + d) (2 ^ 64) ltac:(lia)).
    unfold Strconv.uint64 in *. lia.
Qed.

(** Whatever the string, [ParseInt] returns a 64-bit integer. *)
Lemma ParseInt10_range (s : string) :
  - 2 ^ 63 <= (Strconv.ParseInt10 s).1 < 2 ^ 63.
Proof.
  unfold Strconv.ParseInt10. destruct s as [| c rest]; [cbn; lia |].
  destruct (if Ascii.eqb c "+" then _ else _) as [neg s1].
  destruct (Strconv.ParseUint10 s1) as [un err].
  assert (Hgen :
    - 2 ^ 63 <=
      (if negb neg && (2 ^ 63 <=? un) then (2 ^ 63 - 1, Some Strconv.ErrRange)
       else if neg && (2 ^ 63 <? un) then (- 2 ^ 63, Some Strconv.ErrRange)
       else (if neg then Strconv.int64 (- Strconv.int64 un) else Strconv.int64 un,
             @None Strconv.NumError)).1 < 2 ^ 63).
  { destruct (negb neg && _); [cbn; lia |].
    destruct (neg && _); [cbn; lia |]. cbn [fst].
    destruct neg; apply int64_range. }
  destruct err as [[|] |]; [cbn; lia | exact Hgen | exact Hgen].
Qed.
End Numerals.

(** ** The V2 schedule methods and the decimal form of an ID *)

Section ScheduleClientNumerals.
Context {Remote : Type} `{api.Transport Remote}.
Context `{api.JSON api.ScheduleQueryStruct.t, api.JSON api.ScheduleMutateDeleteStruct.t}.

(** X1.  The string [strconv.Itoa] writes for a 64-bit integer, which is
    how the rotation handlers write a resource ID, is read back by
    [strconv.ParseInt] without an error, so that the V2 schedule methods
    given that string send the integer itself as the variable [ID]. *)
Theorem schedule_v2_decimal_id (client : api.Client.t) (w : api.World Remote) (z : Z) :
  - 2 ^ 63 <= z < 2 ^ 63 ->
  Strconv.ParseInt10 (Strconv.Itoa z) = (z, None)
  /\ api.sent (api.DeleteScheduleV2ByID client (Strconv.Itoa z) w).2
       = api.sent w ++ [api.GraphQL "mutate" {[ "ID" := api.VInt64 z ]}]
  /\ api.sent (api.GetScheduleV2ById client (Strconv.Itoa z) w).2
       = api.sent w ++ [api.GraphQL "query" {[ "ID" := api.VInt64 z ]}].
Proof.
  intros Hz. pose proof (ParseInt10_Itoa z Hz) as Hparse.
  split; [exact Hparse |].
  unfold api.DeleteScheduleV2ByID, api.GetScheduleV2ById, api.doGraphQLRequest.
  rewrite Hparse. split; by destruct (api.GraphQLRequest _ _ _ _ _ _).
Qed.

(** X2.  Whatever string the V2 schedule methods are given, the variable
    [ID] they send lies in the 64-bit range. *)
Theorem schedule_v2_id_in_range (client : api.Client.t) (w : api.World Remote)
    (ID : string) :
  exists i,
    - 2 ^ 63 <= i < 2 ^ 63
    /\ api.sent (api.DeleteScheduleV2ByID client ID w).2
         = api.sent w ++ [api.GraphQL "mutate" {[ "ID" := api.VInt64 i ]}]
    /\ api.sent (api.GetScheduleV2ById client ID w).2
         = api.sent w ++ [api.GraphQL "query" {[ "ID" := api.VInt64 i ]}].
Proof.
  exists (Strconv.ParseInt10 ID).1. split; [apply ParseInt10_range |].
  unfold api.DeleteScheduleV2ByID, api.GetScheduleV2ById, api.doGraphQLRequest.
  destruct (Strconv.ParseInt10 ID) as [i err]. cbn [fst].
  split; by destruct (api.GraphQLRequest _ _ _ _ _ _).
Qed.
End ScheduleClientNumerals.

(** ** GetScheduleByName *)

Section ScheduleByName.
Context {Remote : Type} `{api.Transport Remote}.
Context `{api.JSON iface, api.JSON api.Schedule.t}.

Lemma findByName_Some (schedules : list api.Schedule.t) (name : string)
    (s : api.Schedule.t) :
  api.findByName schedules name = Some s <->
  exists pre post,
    schedules = pre ++ s :: post
    /\ api.Schedule.Name s = name
    /\ Forall (fun x => api.Schedule.Name x <> name) pre.
Proof.
  induction schedules as [| x rest IH]; cbn [api.findByName].
  - split; [discriminate |]. intros (pre & post & Heq & _). by destruct pre.
  - destruct (String.eqb_spec (api.Schedule.Name x) name) as [Hx | Hx].
    + split.
      * intros [= <-]. by exists [], rest.
      * intros ([| y pre] & post & Heq & Hs & Hpre).
        { by injection Heq as <- _. }
        { injection Heq as <- _. by inversion Hpre. }
    + rewrite IH. split.
      * intros (pre & post & -> & Hs & Hpre). exists (x :: pre), post.
        split; [done |]. split; [done | by constructor].
      * intros ([| y pre] & post & Heq & Hs & Hpre).
        { injection Heq as <- _. contradiction. }
        { injection Heq as <- ->. inversion Hpre; subst. by exists pre, post. }
Qed.

Lemma findByName_None (schedules : list api.Schedule.t) (name : string) :
  api.findByName schedules name = None <->
  Forall (fun x => api.Schedule.Name x <> name) schedules.
Proof.
  induction schedules as [| x rest IH]; cbn [api.findByName].
  - split; [constructor | done].
  - destruct (String.eqb_spec (api.Schedule.Name x) name) as [Hx | Hx].
    + split; [discriminate | by inversion 1].
    + rewrite IH. split; [by constructor | by inversion 1].
Qed.

(** X3.  [GetScheduleByName] lists the schedules of the team with one
    request.  When the listing fails it returns that error and no
    schedule.  Otherwise it returns the first schedule of the list that
    bears the name, those before it bearing another one, and returns the
    error "could not find a schedule with name ..." exactly when no
    schedule of the list bears the name. *)
Theorem GetScheduleByName_first_match (client : api.Client.t) (w : api.World Remote)
    (teamID name : string) :
  let url := api.Client.BaseURLV3 client +:+ "/schedules?owner_id=" +:+ teamID in
  let answer := api.RequestSlice iface api.Schedule.t "GET" url client None
                  (api.remote w) in
  let schedules := answer.1.1 in
  let result := (api.GetScheduleByName client teamID name w).1 in
  (api.GetScheduleByName client teamID name w).2
    = api.mkWorld answer.2 (api.sent w ++ [api.HTTP "GET" url None])
  /\ match answer.1.2 with
     | Some e => result = (None, Some e)
     | None =>
         (forall s,
            result = (Some s, None) <->
            exists pre post,
              schedules = pre ++ s :: post
              /\ api.Schedule.Name s = name
              /\ Forall (fun x => api.Schedule.Name x <> name) pre)
         /\ (result = (None, Some (mkError
               ("could not find a schedule with name `" +:+ name +:+ "`"))) <->
             Forall (fun x => api.Schedule.Name x <> name) schedules)
         /\ (result.1 = None <-> result.2 <> None)
     end.
Proof.
  intros url answer schedules result. subst result schedules answer.
  unfold api.GetScheduleByName, api.ListSchedules, api.doRequestSlice, api.bind,
    api.ret, api.MethodGet.
  fold url. destruct (api.RequestSlice _ _ _ _ _ _ _) as [[schedules [e |]] rem];
    cbn [fst snd]; [done |].
  destruct (api.findByName schedules name) as [s |] eqn:Hfind; cbn [fst snd].
  - split; [done |]. split; [| split].
    + intros s'. rewrite <- findByName_Some, Hfind. split; congruence.
    + rewrite <- findByName_None, Hfind. split; discriminate.
    + split; [discriminate | done].
  - split; [done |]. split; [| split].
    + intros s'. rewrite <- findByName_Some, Hfind. split; discriminate.
    + by rewrite <- findByName_None.
    + split; [discriminate | done].
Qed.
End ScheduleByName.

(** ** Import of a schedule rotation *)

Section RotationImport.
Context {Remote : Type} `{api.Methods Remote}.

Implicit Types (w : provider.World Remote provider.RotationAttrs.t).

Lemma parse3PartImportID_pieces (a b c : string) :
  a <> "" -> b <> "" -> c <> "" ->
  Strings.hasByte ":" a = false -> Strings.hasByte ":" b = false ->
  provider.parse3PartImportID (a +:+ ":" +:+ b +:+ ":" +:+ c) = (a, b, c, None).
Proof.
  intros Ha Hb Hc Hna Hnb.
  destruct (parse3PartImportID_cases (a +:+ ":" +:+ b +:+ ":" +:+ c))
    as [(a' & b' & c' & Hs & _ & _ & _ & Hp) | (Hno & _)].
  - apply SplitN3_colon in Hs as (Heq & Ha' & Hb').
    assert (Hs : Strings.SplitN (a +:+ ":" +:+ b +:+ ":" +:+ c) ":" 3 = [a; b; c])
      by by apply SplitN3_colon.
    assert (Hs' : Strings.SplitN (a +:+ ":" +:+ b +:+ ":" +:+ c) ":" 3 = [a'; b'; c'])
      by by apply SplitN3_colon.
    rewrite Hs in Hs'. by injection Hs' as <- <- <-.
  - exfalso. apply Hno. exists a, b, c. split; [by apply SplitN3_colon | done].
Qed.

(** X4.  Import of a rotation.  On an ID [team:schedule:rotation] (the
    first two pieces free of ":", none empty; the third may hold ":") the
    handler asks the client once for the rotation of that name in that
    schedule of that team; when it is found, the resource ID becomes the
    decimal string of its ID, the attributes stay, and that one resource
    is returned; when the client fails, the error is returned and the
    resource data stay.  On an ID that [parse3PartImportID] turns down
    nothing is called and nothing changes. *)
Theorem rotation_import w (a b c : string) :
  (a <> "" -> b <> "" -> c <> "" ->
   Strings.hasByte ":" a = false -> Strings.hasByte ":" b = false ->
   provider.Id (provider.data w) = a +:+ ":" +:+ b +:+ ":" +:+ c ->
   let calls' := provider.calls w ++ [provider.CallGetRotationByName a b c] in
   provider.resourceScheduleRotationImport w =
     match api.GetRotationByName a b c (provider.remote w) with
     | ((_, Some err), rem) =>
         Done (([], Some err), provider.mkWorld (provider.data w) rem calls')
     | ((Some rotation, None), rem) =>
         let d := provider.mkData
                    (Strconv.Itoa (api.NewRotation.ID
                                     (api.RotationStruct.NewRotation rotation)))
                    (provider.attrs (provider.data w)) in
         Done (([d], None), provider.mkWorld d rem calls')
     | ((None, None), _) =>
         Panic "invalid memory address or nil pointer dereference"
     end)
  /\ (forall e,
        (provider.parse3PartImportID (provider.Id (provider.data w))).2 = Some e ->
        provider.resourceScheduleRotationImport w = Done (([], Some e), w)).
Proof.
  split.
  - intros Ha Hb Hc Hna Hnb Hid calls'.
    unfold provider.resourceScheduleRotationImport. run.
    rewrite Hid, (parse3PartImportID_pieces a b c Ha Hb Hc Hna Hnb).
    by destruct (api.GetRotationByName a b c (provider.remote w))
      as [[[rotation |] [err |]] rem].
  - intros e He. unfold provider.resourceScheduleRotationImport. run.
    destruct (provider.parse3PartImportID _) as [[[a' b'] c'] err].
    cbn in He. subst err. by destruct w.
Qed.

(** X5.  An import ID with no ":" or with a single one, the form
    [teamID:ID] that the error message of [parse3PartImportID] asks for
    included, is turned down, with that message. *)
Theorem parse3PartImportID_two_parts (a b : string) :
  Strings.hasByte ":" b = false ->
  let message id := mkError ("unexpected format of import resource id (" +:+ id
                             +:+ "), expected teamID:ID") in
  provider.parse3PartImportID b = ("", "", "", Some (message b))
  /\ (Strings.hasByte ":" a = false ->
      provider.parse3PartImportID (a +:+ ":" +:+ b)
        = ("", "", "", Some (message (a +:+ ":" +:+ b)))).
Proof.
  intros Hb message.
  assert (Hfail : forall id,
    (forall x y z, Strings.SplitN id ":" 3 <> [x; y; z]) ->
    provider.parse3PartImportID id = ("", "", "", Some (message id))).
  { intros id Hno. unfold provider.parse3PartImportID.
    destruct (Strings.SplitN id ":" 3) as [| x [| y [| z [| t parts]]]] eqn:Hs;
      try reflexivity.
    by destruct (Hno x y z). }
  split.
  - apply Hfail. intros x y z Hs. apply SplitN3_colon in Hs as (Heq & _ & _).
    apply (f_equal (Strings.hasByte ":")) in Heq. rewrite Hb in Heq.
    clear -Heq. induction x as [| c x IH]; [discriminate |].
    rewrite str_app_cons in Heq. cbn in Heq.
    destruct (Ascii.eqb c ":"); [discriminate | by apply IH].
  - intros Ha. apply Hfail. intros x y z Hs.
    apply SplitN3_colon in Hs as (Heq & Hx & Hy).
    assert (Hcut : forall p q r t,
      Strings.hasByte ":" p = false -> Strings.hasByte ":" q = false ->
      p +:+ ":" +:+ r = q +:+ ":" +:+ t -> r = t).
    { clear. induction p as [| c p IH]; intros [| c' q] r t Hp Hq Heq.
      - by injection Heq.
      - rewrite str_app_nil, str_app_cons in Heq. injection Heq as <- _.
        cbn in Hq. discriminate.
      - rewrite str_app_nil, str_app_cons in Heq. injection Heq as -> _.
        cbn in Hp. discriminate.
      - rewrite !str_app_cons in Heq. injection Heq as _ Heq.
        cbn in Hp, Hq. apply orb_false_elim in Hp as [_ Hp].
        apply orb_false_elim in Hq as [_ Hq]. by apply (IH q). }
    apply (Hcut a x b (y +:+ ":" +:+ z) Ha Hx) in Heq.
    apply (f_equal (Strings.hasByte ":")) in Heq. rewrite Hb in Heq.
    clear -Heq. induction y as [| c y IH]; [discriminate |].
    rewrite str_app_cons in Heq. cbn in Heq.
    destruct (Ascii.eqb c ":"); [discriminate | by apply IH].
Qed.
End RotationImport.

(** ** The handlers, outcome by outcome *)

Section HandlerShapes.
Context {Remote : Type} `{api.Methods Remote}.
Context `{provider.Decoder api.Participant.t, provider.Decoder api.Timeslot.t}.
Context `{provider.Decoder api.WFService.t, provider.Decoder api.WFSeverity.t}.
Context `{provider.Setter api.RotationStruct.t provider.RotationAttrs.t}.
Context `{provider.Setter api.Webform.t provider.WebformAttrs.t}.
Context `{provider.Parse2Part}.

Implicit Types (wr : provider.World Remote provider.RotationAttrs.t).
Implicit Types (ww : provider.World Remote provider.WebformAttrs.t).

(** The request the rotation handler builds from the three blocks. *)
Let rotationReq (a : provider.RotationAttrs.t) gs ts (cp : Z * string)
    : api.NewRotation.t :=
  api.NewRotation.mk 0
    (provider.RotationAttrs.name a) gs
    (provider.RotationAttrs.start_date a) (provider.RotationAttrs.period a)
    ts cp.1 cp.2
    (provider.RotationAttrs.change_participants_frequency a)
    (provider.RotationAttrs.change_participants_unit a)
    (provider.RotationAttrs.end_date a)
    (provider.RotationAttrs.ends_after_iterations a).

(** Every way [resourceScheduleRotationCreate] can end. *)
Lemma resourceScheduleRotationCreate_shape wr ds wr' :
  let a := provider.attrs (provider.data wr) in
  let sid := provider.RotationAttrs.schedule_id a in
  provider.resourceScheduleRotationCreate wr = Done (ds, wr') ->
  (wr' = wr /\ diag.HasError ds = true)
  \/ exists gs ts cp,
       provider.participantGroupsOf a = Done (inr gs)
       /\ provider.shiftTimeSlotsOf a = inr ts
       /\ provider.customPeriodOf a = inr cp
       /\ let req := rotationReq a gs ts cp in
          let calls' := provider.calls wr ++ [provider.CallCreateScheduleRotation sid req] in
          ((exists v e rem,
              api.CreateScheduleRotation sid req (provider.remote wr) = ((v, Some e), rem)
              /\ ds = diag.FromErr e
              /\ wr' = provider.mkWorld (provider.data wr) rem calls')
           \/ (exists rotation rem,
                 api.CreateScheduleRotation sid req (provider.remote wr)
                   = ((Some rotation, None), rem)
                 /\ provider.resourceScheduleRotationRead
                      (provider.mkWorld
                         (provider.SetId
                            (Strconv.Itoa (api.NewRotation.ID
                                             (api.RotationStruct.NewRotation rotation)))
                            (provider.data wr))
                         rem calls') = Done (ds, wr'))).
Proof.
  intros a sid.
  destruct (provider.participantGroupsOf a) as [[ds0 | gs] | msg] eqn:Hg.
  - unfold provider.resourceScheduleRotationCreate. run. fold a. rewrite Hg.
    intros [= <- <-]. left. split; [by destruct wr |].
    unfold provider.participantGroupsOf in Hg. case_match; [| discriminate].
    by apply participantGroupsLoop_HasError in Hg.
  - destruct (provider.shiftTimeSlotsOf a) as [ds0 | ts] eqn:Hs.
    { unfold provider.resourceScheduleRotationCreate. run. fold a. rewrite Hg, Hs.
      intros [= <- <-]. left. split; [by destruct wr |].
      by apply shiftTimeSlotsOf_HasError in Hs. }
    destruct (provider.customPeriodOf a) as [ds0 | cp] eqn:Hc.
    { unfold provider.resourceScheduleRotationCreate. run. fold a. rewrite Hg, Hs, Hc.
      intros [= <- <-]. left. split; [by destruct wr |].
      by apply customPeriodOf_HasError in Hc. }
    rewrite (resourceScheduleRotationCreate_proceeds wr gs ts cp Hg Hs Hc).
    fold a sid. intros Hrun. right. exists gs, ts, cp. repeat (split; [done |]).
    cbv zeta. unfold rotationReq.
    destruct (api.CreateScheduleRotation _ _ _) as [[[rotation |] [e |]] rem];
      try discriminate.
    + left. injection Hrun as <- <-. by eexists _, _, _.
    + right. by eexists _, _.
    + left. injection Hrun as <- <-. by eexists _, _, _.
  - unfold provider.resourceScheduleRotationCreate. run. fold a. by rewrite Hg.
Qed.

(** Every way [resourceWebformCreate] can end. *)
Lemma resourceWebformCreate_shape ww ds ww' :
  let a := provider.attrs (provider.data ww) in
  let team := provider.WebformAttrs.team_id a in
  provider.resourceWebformCreate ww = Done (ds, ww') ->
  (ww' = ww /\ diag.HasError ds = true)
  \/ exists req,
       provider.webformReqOf a = Done (inr req)
       /\ let calls' := provider.calls ww ++ [provider.CallCreateWebform team req] in
          ((exists v e rem,
              api.CreateWebform team req (provider.remote ww) = ((v, Some e), rem)
              /\ ds = diag.FromErr e
              /\ ww' = provider.mkWorld (provider.data ww) rem calls')
           \/ (exists res rem,
                 api.CreateWebform team req (provider.remote ww) = ((Some res, None), rem)
                 /\ provider.resourceWebformRead
                      (provider.mkWorld
                         (provider.SetId
                            (Strconv.FormatUint10
                               (Strconv.uint64
                                  (api.Webform.ID (api.WebformRes.WebFormRes res))))
                            (provider.data ww))
                         rem calls') = Done (ds, ww'))).
Proof.
  intros a team. unfold provider.resourceWebformCreate. run. fold a team.
  destruct (provider.webformReqOf a) as [[ds0 | req] |] eqn:Hreq; [| | discriminate].
  - intros [= <- <-]. left. split; [by destruct ww |].
    by apply webformReqOf_Done_inl in Hreq.
  - intros Hrun. right. exists req. split; [done |]. cbv zeta.
    destruct (api.CreateWebform _ _ _) as [[[res |] [e |]] rem]; try discriminate.
    + left. injection Hrun as <- <-. by eexists _, _, _.
    + right. by eexists _, _.
    + left. injection Hrun as <- <-. by eexists _, _, _.
Qed.

(** Every way [resourceWebformUpdate] can end. *)
Lemma resourceWebformUpdate_shape ww ds ww' :
  let a := provider.attrs (provider.data ww) in
  let team := provider.WebformAttrs.team_id a in
  let id := provider.Id (provider.data ww) in
  provider.resourceWebformUpdate ww = Done (ds, ww') ->
  (ww' = ww /\ diag.HasError ds = true)
  \/ exists req,
       provider.webformReqOf a = Done (inr req)
       /\ let calls' := provider.calls ww ++ [provider.CallUpdateWebform team id req] in
          ((exists v e rem,
              api.UpdateWebform team id req (provider.remote ww) = ((v, Some e), rem)
              /\ ds = diag.FromErr e
              /\ ww' = provider.mkWorld (provider.data ww) rem calls')
           \/ (exists v rem,
                 api.UpdateWebform team id req (provider.remote ww) = ((v, None), rem)
                 /\ provider.resourceWebformRead
                      (provider.mkWorld (provider.data ww) rem calls') = Done (ds, ww'))).
Proof.
  intros a team id. unfold provider.resourceWebformUpdate. run. fold a team id.
  destruct (provider.webformReqOf a) as [[ds0 | req] |] eqn:Hreq; [| | discriminate].
  - intros [= <- <-]. left. split; [by destruct ww |].
    by apply webformReqOf_Done_inl in Hreq.
  - intros Hrun. right. exists req. split; [done |]. cbv zeta.
    destruct (api.UpdateWebform _ _ _ _) as [[v [e |]] rem].
    + left. injection Hrun as <- <-. by eexists _, _, _.
    + right. by eexists _, _.
Qed.

(** The calls a read makes, and what it does to the ID when
    [tf.EncodeAndSet] leaves the ID alone. *)
Lemma resourceWebformRead_shape ww ds ww' :
  let team := provider.WebformAttrs.team_id (provider.attrs (provider.data ww)) in
  let id := provider.Id (provider.data ww) in
  provider.resourceWebformRead ww = Done (ds, ww') ->
  (ww' = ww /\ team = "" /\ ds = diag.Errorf "invalid team id provided !")
  \/ (team <> ""
      /\ provider.calls ww' = provider.calls ww ++ [provider.CallGetWebformById team id]
      /\ ((forall (v : option api.Webform.t) d,
             provider.Id (provider.EncodeAndSet v d).1 = provider.Id d) ->
          provider.Id (provider.data ww') = id
          \/ provider.Id (provider.data ww') = "")).
Proof.
  intros team id. rewrite resourceWebformRead_unfold. cbv zeta. fold team id.
  destruct (String.eqb_spec team "") as [Hteam | Hteam].
  - intros [= <- <-]. by left.
  - intros Hrun. right. split; [done |].
    destruct (api.GetWebformById _ _ _) as [[webform [err |]] rem].
    + injection Hrun as <- <-. split; [done |]. intros _.
      destruct (api.IsResourceNotFoundError err); [by right | by left].
    + pose proof (fun Hset : forall (v : option api.Webform.t) d,
                    provider.Id (provider.EncodeAndSet v d).1 = provider.Id d =>
                    Hset webform (provider.data ww)) as Hid.
      destruct (provider.EncodeAndSet webform (provider.data ww)) as [d err].
      injection Hrun as <- <-. split; [done |]. intros Hset. left. by apply Hid.
Qed.

Lemma resourceScheduleRotationRead_shape wr ds wr' :
  let id := provider.Id (provider.data wr) in
  provider.resourceScheduleRotationRead wr = Done (ds, wr') ->
  provider.calls wr' = provider.calls wr ++ [provider.CallGetScheduleRotationById id]
  /\ ((forall (v : option api.RotationStruct.t) d,
         provider.Id (provider.EncodeAndSet v d).1 = provider.Id d) ->
      provider.Id (provider.data wr') = id \/ provider.Id (provider.data wr') = "").
Proof.
  intros id. rewrite resourceScheduleRotationRead_unfold. cbv zeta. fold id.
  destruct (api.GetScheduleRotationById _ _) as [[rotation [err |]] rem].
  - intros [= <- <-]. split; [done |]. intros _.
    destruct (api.IsResourceNotFoundError err); [by right | by left].
  - pose proof (fun Hset : forall (v : option api.RotationStruct.t) d,
                  provider.Id (provider.EncodeAndSet v d).1 = provider.Id d =>
                  Hset rotation (provider.data wr)) as Hid.
    destruct (provider.EncodeAndSet rotation (provider.data wr)) as [d err].
    intros [= <- <-]. split; [done |]. intros Hset. left. by apply Hid.
Qed.
End HandlerShapes.

(** ** Import, guards and deletion *)

Section ImportGuardDelete.
Context {Remote : Type} `{api.Methods Remote}.
Context `{provider.Setter api.Webform.t provider.WebformAttrs.t}.
Context `{provider.Parse2Part}.

Implicit Types (wr : provider.World Remote provider.RotationAttrs.t).
Implicit Types (ww : provider.World Remote provider.WebformAttrs.t).

Lemma resourceWebformDelete_unfold ww :
  provider.resourceWebformDelete ww =
    let id := provider.Id (provider.data ww) in
    let teamID := provider.WebformAttrs.team_id (provider.attrs (provider.data ww)) in
    let calls' := provider.calls ww ++ [provider.CallDeleteWebform teamID id] in
    if String.eqb teamID "" then Done (diag.Errorf "invalid team id provided", ww)
    else
      match api.DeleteWebform teamID id (provider.remote ww) with
      | ((_, Some err), rem) =>
          Done (if api.IsResourceNotFoundError err then [] else diag.FromErr err,
                provider.mkWorld
                  (if api.IsResourceNotFoundError err
                   then provider.SetId "" (provider.data ww) else provider.data ww)
                  rem calls')
      | ((_, None), rem) => Done ([], provider.mkWorld (provider.data ww) rem calls')
      end.
Proof.
  unfold provider.resourceWebformDelete. run. unfold provider.GetOkString. cbn zeta.
  destruct (String.eqb _ ""); cbn [negb]; [by destruct ww |].
  destruct (api.DeleteWebform _ _ _) as [[v [err |]] rem]; cbn; [| done].
  by destruct (api.IsResourceNotFoundError err).
Qed.

Lemma resourceScheduleRotationDelete_unfold wr :
  provider.resourceScheduleRotationDelete wr =
    let id := provider.Id (provider.data wr) in
    let calls' := provider.calls wr ++ [provider.CallDeleteScheduleRotationByID id] in
    match api.DeleteScheduleRotationByID id (provider.remote wr) with
    | ((_, Some err), rem) =>
        Done (if api.IsResourceNotFoundError err then [] else diag.FromErr err,
              provider.mkWorld
                (if api.IsResourceNotFoundError err
                 then provider.SetId "" (provider.data wr) else provider.data wr)
                rem calls')
    | ((_, None), rem) => Done ([], provider.mkWorld (provider.data wr) rem calls')
    end.
Proof.
  unfold provider.resourceScheduleRotationDelete. run.
  destruct (api.DeleteScheduleRotationByID _ _) as [[v [err |]] rem]; cbn; [| done].
  by destruct (api.IsResourceNotFoundError err).
Qed.

Lemma app_singleton_neq {A} (l : list A) (x : A) : l ++ [x] <> l.
Proof.
  intros Heq. apply (f_equal length) in Heq. rewrite length_app in Heq. cbn in Heq. lia.
Qed.

(** X6.  Importing a webform never calls the client and leaves the
    remote platform alone.  When [parse2PartImportID] splits the import
    ID into a team ID and a webform ID, the one resource handed back is
    the resource data itself, with [team_id] set to the first, the
    resource ID to the second, and every other attribute as it was; when
    it fails, its error is returned with no resource and nothing is
    changed. *)
Theorem webform_import ww :
  exists r ww',
    provider.resourceWebformImport ww = Done (r, ww')
    /\ provider.calls ww' = provider.calls ww
    /\ provider.remote ww' = provider.remote ww
    /\ match provider.parse2PartImportID (provider.Id (provider.data ww)) with
       | (teamID, id, None) =>
           r = ([provider.data ww'], None)
           /\ provider.Id (provider.data ww') = id
           /\ provider.attrs (provider.data ww')
              = provider.set_team_id teamID (provider.attrs (provider.data ww))
       | (_, _, Some e) => r = ([], Some e) /\ ww' = ww
       end.
Proof.
  unfold provider.resourceWebformImport. run.
  destruct (provider.parse2PartImportID _) as [[teamID id] [e |]].
  - eexists _, _. split; [done |]. by destruct ww.
  - eexists _, _. split; [done |]. by cbn.
Qed.


(** X8.  Deleting a rotation always returns, after exactly one client
    call, [DeleteScheduleRotationByID] on the resource ID, and never
    touches an attribute.  When the call succeeds there are no
    diagnostics and the resource data is unchanged; when it fails with a
    not-found error there are none either and the resource ID is
    cleared; on any other error the error is reported and the resource
    data is unchanged. *)
Theorem rotation_delete_outcome wr :
  let id := provider.Id (provider.data wr) in
  let answer := api.DeleteScheduleRotationByID id (provider.remote wr) in
  exists ds wr',
    provider.resourceScheduleRotationDelete wr = Done (ds, wr')
    /\ provider.calls wr' = provider.calls wr ++ [provider.CallDeleteScheduleRotationByID id]
    /\ provider.remote wr' = answer.2
    /\ provider.attrs (provider.data wr') = provider.attrs (provider.data wr)
    /\ match answer.1.2 with
       | None => ds = [] /\ provider.data wr' = provider.data wr
       | Some err =>
           if api.IsResourceNotFoundError err
           then ds = [] /\ provider.Id (provider.data wr') = ""
           else ds = diag.FromErr err /\ provider.data wr' = provider.data wr
       end.
Proof.
  intros id answer. rewrite resourceScheduleRotationDelete_unfold. cbn zeta.
  fold id. fold answer.
  destruct answer as [[v [err |]] rem]; eexists _, _; (split; [done |]); cbn.
  - by destruct (api.IsResourceNotFoundError err).
  - done.
Qed.

(** X9.  Deleting a webform: with an empty [team_id] the handler
    returns the error "invalid team id provided" and changes nothing;
    otherwise it always returns after exactly one client call,
    [DeleteWebform] on the team and the resource ID, never touches an
    attribute, and ends as the rotation's delete does: no diagnostics
    and the data unchanged on success, no diagnostics and the ID cleared
    on a not-found error, the error reported and the data unchanged on
    any other. *)
Theorem webform_delete_outcome ww :
  let id := provider.Id (provider.data ww) in
  let team := provider.WebformAttrs.team_id (provider.attrs (provider.data ww)) in
  let answer := api.DeleteWebform team id (provider.remote ww) in
  if String.eqb team ""
  then provider.resourceWebformDelete ww
       = Done (diag.Errorf "invalid team id provided", ww)
  else
    exists ds ww',
      provider.resourceWebformDelete ww = Done (ds, ww')
      /\ provider.calls ww' = provider.calls ww ++ [provider.CallDeleteWebform team id]
      /\ provider.remote ww' = answer.2
      /\ provider.attrs (provider.data ww') = provider.attrs (provider.data ww)
      /\ match answer.1.2 with
         | None => ds = [] /\ provider.data ww' = provider.data ww
         | Some err =>
             if api.IsResourceNotFoundError err
             then ds = [] /\ provider.Id (provider.data ww') = ""
             else ds = diag.FromErr err /\ provider.data ww' = provider.data ww
         end.
Proof.
  intros id team answer. rewrite resourceWebformDelete_unfold. cbn zeta.
  fold id. fold team. fold answer.
  destruct (String.eqb team ""); [done |].
  destruct answer as [[v [err |]] rem]; eexists _, _; (split; [done |]); cbn.
  - by destruct (api.IsResourceNotFoundError err).
  - done.
Qed.
End ImportGuardDelete.

(** ** What the handlers call, send and leave alone *)

Section HandlerInvariants.
Context {Remote : Type} `{api.Methods Remote}.
Context `{provider.Decoder api.Participant.t, provider.Decoder api.Timeslot.t}.
Context `{provider.Decoder api.WFService.t, provider.Decoder api.WFSeverity.t}.
Context `{provider.Setter api.RotationStruct.t provider.RotationAttrs.t}.
Context `{provider.Setter api.Webform.t provider.WebformAttrs.t}.
Context `{provider.Parse2Part}.

Implicit Types (wr : provider.World Remote provider.RotationAttrs.t).
Implicit Types (ww : provider.World Remote provider.WebformAttrs.t).

Local Ltac no_delete :=
  let Hex := fresh "Hex" in
  intros Hex;
  repeat (apply Exists_cons in Hex as [Hex | Hex]; [cbn in Hex; congruence |]);
  by apply Exists_nil in Hex.

Local Ltac solve_calls :=
  split_and!;
  [ first [by rewrite app_nil_r | done]
  | cbn; lia
  | first [no_delete | done]
  | done ].

(** X10.  The calls of the schedule-rotation handlers.  A handler that
    returns has made at most two client calls; a deleting call is made
    by the delete handler only, which makes no other; and a handler that
    returns without having called the client has turned the run down:
    its diagnostics carry an error and nothing has changed. *)
Theorem rotation_handlers_calls
    (h : provider.M (provider.World Remote provider.RotationAttrs.t) diag.Diagnostics)
    wr ds wr' :
  let R := provider.resourceScheduleRotation in
  h ∈ [provider.ReadContext R; provider.CreateContext R;
       provider.UpdateContext R; provider.DeleteContext R] ->
  h wr = Done (ds, wr') ->
  exists cs,
    provider.calls wr' = provider.calls wr ++ cs
    /\ (length cs <= 2)%nat
    /\ (Exists (fun c => provider.isDelete c = true) cs ->
        h = provider.DeleteContext R /\ length cs = 1%nat)
    /\ (cs = [] -> wr' = wr /\ diag.HasError ds = true).
Proof.
  intros R Hin Hrun.
  assert (Hcreate : provider.resourceScheduleRotationCreate wr = Done (ds, wr') ->
    exists cs,
      provider.calls wr' = provider.calls wr ++ cs
      /\ (length cs <= 2)%nat
      /\ (Exists (fun c => provider.isDelete c = true) cs -> False)
      /\ (cs = [] -> wr' = wr /\ diag.HasError ds = true)).
  { intros Hc. apply resourceScheduleRotationCreate_shape in Hc.
    destruct Hc as [[-> Herr] | (gs & ts & cp & _ & _ & _ & Hc)].
    - exists []. solve_calls.
    - cbv zeta in Hc. destruct Hc as [(v & e & rem & _ & -> & ->) | (rot & rem & _ & Hread)].
      + eexists [_]. solve_calls.
      + apply resourceScheduleRotationRead_shape in Hread as [Hcalls _].
        cbn in Hcalls. rewrite <- app_assoc in Hcalls. cbn in Hcalls.
        eexists [_; _]. solve_calls. }
  rewrite !elem_of_cons, elem_of_nil in Hin.
  destruct Hin as [-> | [-> | [-> | [-> | []]]]]; cbn in Hrun.
  - apply resourceScheduleRotationRead_shape in Hrun as [Hcalls _].
    eexists [_]. solve_calls.
  - destruct (Hcreate Hrun) as (cs & ? & ? & Hno & ?).
    exists cs. split_and!; try done; intros Hex; by destruct (Hno Hex).
  - destruct (Hcreate Hrun) as (cs & ? & ? & Hno & ?).
    exists cs. split_and!; try done; intros Hex; by destruct (Hno Hex).
  - rewrite resourceScheduleRotationDelete_unfold in Hrun. cbv zeta in Hrun.
    destruct (api.DeleteScheduleRotationByID _ _) as [[v [err |]] rem];
      injection Hrun as <- <-; eexists [_]; solve_calls.
Qed.

(** X11.  The calls of the webform handlers: the same discipline.  At
    most two client calls; a deleting call by the delete handler only,
    which makes no other; and no call at all only when the handler has
    turned the run down, with an error and nothing changed. *)
Theorem webform_handlers_calls
    (h : provider.M (provider.World Remote provider.WebformAttrs.t) diag.Diagnostics)
    ww ds ww' :
  let R := provider.resourceWebform in
  h ∈ [provider.ReadContext R; provider.CreateContext R;
       provider.UpdateContext R; provider.DeleteContext R] ->
  h ww = Done (ds, ww') ->
  exists cs,
    provider.calls ww' = provider.calls ww ++ cs
    /\ (length cs <= 2)%nat
    /\ (Exists (fun c => provider.isDelete c = true) cs ->
        h = provider.DeleteContext R /\ length cs = 1%nat)
    /\ (cs = [] -> ww' = ww /\ diag.HasError ds = true).
Proof.
  intros R Hin Hrun.
  assert (Hread : forall ww0 ds0 ww0',
    provider.resourceWebformRead ww0 = Done (ds0, ww0') ->
    (ww0' = ww0 /\ diag.HasError ds0 = true)
    \/ exists c, provider.isDelete c = false
         /\ provider.calls ww0' = provider.calls ww0 ++ [c]).
  { intros ww0 ds0 ww0' Hr. apply resourceWebformRead_shape in Hr.
    destruct Hr as [(-> & _ & ->) | (_ & Hcalls & _)]; [by left |].
    right. eexists. split; [| exact Hcalls]. done. }
  rewrite !elem_of_cons, elem_of_nil in Hin.
  destruct Hin as [-> | [-> | [-> | [-> | []]]]]; cbn in Hrun.
  - destruct (Hread _ _ _ Hrun) as [[-> Herr] | (c & Hc & Hcalls)].
    + exists []. solve_calls.
    + exists [c]. solve_calls.
  - apply resourceWebformCreate_shape in Hrun.
    destruct Hrun as [[-> Herr] | (req & _ & Hc)].
    + exists []. solve_calls.
    + cbv zeta in Hc.
      destruct Hc as [(v & e & rem & _ & -> & ->) | (res & rem & _ & Hr)].
      * eexists [_]. solve_calls.
      * destruct (Hread _ _ _ Hr) as [[-> Herr] | (c & Hc & Hcalls)].
        -- eexists [_]. solve_calls.
        -- cbn in Hcalls. rewrite <- app_assoc in Hcalls. cbn in Hcalls.
           eexists [_; c]. solve_calls.
  - apply resourceWebformUpdate_shape in Hrun.
    destruct Hrun as [[-> Herr] | (req & _ & Hc)].
    + exists []. solve_calls.
    + cbv zeta in Hc.
      destruct Hc as [(v & e & rem & _ & -> & ->) | (res & rem & _ & Hr)].
      * eexists [_]. solve_calls.
      * destruct (Hread _ _ _ Hr) as [[-> Herr] | (c & Hc & Hcalls)].
        -- eexists [_]. solve_calls.
        -- cbn in Hcalls. rewrite <- app_assoc in Hcalls. cbn in Hcalls.
           eexists [_; c]. solve_calls.
  - rewrite resourceWebformDelete_unfold in Hrun. cbv zeta in Hrun.
    destruct (String.eqb _ "").
    + injection Hrun as <- <-. exists []. solve_calls.
    + destruct (api.DeleteWebform _ _ _) as [[v [err |]] rem];
        injection Hrun as <- <-; eexists [_]; solve_calls.
Qed.
End HandlerInvariants.

(** ** The request of a rotation, and when the handlers return *)

Section RotationRequest.
Context {Remote : Type} `{api.Methods Remote}.
Context `{provider.Decoder api.Participant.t, provider.Decoder api.Timeslot.t}.
Context `{provider.Decoder api.WFService.t, provider.Decoder api.WFSeverity.t}.
Context `{provider.Setter api.RotationStruct.t provider.RotationAttrs.t}.
Context `{provider.Setter api.Webform.t provider.WebformAttrs.t}.

Implicit Types (wr : provider.World Remote provider.RotationAttrs.t).
Implicit Types (ww : provider.World Remote provider.WebformAttrs.t).

(** A [participant_groups] block and the group made of it. *)
Let groupOf (v : iface) (g : api.ParticipantGroup.t) : Prop :=
  exists m ps,
    v = IMap m
    /\ mapIndex m "participants" = IList ps
    /\ provider.Decode ps = inr (api.ParticipantGroup.Participants g)
    /\ api.ParticipantGroup.Everyone g = false.

Lemma participantGroupsLoop_groups (l : list iface) acc gs :
  provider.participantGroupsLoop l acc = Done (inr gs) ->
  exists gs', gs = acc ++ gs' /\ Forall2 groupOf l gs'.
Proof.
  revert acc. induction l as [| v l IH]; intros acc; cbn.
  - intros [= <-]. exists []. by rewrite app_nil_r.
  - destruct v as [| | | | | m |]; cbn; try discriminate.
    destruct (mapIndex m "participants") as [| | | | ps | |] eqn:Hps; cbn;
      try discriminate.
    destruct (provider.Decode ps) as [e | ok] eqn:Hd; [discriminate |].
    intros Hrest. destruct (IH _ Hrest) as (gs' & -> & Hall).
    eexists (_ :: gs'). rewrite <- app_assoc. split; [done |].
    constructor; [| done]. by exists m, ps.
Qed.

Lemma participantGroupsOf_groups a gs :
  provider.participantGroupsOf a = Done (inr gs) ->
  Forall2 groupOf (provider.RotationAttrs.participant_groups a) gs.
Proof.
  unfold provider.participantGroupsOf.
  destruct (provider.RotationAttrs.participant_groups a) as [| v l] eqn:Hl.
  - cbn. intros [= <-]. constructor.
  - cbn [length Nat.ltb Nat.leb]. intros Hloop.
    by apply participantGroupsLoop_groups in Hloop as (gs' & -> & Hall).
Qed.

Lemma shiftTimeSlotsOf_inr a ts :
  provider.shiftTimeSlotsOf a = inr ts ->
  (provider.RotationAttrs.period a <> "custom" ->
   (length (provider.RotationAttrs.shift_timeslots a) <= 1)%nat)
  /\ ((provider.RotationAttrs.shift_timeslots a = [] /\ ts = [])
      \/ (provider.RotationAttrs.shift_timeslots a <> []
          /\ provider.Decode (provider.RotationAttrs.shift_timeslots a) = inr ts)).
Proof.
  unfold provider.shiftTimeSlotsOf.
  destruct (provider.RotationAttrs.shift_timeslots a) as [| t l] eqn:Hl.
  - cbn. intros [= <-]. split; [lia | by left].
  - cbn [length Nat.ltb Nat.leb].
    destruct (String.eqb_spec (provider.RotationAttrs.period a) "custom") as [Hp | Hp];
      cbn [negb andb].
    + destruct (provider.Decode (t :: l)) as [e | ok]; [discriminate |].
      intros [= <-]. split; [done | by right].
    + destruct l as [| t' l]; cbn [length Nat.leb]; [| discriminate].
      destruct (provider.Decode [t]) as [e | ok]; [discriminate |].
      intros [= <-]. split; [cbn; lia | by right].
Qed.

Lemma customPeriodOf_inr a cp :
  provider.customPeriodOf a = inr cp ->
  cp = (provider.RotationAttrs.custom_period_frequency a,
        provider.RotationAttrs.custom_period_unit a)
  /\ (provider.RotationAttrs.period a = "custom"
      <-> provider.RotationAttrs.custom_period_frequency a <> 0)
  /\ (provider.RotationAttrs.period a = "custom"
      <-> provider.RotationAttrs.custom_period_unit a <> "").
Proof.
  unfold provider.customPeriodOf. cbn zeta.
  destruct (String.eqb_spec (provider.RotationAttrs.period a) "custom") as [Hp | Hp];
    destruct (Z.eqb_spec (provider.RotationAttrs.custom_period_frequency a) 0) as [Hf | Hf];
    destruct (String.eqb_spec (provider.RotationAttrs.custom_period_unit a) "") as [Hu | Hu];
    cbn [negb]; try discriminate; intros [= <-].
  - done.
  - rewrite Hf, Hu. split; [done |]. split; split; congruence.
Qed.

(** X12.  The request of a rotation.  Whenever
    [resourceScheduleRotationCreate] returns having called the client,
    its first call is [CreateScheduleRotation] on the configured
    [schedule_id], and the request carries ID 0, the configured scalar
    attributes, one group per [participant_groups] block, in order, with
    the block's decoded participants and [Everyone] false, and the
    decoded [shift_timeslots] (none when there is no block).  The custom
    period sent is the configured one, and it is set - frequency nonzero,
    unit non-empty - exactly when the period is custom; a period that is
    not custom comes with at most one [shift_timeslots] block. *)
Theorem rotation_create_request wr ds wr' :
  let a := provider.attrs (provider.data wr) in
  provider.resourceScheduleRotationCreate wr = Done (ds, wr') ->
  provider.calls wr' <> provider.calls wr ->
  exists req cs,
    provider.calls wr'
      = provider.calls wr
        ++ provider.CallCreateScheduleRotation (provider.RotationAttrs.schedule_id a) req
           :: cs
    /\ api.NewRotation.ID req = 0
    /\ api.NewRotation.Name req = provider.RotationAttrs.name a
    /\ api.NewRotation.StartDate req = provider.RotationAttrs.start_date a
    /\ api.NewRotation.Period req = provider.RotationAttrs.period a
    /\ api.NewRotation.ChangeParticipantsFrequency req
       = provider.RotationAttrs.change_participants_frequency a
    /\ api.NewRotation.ChangeParticipantsUnit req
       = provider.RotationAttrs.change_participants_unit a
    /\ api.NewRotation.EndDate req = provider.RotationAttrs.end_date a
    /\ api.NewRotation.EndsAfterIterations req
       = provider.RotationAttrs.ends_after_iterations a
    /\ api.NewRotation.CustomPeriodFrequency req
       = provider.RotationAttrs.custom_period_frequency a
    /\ api.NewRotation.CustomPeriodUnit req = provider.RotationAttrs.custom_period_unit a
    /\ (provider.RotationAttrs.period a = "custom"
        <-> api.NewRotation.CustomPeriodFrequency req <> 0)
    /\ (provider.RotationAttrs.period a = "custom"
        <-> api.NewRotation.CustomPeriodUnit req <> "")
    /\ Forall2
         (fun v g => exists m ps,
            v = IMap m
            /\ mapIndex m "participants" = IList ps
            /\ provider.Decode ps = inr (api.ParticipantGroup.Participants g)
            /\ api.ParticipantGroup.Everyone g = false)
         (provider.RotationAttrs.participant_groups a)
         (api.NewRotation.ParticipantGroups req)
    /\ ((provider.RotationAttrs.shift_timeslots a = []
         /\ api.NewRotation.ShiftTimeSlots req = [])
        \/ (provider.RotationAttrs.shift_timeslots a <> []
            /\ provider.Decode (provider.RotationAttrs.shift_timeslots a)
               = inr (api.NewRotation.ShiftTimeSlots req)))
    /\ (provider.RotationAttrs.period a <> "custom" ->
        (length (provider.RotationAttrs.shift_timeslots a) <= 1)%nat).
Proof.
  intros a Hrun Hcalled.
  apply resourceScheduleRotationCreate_shape in Hrun. fold a in Hrun.
  destruct Hrun as [[-> _] | (gs & ts & cp & Hg & Hs & Hc & Hrun)]; [done |].
  apply participantGroupsOf_groups in Hg.
  apply shiftTimeSlotsOf_inr in Hs as [Hone Hts].
  apply customPeriodOf_inr in Hc as (-> & Hfreq & Hunit).
  cbv zeta in Hrun.
  assert (Hcs : exists cs, provider.calls wr'
            = provider.calls wr
              ++ provider.CallCreateScheduleRotation
                   (provider.RotationAttrs.schedule_id a)
                   (api.NewRotation.mk 0
                      (provider.RotationAttrs.name a) gs
                      (provider.RotationAttrs.start_date a)
                      (provider.RotationAttrs.period a) ts
                      (provider.RotationAttrs.custom_period_frequency a)
                      (provider.RotationAttrs.custom_period_unit a)
                      (provider.RotationAttrs.change_participants_frequency a)
                      (provider.RotationAttrs.change_participants_unit a)
                      (provider.RotationAttrs.end_date a)
                      (provider.RotationAttrs.ends_after_iterations a)) :: cs).
  { destruct Hrun as [(v & e & rem & _ & _ & ->) | (rot & rem & _ & Hread)].
    - by exists [].
    - apply resourceScheduleRotationRead_shape in Hread as [Hcalls _].
      cbn in Hcalls. rewrite <- app_assoc in Hcalls. by eexists. }
  destruct Hcs as (cs & Hcs). eexists _, cs. split; [exact Hcs |].
  cbn. by split_and!.
Qed.

(** *** No panic on typed input *)

Lemma participantGroupsLoop_returns (l : list iface) acc :
  Forall (fun v => forall m, v = IMap m ->
                   exists ps, mapIndex m "participants" = IList ps) l ->
  exists r, provider.participantGroupsLoop l acc = Done r.
Proof.
  intros Hall. revert acc. induction Hall as [| v l Hv _ IH]; intros acc; cbn.
  - by eexists.
  - destruct v as [| | | | | m |]; cbn; try by eexists.
    destruct (Hv m eq_refl) as (ps & ->). cbn.
    destruct (provider.Decode ps) as [e | ok]; [by eexists | apply IH].
Qed.

(** X13.  When every [participant_groups] block that is an object holds
    a list under [participants], as the schema types it, and the client
    does not answer [CreateScheduleRotation] with neither a rotation nor
    an error, [resourceScheduleRotationCreate] returns: no type
    assertion and no nil dereference panics. *)
Theorem rotation_create_returns wr :
  let a := provider.attrs (provider.data wr) in
  Forall (fun v => forall m, v = IMap m ->
                   exists ps, mapIndex m "participants" = IList ps)
         (provider.RotationAttrs.participant_groups a) ->
  (forall req rem,
     api.CreateScheduleRotation (provider.RotationAttrs.schedule_id a) req
       (provider.remote wr) <> ((None, None), rem)) ->
  exists ds wr', provider.resourceScheduleRotationCreate wr = Done (ds, wr').
Proof.
  intros a Htyped Hclient.
  assert (Hg : exists r, provider.participantGroupsOf a = Done r).
  { unfold provider.participantGroupsOf. case_match; [| by eexists].
    by apply participantGroupsLoop_returns. }
  destruct Hg as ([ds0 | gs] & Hg).
  { unfold provider.resourceScheduleRotationCreate. run. fold a. rewrite Hg.
    by eexists _, _. }
  destruct (provider.shiftTimeSlotsOf a) as [ds0 | ts] eqn:Hs.
  { unfold provider.resourceScheduleRotationCreate. run. fold a. rewrite Hg, Hs.
    by eexists _, _. }
  destruct (provider.customPeriodOf a) as [ds0 | cp] eqn:Hc.
  { unfold provider.resourceScheduleRotationCreate. run. fold a. rewrite Hg, Hs, Hc.
    by eexists _, _. }
  rewrite (resourceScheduleRotationCreate_proceeds wr gs ts cp Hg Hs Hc). fold a.
  match goal with
  | |- context [api.CreateScheduleRotation ?sid ?req ?rem] =>
      pose proof (Hclient req) as Hreq;
      destruct (api.CreateScheduleRotation sid req rem) as [[[rot |] [e |]] rem']
  end.
  - by eexists _, _.
  - rewrite resourceScheduleRotationRead_unfold. cbv zeta.
    destruct (api.GetScheduleRotationById _ _) as [[rotation [err |]] rem2];
      [by eexists _, _ |].
    destruct (provider.EncodeAndSet _ _) as [d err]. by eexists _, _.
  - by eexists _, _.
  - by destruct (Hreq rem').
Qed.

(** X14.  When [email_on] and [tags] hold strings, as the schema types
    them, [resourceWebformUpdate] returns whatever the client answers -
    it never looks into the webform [UpdateWebform] hands back - and
    [resourceWebformCreate] returns unless the client answers
    [CreateWebform] with neither a webform nor an error. *)
Theorem webform_create_update_return ww (emailon : list string)
    (tags : gmap string string) :
  let a := provider.attrs (provider.data ww) in
  provider.WebformAttrs.email_on a = IStr <$> emailon ->
  provider.WebformAttrs.tags a = IStr <$> tags ->
  (exists ds ww', provider.resourceWebformUpdate ww = Done (ds, ww'))
  /\ ((forall req rem,
         api.CreateWebform (provider.WebformAttrs.team_id a) req (provider.remote ww)
           <> ((None, None), rem)) ->
      exists ds ww', provider.resourceWebformCreate ww = Done (ds, ww')).
Proof.
  intros a Hemail Htags.
  assert (Hread : forall ww0, exists ds ww0',
            provider.resourceWebformRead ww0 = Done (ds, ww0')).
  { intros ww0. rewrite resourceWebformRead_unfold. cbv zeta.
    destruct (String.eqb _ ""); [by eexists _, _ |].
    destruct (api.GetWebformById _ _ _) as [[webform [err |]] rem];
      [by eexists _, _ |].
    destruct (provider.EncodeAndSet _ _) as [d err]. by eexists _, _. }
  assert (Hreq : exists r, provider.webformReqOf a = Done r).
  { unfold provider.webformReqOf.
    symmetry in Hemail. apply emailOnLoop_Done in Hemail. rewrite Hemail. cbn.
    destruct (provider.Decode (provider.WebformAttrs.services a)); [by eexists |].
    destruct (provider.Decode (provider.WebformAttrs.severity a)); [by eexists |].
    symmetry in Htags. apply tagsLoop_Done in Htags. rewrite Htags. cbn. by eexists. }
  destruct Hreq as (r & Hreq). split.
  - unfold provider.resourceWebformUpdate. run. fold a. rewrite Hreq.
    destruct r as [ds0 | req]; [by eexists _, _ |].
    destruct (api.UpdateWebform _ _ _ _) as [[v [e |]] rem]; [by eexists _, _ |].
    apply Hread.
  - intros Hclient.
    unfold provider.resourceWebformCreate. run. fold a. rewrite Hreq.
    destruct r as [ds0 | req]; [by eexists _, _ |].
    pose proof (Hclient req) as Hnil.
    destruct (api.CreateWebform _ _ _) as [[[res |] [e |]] rem].
    + by eexists _, _.
    + apply Hread.
    + by eexists _, _.
    + by destruct (Hnil rem).
Qed.
End RotationRequest.
(** ** The properties at work on the in-memory platform *)

Import Fake.

(** Name the world a handler run ends in. *)
Ltac run_to_world h :=
  match eval vm_compute in h with
  | Done (_, ?w) => exists w
  end.

(** A read of a webform that is gone clears the resource ID; a read
    while the platform is down reports the error and keeps the ID. *)
Lemma drift_detection_witness :
  (exists w',
     provider.resourceWebformRead (world "5" (webform [] ∅) empty) = Done ([], w')
     /\ provider.Id (provider.data w') = "")
  /\ (exists w',
        provider.resourceWebformRead
          (world "5" (webform [] ∅) (mk [] [] 1 true))
          = Done (diag.FromErr unavailable, w')
        /\ provider.Id (provider.data w') = "5").
Proof.
  split.
  - destruct (drift_detection
                (world "5" (webform [] ∅) empty)
                (world "9" (rotation "daily" [timeslot 9 0 60] 0 "") empty)
                notFound) as (Hread & _); [discriminate |].
    eexists. split; [exact (Hread None empty eq_refl) | reflexivity].
  - destruct (drift_detection
                (world "5" (webform [] ∅) (mk [] [] 1 true))
                (world "9" (rotation "daily" [timeslot 9 0 60] 0 "") empty)
                unavailable) as (Hread & _); [discriminate |].
    eexists. split; [exact (Hread None (mk [] [] 1 true) eq_refl) | reflexivity].
Defined.





(** A request is built from a configuration, and the webform created
    on the empty platform, the first, leaves the resource ID 1. *)
Lemma webform_create_request_witness :
  (exists req,
     provider.webformReqOf (webform [IStr "triggered"] {[ "env" := IStr "prod" ]})
       = Done (inr req)
     /\ api.WebformReq.EmailOn req = ["triggered"]
     /\ api.WebformReq.Tags req = {[ "env" := "prod" ]})
  /\ (exists w',
        provider.resourceWebformCreate
          (world "" (webform [IStr "triggered"] {[ "env" := IStr "prod" ]}) empty)
          = Done ([], w')
        /\ provider.Id (provider.data w') = "1").
Proof.
  split.
  - destruct (proj1 (proj2 (webform_create_request
                (world "" (webform [IStr "triggered"] {[ "env" := IStr "prod" ]}) empty)))
                ["triggered"] {[ "env" := "prod" ]}
                [api.WFService.mk "svc-1" 0 "checkout" ""]
                [api.WFSeverity.mk "high" "urgent"]
                eq_refl eq_refl eq_refl eq_refl)
      as (req & Hreq & Hemail & Htags & _).
    exists req. split; [exact Hreq | split; [exact Hemail | exact Htags]].
  - match eval vm_compute in
      (provider.webformReqOf (webform [IStr "triggered"] {[ "env" := IStr "prod" ]})) with
    | Done (inr ?req) =>
        match eval vm_compute in (api.CreateWebform "team-1" req empty) with
        | ((Some ?res, None), ?rem) =>
            match eval vm_compute in
              (provider.resourceWebformCreate
                 (world "" (webform [IStr "triggered"] {[ "env" := IStr "prod" ]})
                    empty)) with
            | Done (?ds, ?w1) =>
                exists w1; split; [vm_compute; reflexivity |];
                refine (proj2 (proj2 (proj2 (webform_create_request
                          (world ""
                             (webform [IStr "triggered"] {[ "env" := IStr "prod" ]})
                             empty))))
                          req res rem ds w1 _ _ _ _ _)
            end
        end
    end.
    + vm_compute. reflexivity.
    + vm_compute. reflexivity.
    + vm_compute. split; [discriminate | reflexivity].
    + intros [v |] d; reflexivity.
    + vm_compute. reflexivity.
Defined.

(** The encoding of a schedule carries [team_id]; the encoding of a new
    schedule carries the owner's ID as [team_id], whatever its [TeamID],
    and one map for its one tag. *)
Lemma schedule_encode_witness :
  (exists m,
     api.Schedule_Encode schedule = (Some m, None)
     /\ m !! "team_id" = Some (IStr "team-1"))
  /\ (exists m mt,
        api.NewSchedule_Encode (newSchedule (Some (api.Owner.mk "team-1" "team")))
          = Done (Some m, None)
        /\ m !! "team_id" = Some (IStr "team-1")
        /\ m !! "tags" = Some (IList [IMap mt])
        /\ dom mt = {[ "key"; "value"; "color" ]}
        /\ inr <$> mt !! "key" = Some (inr (IStr "env") : error + iface)
        /\ inr <$> mt !! "value" = Some (inr (IStr "prod") : error + iface)
        /\ inr <$> mt !! "color" = Some (inr (IStr "#ff0000") : error + iface)).
Proof.
  destruct (schedule_encode schedule
              (newSchedule (Some (api.Owner.mk "team-1" "team")))
              (api.Owner.mk "team-1" "team") eq_refl)
    as (Hschedule & _ & _ & Hnew & _).
  split.
  - eexists. split; [reflexivity |].
    eapply Hschedule. reflexivity.
  - match eval vm_compute in
      (api.NewSchedule_Encode (newSchedule (Some (api.Owner.mk "team-1" "team")))) with
    | Done (Some ?m, None) =>
        destruct (Hnew m ltac:(vm_compute; reflexivity))
          as (_ & Hteam & _ & _ & _ & _ & tagsEncoded & Htags & Hall);
        exists m
    end.
    inversion Hall as [| tag v tags vs (mt & -> & Hdom & Hkey & Hvalue & Hcolor) Hrest];
      subst.
    inversion Hrest; subst.
    exists mt. split; [vm_compute; reflexivity |].
    split; [exact Hteam |]. split; [exact Htags |]. split; [exact Hdom |].
    split; [exact Hkey |]. split; [exact Hvalue | exact Hcolor].
Defined.





(** Without an owner the encoding of a new schedule panics. *)
Lemma NewSchedule_Encode_owner_witness :
  (exists msg, api.NewSchedule_Encode (newSchedule None) = Panic msg)
  /\ exists r, api.NewSchedule_Encode
                 (newSchedule (Some (api.Owner.mk "team-1" "team"))) = Done r.
Proof.
  split.
  - destruct (NewSchedule_Encode_owner (newSchedule None)) as (_ & Hnil & _).
    destruct (Hnil eq_refl) as [Hpanic _].
    eapply Hpanic. reflexivity.
  - destruct (NewSchedule_Encode_owner
                (newSchedule (Some (api.Owner.mk "team-1" "team")))) as (Hsome & _).
    apply Hsome. by eexists.
Defined.

(** ** The further properties at work on the in-memory platform *)

(** The resource ID 42, as the handlers write it, goes out as 42. *)
Lemma schedule_v2_decimal_id_witness :
  api.sent (api.GetScheduleV2ById client "42" (api.mkWorld tt [])).2
    = [api.GraphQL "query" {[ "ID" := api.VInt64 42 ]}].
Proof.
  exact (proj2 (proj2
           (schedule_v2_decimal_id client (api.mkWorld tt []) 42%Z
              (conj (fun Hgt : (- 2 ^ 63 ?= 42)%Z = Gt => eq_ind Lt
                       (fun c => match c with Gt => False | _ => True end) I Gt Hgt)
                    eq_refl)))).
Defined.

(** The rotation named primary is imported under its ID, 1. *)
Lemma rotation_import_witness :
  exists w',
    provider.resourceScheduleRotationImport
      (world "team-1:oncall:primary" (rotation "daily" [] 0 "") stocked)
      = Done (([provider.data w'], None), w')
    /\ provider.Id (provider.data w') = "1"
    /\ provider.calls w' = [provider.CallGetRotationByName "team-1" "oncall" "primary"].
Proof.
  pose proof (proj1 (rotation_import
                (world "team-1:oncall:primary" (rotation "daily" [] 0 "") stocked)
                "team-1" "oncall" "primary")
              ltac:(discriminate) ltac:(discriminate) ltac:(discriminate)
              eq_refl eq_refl eq_refl) as Himport.
  match eval vm_compute in
    (provider.resourceScheduleRotationImport
       (world "team-1:oncall:primary" (rotation "daily" [] 0 "") stocked)) with
  | Done (_, ?w) => exists w
  end.
  split; [| split; vm_compute; reflexivity].
  rewrite Himport. vm_compute. reflexivity.
Defined.

(** The ID of a webform import, [teamID:ID], is no rotation import ID. *)
Lemma parse3PartImportID_two_parts_witness :
  provider.parse3PartImportID "team-1:42"
    = ("", "", "",
       Some (mkError
         "unexpected format of import resource id (team-1:42), expected teamID:ID")).
Proof.
  exact (proj2 (parse3PartImportID_two_parts "team-1" "42" eq_refl) eq_refl).
Defined.

(** Updating the rotation 1 makes two calls, neither a deletion. *)
Lemma rotation_handlers_calls_witness :
  exists ds w' cs,
    provider.UpdateContext provider.resourceScheduleRotation
      (world "1" (rotation "daily" [timeslot 9 0 60] 0 "") stocked) = Done (ds, w')
    /\ provider.calls w' = cs
    /\ (length cs <= 2)%nat.
Proof.
  match eval vm_compute in
    (provider.UpdateContext provider.resourceScheduleRotation
       (world "1" (rotation "daily" [timeslot 9 0 60] 0 "") stocked)) with
  | Done (?ds, ?w) =>
      destruct (rotation_handlers_calls
                  (provider.UpdateContext provider.resourceScheduleRotation)
                  (world "1" (rotation "daily" [timeslot 9 0 60] 0 "") stocked)
                  ds w)
        as (cs & Hcalls & Hlen & _);
      [ apply list_elem_of_further, list_elem_of_further, list_elem_of_here
      | vm_compute; reflexivity
      | exists ds, w, cs ]
  end.
  split; [vm_compute; reflexivity | split; [exact Hcalls | exact Hlen]].
Defined.

(** Deleting the webform 1 makes one call. *)
Lemma webform_handlers_calls_witness :
  exists ds w' cs,
    provider.DeleteContext provider.resourceWebform
      (world "1" (webform [] ∅) stocked) = Done (ds, w')
    /\ provider.calls w' = cs
    /\ (length cs <= 2)%nat.
Proof.
  match eval vm_compute in
    (provider.DeleteContext provider.resourceWebform
       (world "1" (webform [] ∅) stocked)) with
  | Done (?ds, ?w) =>
      destruct (webform_handlers_calls
                  (provider.DeleteContext provider.resourceWebform)
                  (world "1" (webform [] ∅) stocked)
                  ds w)
        as (cs & Hcalls & Hlen & _);
      [ apply list_elem_of_further, list_elem_of_further, list_elem_of_further,
          list_elem_of_here
      | vm_compute; reflexivity
      | exists ds, w, cs ]
  end.
  split; [vm_compute; reflexivity | split; [exact Hcalls | exact Hlen]].
Defined.

(** The request of a daily rotation with one group: one group, no custom
    period. *)
Lemma rotation_create_request_witness :
  exists ds w' req cs,
    provider.resourceScheduleRotationCreate (world "" oneGroup empty) = Done (ds, w')
    /\ provider.calls w' = provider.CallCreateScheduleRotation 7 req :: cs
    /\ api.NewRotation.Name req = "primary"
    /\ api.NewRotation.CustomPeriodFrequency req = 0
    /\ length (api.NewRotation.ParticipantGroups req) = 1%nat.
Proof.
  match eval vm_compute in
    (provider.resourceScheduleRotationCreate (world "" oneGroup empty)) with
  | Done (?ds, ?w) =>
      destruct (rotation_create_request (world "" oneGroup empty) ds w)
        as (req & cs & Hcalls & _ & Hname & _ & _ & _ & _ & _ & _ & Hfreq & _ & _ & _
            & Hgroups & _);
      [ vm_compute; reflexivity
      | vm_compute; discriminate
      | exists ds, w, req, cs ]
  end.
  split; [vm_compute; reflexivity |].
  split; [exact Hcalls |]. split; [exact Hname |]. split; [exact Hfreq |].
  symmetry. exact (Forall2_length _ _ _ Hgroups).
Defined.

(** On the in-memory platform, which always answers a creation with a
    rotation or an error, the creation of a typed configuration
    returns. *)
Lemma rotation_create_returns_witness :
  exists ds w',
    provider.resourceScheduleRotationCreate (world "" oneGroup empty) = Done (ds, w').
Proof.
  apply (rotation_create_returns (world "" oneGroup empty)).
  - repeat constructor. intros m [= <-]. eexists. vm_compute. reflexivity.
  - intros req rem Heq. cbn in Heq. discriminate Heq.
Defined.

(** A webform configuration of strings: update and create return. *)
Lemma webform_create_update_return_witness :
  (exists ds w',
     provider.resourceWebformUpdate
       (world "1" (webform [IStr "triggered"] {[ "env" := IStr "prod" ]}) stocked)
       = Done (ds, w'))
  /\ (exists ds w',
        provider.resourceWebformCreate
          (world "1" (webform [IStr "triggered"] {[ "env" := IStr "prod" ]}) stocked)
          = Done (ds, w')).
Proof.
  destruct (webform_create_update_return
              (world "1" (webform [IStr "triggered"] {[ "env" := IStr "prod" ]}) stocked)
              ["triggered"] {[ "env" := "prod" ]} eq_refl eq_refl)
    as [Hupdate Hcreate].
  split; [exact Hupdate |].
  apply Hcreate. intros req rem Heq. cbn in Heq. discriminate Heq.
Defined.
